(** * aca-ally: AI answer orchestration, chat persistence and post ranking

    A shallow embedding of the parts of the platform that decide which AI
    provider answers a homework question, how chat turns reach the browser's
    local cache, and how posts are ranked and measured:

    - [client/src/lib/chatStorageService.ts]   (module [ChatStorage])
    - [client/src/lib/localAuth.ts], [geminiService.ts],
      [perplexityService.ts], [openai.ts]      (module [Providers])
    - [client/src/lib/homeworkHelpService.ts]  (module [HomeworkHelp])
    - [server/openai.ts], [server/perplexity.ts], [server/gemini.ts]
                                               (module [ServerClients])
    - [server/storage.ts]                      (module [Storage])

    Asynchronous functions are embedded as computations over an explicit
    world: a promise that rejects is a thrown outcome, [await] is sequencing. *)

From Stdlib Require Import ZArith List String Ascii Bool Lia.
From Stdlib Require Import Permutation Sorted.
From Stdlib Require Import DecimalString.
From Stdlib Require Import PrimFloat FloatOps SpecFloat Uint63.
Import ListNotations.

Open Scope Z_scope.
Open Scope string_scope.
Open Scope list_scope.

(* ================================================================== *)
(** ** JavaScript values and string operations used by the sources *)

Module Js.

(** A line feed, the [\n] of the template literals. *)
Definition nl : string := String (ascii_of_nat 10) EmptyString.

(** [s.includes(sub)]. *)
Fixpoint includes (s sub : string) : bool :=
  String.prefix sub s
  || match s with
     | EmptyString => false
     | String _ rest => includes rest sub
     end.

Definition lowerAscii (c : ascii) : ascii :=
  let n := nat_of_ascii c in
  if ((65 <=? n) && (n <=? 90))%nat then ascii_of_nat (n + 32) else c.

(** [s.toLowerCase()], on the ASCII letters. *)
Fixpoint toLowerCase (s : string) : string :=
  match s with
  | EmptyString => EmptyString
  | String c rest => String (lowerAscii c) (toLowerCase rest)
  end.

(** [n.toString()] for an integer-valued number. *)
Definition toString (n : Z) : string := NilZero.string_of_int (Z.to_int n).

(** [x || d] where [x] is a [number | null] holding an integer: [null] and
    [0] are falsy. *)
Definition orElse (x : option Z) (d : Z) : Z :=
  match x with
  | None => d
  | Some v => if Z.eqb v 0 then d else v
  end.

(** [s || d] for a [string | null]: [null] and the empty string are
    falsy. *)
Definition strOrElse (x : option string) (d : string) : string :=
  match x with
  | None => d
  | Some EmptyString => d
  | Some s => s
  end.

End Js.

(* ================================================================== *)
(** ** Computations that may throw, over a state *)

Inductive Outcome (A : Type) : Type :=
| Returned (a : A)
| Thrown (message : string).
Arguments Returned {A} a.
Arguments Thrown {A} message.

Definition M (S A : Type) : Type := S -> Outcome A * S.

Definition ret {S A} (a : A) : M S A := fun s => (Returned a, s).

Definition throw {S A} (message : string) : M S A := fun s => (Thrown message, s).

Definition bind {S A B} (m : M S A) (k : A -> M S B) : M S B :=
  fun s =>
    match m s with
    | (Returned a, s') => k a s'
    | (Thrown e, s') => (Thrown e, s')
    end.

(** [try { body } catch (error) { handler }]. *)
Definition tryCatch {S A} (body : M S A) (handler : string -> M S A) : M S A :=
  fun s =>
    match body s with
    | (Returned a, s') => (Returned a, s')
    | (Thrown e, s') => handler e s'
    end.

Definition gets {S A} (f : S -> A) : M S A := fun s => (Returned (f s), s).

Definition modify {S} (f : S -> S) : M S unit := fun s => (Returned tt, f s).

Declare Scope js_scope.
Delimit Scope js_scope with js.
Notation "x <- m ;; k" := (bind m (fun x => k))
  (at level 100, m at next level, right associativity) : js_scope.
Notation "m ;;; k" := (bind m (fun _ => k))
  (at level 100, right associativity) : js_scope.
Open Scope js_scope.

Definition returned {A} (o : Outcome A) : bool :=
  match o with Returned _ => true | Thrown _ => false end.

(* ================================================================== *)
(** ** The browser world seen by the client services *)

Inductive Role : Type := user | assistant.

Module ChatMessage.
(** [createdAt] holds the instant behind the ISO string, in epoch
    milliseconds. *)
Record t : Type := mk {
  id : string;
  userId : Z;
  content : string;
  role : Role;
  createdAt : Z
}.
End ChatMessage.

Module ChatSession.
Record t : Type := mk {
  userId : Z;
  messages : list ChatMessage.t;
  lastUpdated : Z
}.
End ChatSession.

Module LocalUser.
Record t : Type := mk {
  id : Z;
  username : string;
  email : string;
  isAuthenticated : bool
}.
End LocalUser.

(** What [localStorage.getItem(key)] followed by [JSON.parse] can meet:
    no entry (or an empty one), text that does not parse to the expected
    shape, or a value. *)
Inductive Stored (A : Type) : Type :=
| Absent
| Malformed
| Parsed (a : A).
Arguments Absent {A}.
Arguments Malformed {A}.
Arguments Parsed {A} a.

(** What [fetch] can give: a rejected promise, or a response with its [ok]
    flag and, when the body parses, the text field the caller reads. *)
Inductive FetchResult : Type :=
| NetworkFailure
| Response (ok : bool) (body : option string).

Module World.
Record t : Type := mk {
  (** localStorage entry under [CHAT_STORAGE_KEY] *)
  chatStore : Stored (list ChatSession.t);
  (** localStorage entry under the user key of localAuth.ts *)
  userStore : Stored LocalUser.t;
  (** [localStorage.setItem] throws (quota exceeded, storage disabled) *)
  setItemThrows : bool;
  (** [Date.now()] *)
  clock : Z;
  (** successive results of [Math.random().toString(36).substring(2, 9)] *)
  randomSalt : nat -> string;
  draws : nat;
  (** whether [fetch('/api/chat/save')] and [fetch('/api/chat/clear')]
      reach the server, and what the server received *)
  chatApiReachable : bool;
  serverInbox : list ChatMessage.t;
  serverClears : list Z;
  (** replies of the homework endpoints, by subject and question *)
  geminiHomeworkApi : string -> string -> FetchResult;
  perplexityHomeworkApi : string -> string -> FetchResult;
  openaiHomeworkApi : string -> string -> FetchResult;
  (** the browser-side Gemini SDK: [chat.sendMessage(text)] resolves with
      the answer text or rejects *)
  geminiSdk : string -> option string
}.

Definition withChatStore (v : Stored (list ChatSession.t)) (w : t) : t :=
  mk v (userStore w) (setItemThrows w) (clock w) (randomSalt w) (draws w)
     (chatApiReachable w) (serverInbox w) (serverClears w)
     (geminiHomeworkApi w) (perplexityHomeworkApi w) (openaiHomeworkApi w)
     (geminiSdk w).

Definition withDraws (n : nat) (w : t) : t :=
  mk (chatStore w) (userStore w) (setItemThrows w) (clock w) (randomSalt w) n
     (chatApiReachable w) (serverInbox w) (serverClears w)
     (geminiHomeworkApi w) (perplexityHomeworkApi w) (openaiHomeworkApi w)
     (geminiSdk w).

Definition withServerInbox (l : list ChatMessage.t) (w : t) : t :=
  mk (chatStore w) (userStore w) (setItemThrows w) (clock w) (randomSalt w)
     (draws w) (chatApiReachable w) l (serverClears w)
     (geminiHomeworkApi w) (perplexityHomeworkApi w) (openaiHomeworkApi w)
     (geminiSdk w).

Definition withServerClears (l : list Z) (w : t) : t :=
  mk (chatStore w) (userStore w) (setItemThrows w) (clock w) (randomSalt w)
     (draws w) (chatApiReachable w) (serverInbox w) l
     (geminiHomeworkApi w) (perplexityHomeworkApi w) (openaiHomeworkApi w)
     (geminiSdk w).
End World.

Definition Client (A : Type) : Type := M World.t A.

(* ================================================================== *)
(** ** client/src/lib/chatStorageService.ts *)

Module ChatStorage.

(** The argument of [saveChatMessageToStorage]:
    [{ role, content, userId? }]. *)
Record MessageInput : Type := mkInput {
  inRole : Role;
  inContent : string;
  inUserId : option Z
}.

(** [Date.now()] and [new Date().toISOString()] read the clock. *)
Definition now : Client Z := gets World.clock.

(** [Date.now().toString() + Math.random().toString(36).substring(2, 9)] *)
Definition generateUniqueId : Client string :=
  t <- now ;;
  n <- gets World.draws ;;
  salt <- gets (fun w => World.randomSalt w n) ;;
  modify (World.withDraws (S n)) ;;;
  ret (Js.toString t ++ salt)%string.

(** [localStorage.getItem(CHAT_STORAGE_KEY)], then [JSON.parse] when the
    entry is there; [onAbsent] is what the caller does with no entry. *)
Definition readSessions (onAbsent : list ChatSession.t) : Client (list ChatSession.t) :=
  stored <- gets World.chatStore ;;
  match stored with
  | Absent => ret onAbsent
  | Malformed => throw "SyntaxError: Unexpected token in JSON"
  | Parsed sessions => ret sessions
  end.

(** [localStorage.setItem(CHAT_STORAGE_KEY, JSON.stringify(sessions))] *)
Definition writeSessions (sessions : list ChatSession.t) : Client unit :=
  fails <- gets World.setItemThrows ;;
  if fails : bool
  then throw "QuotaExceededError"
  else modify (World.withChatStore (Parsed sessions)).

Definition isSessionOf (uid : Z) (s : ChatSession.t) : bool :=
  Z.eqb (ChatSession.userId s) uid.

(** [loadChatHistoryFromStorage] *)
Definition loadChatHistoryFromStorage (uid : Z) (w : World.t) : list ChatMessage.t :=
  match World.chatStore w with
  | Absent => []
  | Malformed => []
  | Parsed sessions =>
      match find (isSessionOf uid) sessions with
      | Some userSession => ChatSession.messages userSession
      | None => []
      end
  end.

(** [submitChatMessageToServer]: the rejection of [fetch] is caught and
    logged; a response is not inspected. *)
Definition submitChatMessageToServer (message : ChatMessage.t) : Client unit :=
  tryCatch
    (up <- gets World.chatApiReachable ;;
     if up : bool
     then modify (fun w => World.withServerInbox (World.serverInbox w ++ [message]) w)
     else throw "TypeError: Failed to fetch")
    (fun _ => ret tt).

(** [userSession.messages.push(newMessage); userSession.lastUpdated = ...]
    on the session [sessions.find] returned: the first one of the user. *)
Fixpoint pushToSession (uid : Z) (newMessage : ChatMessage.t) (stamp : Z)
         (sessions : list ChatSession.t) : list ChatSession.t :=
  match sessions with
  | [] => []
  | s :: rest =>
      if isSessionOf uid s
      then ChatSession.mk (ChatSession.userId s)
                          (ChatSession.messages s ++ [newMessage]) stamp :: rest
      else s :: pushToSession uid newMessage stamp rest
  end.

(** [saveChatMessageToStorage] *)
Definition saveChatMessageToStorage (uid : Z) (message : MessageInput)
  : Client ChatMessage.t :=
  tryCatch
    (newId <- generateUniqueId ;;
     created <- now ;;
     let newMessage :=
       ChatMessage.mk newId uid (inContent message) (inRole message) created in
     sessions <- readSessions [] ;;
     stamp <- now ;;
     let sessions' :=
       match find (isSessionOf uid) sessions with
       | Some _ => pushToSession uid newMessage stamp sessions
       | None => sessions ++ [ChatSession.mk uid [newMessage] stamp]
       end in
     writeSessions sessions' ;;;
     submitChatMessageToServer newMessage ;;;
     ret newMessage)
    (fun _ =>
       fallbackId <- generateUniqueId ;;
       created <- now ;;
       ret (ChatMessage.mk fallbackId uid (inContent message) (inRole message) created)).

(** [clearChatHistory]: with no entry the function returns at once; the
    rejection of the server call is caught by its own [.catch]. *)
Definition clearChatHistory (uid : Z) : Client unit :=
  tryCatch
    (stored <- gets World.chatStore ;;
     match stored with
     | Absent => ret tt
     | Malformed => throw "SyntaxError: Unexpected token in JSON"
     | Parsed sessions =>
         writeSessions (filter (fun s => negb (isSessionOf uid s)) sessions) ;;;
         up <- gets World.chatApiReachable ;;
         if up : bool
         then modify (fun w => World.withServerClears (World.serverClears w ++ [uid]) w)
         else ret tt
     end)
    (fun _ => ret tt).

(** The sessions held in the local cache ([[]] when there is none to read). *)
Definition cachedSessions (w : World.t) : list ChatSession.t :=
  match World.chatStore w with
  | Parsed sessions => sessions
  | _ => []
  end.

(** The cached sessions that belong to somebody other than [uid]. *)
Definition sessionsOfOthers (uid : Z) (w : World.t) : list ChatSession.t :=
  filter (fun s => negb (isSessionOf uid s)) (cachedSessions w).

(** The message a call builds: its id and instant come from the clock
    and the random source, the rest from the arguments. *)
Definition builtMessage uid (message : MessageInput) w : ChatMessage.t :=
  ChatMessage.mk
    (Js.toString (World.clock w) ++ World.randomSalt w (World.draws w))%string
    uid (inContent message) (inRole message) (World.clock w).

(** The local write goes through: the entry parses (or is absent) and
    [setItem] does not throw. *)
Definition cacheWritable w : bool :=
  negb (World.setItemThrows w)
  && match World.chatStore w with Malformed => false | _ => true end.

(** What no save changes: who is signed in and what the network answers. *)
Definition sameSurroundings (w w' : World.t) : Prop :=
World.userStore w' = World.userStore w
/\ World.geminiHomeworkApi w' = World.geminiHomeworkApi w
/\ World.perplexityHomeworkApi w' = World.perplexityHomeworkApi w
/\ World.openaiHomeworkApi w' = World.openaiHomeworkApi w
/\ World.geminiSdk w' = World.geminiSdk w.

End ChatStorage.

(* ================================================================== *)
(** ** The three client services behind the orchestrator
       (localAuth.ts, geminiService.ts, perplexityService.ts, openai.ts) *)

Module Providers.
Import ChatStorage.

(** What each [get...HomeworkHelp] resolves with. *)
Record Exchange : Type := mkExchange {
  userMessage : ChatMessage.t;
  assistantMessage : ChatMessage.t
}.

(** [loadUserFromLocalStorage]: no entry and an unreadable entry both give
    [null]. *)
Definition loadUserFromLocalStorage : Client (option LocalUser.t) :=
  gets (fun w =>
          match World.userStore w with
          | Parsed u => Some u
          | _ => None
          end).

(** [const user = loadUserFromLocalStorage();
     if (!user) throw new Error('User not authenticated')] *)
Definition requireUser : Client LocalUser.t :=
  u <- loadUserFromLocalStorage ;;
  match u with
  | Some usr => ret usr
  | None => throw "User not authenticated"
  end.

(** [await fetch(...)] (or [apiRequest], taken as the same call), the
    caller's [if (!response.ok) throw new Error(notOk)], then
    [await response.json()] and the field read from it. *)
Definition fetchText (reply : FetchResult) (notOk : string) : Client string :=
  match reply with
  | NetworkFailure => throw "TypeError: Failed to fetch"
  | Response false _ => throw notOk
  | Response true None => throw "SyntaxError: Unexpected end of JSON input"
  | Response true (Some text) => ret text
  end.

(** [`[${subject}] ${question}`] *)
Definition taggedQuestion (subject question : string) : string :=
  ("[" ++ subject ++ "] " ++ question)%string.

(** The two [saveChatMessageToStorage] calls every service ends with. *)
Definition saveBoth (uid : Z) (asked answered : string) : Client Exchange :=
  um <- saveChatMessageToStorage uid (mkInput user asked (Some uid)) ;;
  am <- saveChatMessageToStorage uid (mkInput assistant answered (Some uid)) ;;
  ret (mkExchange um am).

(** [chat.sendMessage(text)] of the browser-side Gemini SDK. *)
Definition sendMessage (text : string) : Client string :=
  reply <- gets (fun w => World.geminiSdk w text) ;;
  match reply with
  | Some answer => ret answer
  | None => throw "GoogleGenerativeAIError"
  end.

Definition geminiSystemInstruction (subject : string) : string :=
  ("You are a knowledgeable educational assistant specializing in " ++ subject ++ ". "
   ++ Js.nl
   ++ "      Provide detailed, accurate, and helpful explanations that enable learning."
   ++ Js.nl
   ++ "      Include relevant equations, concepts, and step-by-step solutions when appropriate."
   ++ Js.nl
   ++ "      Your responses should be educational and help students understand concepts, not just give answers.")%string.

Definition geminiPrompt (subject question : string) : string :=
  ("I need help with this " ++ subject ++ " question: " ++ question)%string.

(** geminiService.ts, [getGeminiHomeworkHelp]: the server route first,
    the SDK in the browser when it fails; whatever still fails is rethrown. *)
Definition getGeminiHomeworkHelp (subject question : string) : Client Exchange :=
  usr <- requireUser ;;
  tryCatch
    (tryCatch
       (reply <- gets (fun w => World.geminiHomeworkApi w subject question) ;;
        data <- fetchText reply "Failed to get homework help from server Gemini API" ;;
        saveBoth (LocalUser.id usr) (taggedQuestion subject question) data)
       (fun _ =>
          sendMessage (geminiSystemInstruction subject) ;;;
          aiResponse <- sendMessage (geminiPrompt subject question) ;;
          saveBoth (LocalUser.id usr) (taggedQuestion subject question) aiResponse))
    (fun error => throw error).

(** perplexityService.ts, [getPerplexityHomeworkHelp] *)
Definition getPerplexityHomeworkHelp (subject question : string) : Client Exchange :=
  usr <- requireUser ;;
  tryCatch
    (reply <- gets (fun w => World.perplexityHomeworkApi w subject question) ;;
     data <- fetchText reply "Failed to get homework help from Perplexity API" ;;
     saveBoth (LocalUser.id usr) (taggedQuestion subject question) data)
    (fun error => throw error).

(** openai.ts, [generateHomeworkHelp]: the canned answer used offline. *)
Definition generateHomeworkHelp (subject question : string) : string :=
  let subject := Js.toLowerCase subject in
  if Js.includes subject "math" then
    "For this math problem, I would normally break it down step by step, identifying the key concepts needed and walking through the solution process. Since we're operating offline right now, I recommend applying relevant formulas, checking your work, and comparing with similar examples in your textbook."
  else if Js.includes subject "physics" then
    "This physics question likely involves understanding key principles, identifying relevant equations, and methodically working through the problem. When online, I could provide more specific guidance about force, energy, momentum, or other physics topics relevant to your question."
  else if Js.includes subject "chemistry" then
    "Chemistry questions often involve understanding reactions, molecular structures, or chemical properties. I would typically walk you through the concepts, balancing equations if needed, and explaining the underlying principles."
  else if Js.includes subject "biology" then
    "In biology, understanding processes, systems, and relationships is key. Your question likely involves cellular processes, ecological relationships, or physiological systems. I would normally explain the relevant concepts and how they apply to your specific question."
  else if Js.includes subject "history" then
    "Historical analysis involves understanding context, causes, effects, and perspectives. When examining historical events or figures, consider the economic, social, political, and cultural factors involved. Primary and secondary sources would help provide a more complete picture."
  else if Js.includes subject "literature" || Js.includes subject "english" then
    "Literary analysis involves examining themes, characters, symbolism, and context. Consider the author's purpose, the historical context, and how literary devices contribute to meaning. Look for textual evidence to support your interpretations."
  else if Js.includes subject "language" || Js.includes subject "spanish"
          || Js.includes subject "french" then
    "Language learning involves vocabulary, grammar rules, and cultural context. Practice is essential, as is understanding how the grammatical structures differ from your native language. Context and usage examples can help solidify your understanding."
  else
    "To address this homework question effectively, I'd break down the problem, identify key concepts, and work through a step-by-step solution. When we're back online, I can provide more specific guidance tailored to your exact question.".

(** openai.ts, [getHomeworkHelp]: a failing server route is answered from
    [generateHomeworkHelp]; nothing is rethrown. *)
Definition getOpenAIHomeworkHelp (subject question : string) : Client Exchange :=
  usr <- requireUser ;;
  tryCatch
    (reply <- gets (fun w => World.openaiHomeworkApi w subject question) ;;
     data <- fetchText reply "Server API failed" ;;
     saveBoth (LocalUser.id usr) (taggedQuestion subject question) data)
    (fun _ =>
       um <- saveChatMessageToStorage (LocalUser.id usr)
               (mkInput user (taggedQuestion subject question) (Some (LocalUser.id usr))) ;;
       let responseText := generateHomeworkHelp subject question in
       am <- saveChatMessageToStorage (LocalUser.id usr)
               (mkInput assistant responseText (Some (LocalUser.id usr))) ;;
       ret (mkExchange um am)).

(** The roles of the turns cached for a user. *)
Definition cachedRoles (uid : Z) (w : World.t) : list Role :=
map ChatMessage.role (loadChatHistoryFromStorage uid w).

(** The contents of the turns cached for a user. *)
Definition cachedContents (uid : Z) (w : World.t) : list string :=
map ChatMessage.content (loadChatHistoryFromStorage uid w).

(** What a service leaves behind: a resolved call has cached two turns, a
    rejected one has changed nothing. *)
Definition cachesTwoOrNothing (uid : Z) (w : World.t) (result : Outcome Exchange * World.t)
  : Prop :=
match result with
| (Returned _, w') =>
    cachedRoles uid w' = cachedRoles uid w ++ [user; assistant]
    /\ cacheWritable w' = true
    /\ sameSurroundings w w'
| (Thrown _, w') => w' = w
end.

End Providers.

(* ================================================================== *)
(** ** client/src/lib/homeworkHelpService.ts *)

Module HomeworkHelp.
Import ChatStorage Providers.

Inductive Provider : Type := Gemini | Perplexity | OpenAI.

Definition providerName (p : Provider) : string :=
  match p with
  | Gemini => "Gemini"
  | Perplexity => "Perplexity"
  | OpenAI => "OpenAI"
  end.

(** [getPreferredAIForSubject] *)
Definition getPreferredAIForSubject (subject : string) : Provider :=
  let subject := Js.toLowerCase subject in
  if Js.includes subject "math"
     || Js.includes subject "physics"
     || Js.includes subject "computer science" then Gemini
  else if Js.includes subject "current events"
          || Js.includes subject "history"
          || Js.includes subject "news"
          || Js.includes subject "politics" then Perplexity
  else if Js.includes subject "literature"
          || Js.includes subject "writing"
          || Js.includes subject "philosophy" then OpenAI
  else Gemini.

(** The object [getIntegratedHomeworkHelp] resolves with:
    [{ userMessage, assistantMessage: { ...assistantMessage, content, source } }]. *)
Record Attributed : Type := mkAttributed {
  message : ChatMessage.t;
  source : string
}.

Record IntegratedHelp : Type := mkHelp {
  userMessage : ChatMessage.t;
  assistantMessage : Attributed
}.

(** [{ ...assistantMessage, content: text, source: src }] *)
Definition attribute (m : ChatMessage.t) (text src : string) : Attributed :=
  mkAttributed
    (ChatMessage.mk (ChatMessage.id m) (ChatMessage.userId m) text
                    (ChatMessage.role m) (ChatMessage.createdAt m))
    src.

(** One call of the orchestrator: the browser world, and the providers it
    has awaited so far, in order (a record kept beside the world, which no
    provider can touch). *)
Record Run : Type := mkRun {
  world : World.t;
  invoked : list Provider
}.

Definition Orchestration (A : Type) : Type := M Run A.

(** A client computation run inside an orchestration. *)
Definition inWorld {A} (m : Client A) : Orchestration A :=
  fun r =>
    let (o, w') := m (world r) in
    (o, mkRun w' (invoked r)).

(** [await get<P>HomeworkHelp(subject, question)] *)
Definition await (p : Provider) {A} (m : Client A) : Orchestration A :=
  fun r =>
    let (o, w') := m (world r) in
    (o, mkRun w' (invoked r ++ [p])).

Definition geminiSuffix : string :=
  (Js.nl ++ Js.nl ++ "(Powered by Google Gemini)")%string.

Definition perplexitySuffix : string :=
  (Js.nl ++ Js.nl ++ "(Powered by Perplexity AI)")%string.

Definition errorMessage : string :=
  "I'm sorry, but I'm having trouble connecting to my knowledge services right now. Please try again in a few moments, or try rephrasing your question.".

Section Orchestrator.

(** The three imported services; [getIntegratedHomeworkHelp] does not
    depend on how they are implemented. *)
Variables getGeminiHomeworkHelp getPerplexityHomeworkHelp getOpenAIHomeworkHelp
  : string -> string -> Client Exchange.

(** Saving the assistant turn and building the returned object, the
    tail shared by the four branches. *)
Definition answer (uid : Z) (um : ChatMessage.t) (text src : string)
  : Orchestration IntegratedHelp :=
  am <- inWorld (saveChatMessageToStorage uid (mkInput assistant text (Some uid))) ;;
  ret (mkHelp um (attribute am text src)).

(** [getIntegratedHomeworkHelp] *)
Definition getIntegratedHomeworkHelp (subject question : string)
  : Orchestration IntegratedHelp :=
  usr <- inWorld requireUser ;;
  let uid := LocalUser.id usr in
  um <- inWorld (saveChatMessageToStorage uid
                   (mkInput user (taggedQuestion subject question) (Some uid))) ;;
  tryCatch
    (geminiResponse <- await Gemini (getGeminiHomeworkHelp subject question) ;;
     let text :=
       (ChatMessage.content (Providers.assistantMessage geminiResponse)
        ++ geminiSuffix)%string in
     answer uid um text "Gemini")
    (fun _ =>
       tryCatch
         (perplexityResponse <-
            await Perplexity (getPerplexityHomeworkHelp subject question) ;;
          let text :=
            (ChatMessage.content (Providers.assistantMessage perplexityResponse)
             ++ perplexitySuffix)%string in
          answer uid um text "Perplexity")
         (fun _ =>
            tryCatch
              (openaiResponse <-
                 await OpenAI (getOpenAIHomeworkHelp subject question) ;;
               answer uid um
                 (ChatMessage.content (Providers.assistantMessage openaiResponse))
                 "OpenAI")
              (fun _ => answer uid um errorMessage "Error"))).

End Orchestrator.

(** The orchestrator as the application links it. *)
Definition getIntegratedHomeworkHelpLinked (subject question : string)
  : Orchestration IntegratedHelp :=
  getIntegratedHomeworkHelp
    Providers.getGeminiHomeworkHelp
    Providers.getPerplexityHomeworkHelp
    Providers.getOpenAIHomeworkHelp
    subject question.

(** A stand-in service for tests: it resolves with [reply] as the
    assistant's content, or rejects, and touches nothing. *)
Definition stub (reply : option string) : string -> string -> Client Exchange :=
  fun subject question =>
    match reply with
    | Some text =>
        ret (mkExchange
               (ChatMessage.mk "" 0 (taggedQuestion subject question) user 0)
               (ChatMessage.mk "" 0 text assistant 0))
    | None => throw "service unavailable"
    end.

(** What a finished call says about the answer: who served it, and the
    text handed back. *)
Definition sourceOf (o : Outcome IntegratedHelp) : option string :=
match o with
| Returned h => Some (source (assistantMessage h))
| Thrown _ => None
end.

Definition textOf (o : Outcome IntegratedHelp) : option string :=
match o with
| Returned h => Some (ChatMessage.content (message (assistantMessage h)))
| Thrown _ => None
end.

(** The turn the call reports as the assistant's. *)
Definition turnOf (o : Outcome IntegratedHelp) : option ChatMessage.t :=
match o with
| Returned h => Some (message (assistantMessage h))
| Thrown _ => None
end.

(** What a [fetch] leaves its caller to read: the text of a reply with a
    success status and a body that parses. *)
Definition bodyOf (reply : FetchResult) : option string :=
match reply with
| Response true (Some text) => Some text
| _ => None
end.

(** Every backend behind the three services fails: each of the three
    routes is out of reach, answers with an error status or sends nothing
    readable, and the SDK in the browser rejects the instruction or the
    prompt. *)
Definition backendsDown (subject question : string) (w : World.t) : Prop :=
bodyOf (World.geminiHomeworkApi w subject question) = None
/\ (World.geminiSdk w (geminiSystemInstruction subject) = None
    \/ World.geminiSdk w (geminiPrompt subject question) = None)
/\ bodyOf (World.perplexityHomeworkApi w subject question) = None
/\ bodyOf (World.openaiHomeworkApi w subject question) = None.

(** The turn [m] is the one the call appended to the user's cached
    history, which stood at [before] when the turn was saved. *)
Definition appended (uid : Z) (before after : World.t) (m : ChatMessage.t) : Prop :=
loadChatHistoryFromStorage uid after = loadChatHistoryFromStorage uid before ++ [m].

End HomeworkHelp.


(* ================================================================== *)
(** ** The server-side provider clients
       (server/openai.ts, server/perplexity.ts, server/gemini.ts) *)

Module ServerClients.

Inductive Backend : Type := OpenAIBackend | PerplexityBackend | GeminiBackend.

(** One outbound call: the backend and the messages sent, as
    (role, content) pairs. *)
Record Request : Type := mkRequest {
  target : Backend;
  payload : list (string * string)
}.

(** What a backend does with a call: the connection fails, or it reports
    a status, successful or not, with the answer text when there is one
    to read. *)
Inductive Reply : Type :=
| ConnectionError
| Status (ok : bool) (answer : option string).

Record Server : Type := mkServer {
  (** [process.env.PERPLEXITY_API_KEY] *)
  perplexityKey : option string;
  backend : Request -> Reply;
  (** the calls made so far *)
  sent : list Request
}.

Definition Srv (A : Type) : Type := M Server A.

Definition call (r : Request) : Srv Reply :=
  fun s => (Returned (backend s r),
            mkServer (perplexityKey s) (backend s) (sent s ++ [r])).

(** An SDK call ([openai.chat.completions.create], [chat.sendMessage]):
    the promise rejects on a connection error and on a non-success
    status. *)
Definition sdkCall (r : Request) : Srv (option string) :=
  reply <- call r ;;
  match reply with
  | ConnectionError => throw "APIConnectionError"
  | Status false _ => throw "APIError"
  | Status true answer => ret answer
  end.

Definition openaiSystemPrompt : string :=
  "You are an educational assistant helping students and teachers. Your responses should be helpful, accurate, and appropriate for an educational context. You can help with homework questions, explain concepts, provide resources, or engage in casual conversation while maintaining a supportive and encouraging tone. Keep responses concise but complete.".

Definition openaiApology : string :=
  "Sorry, I'm having trouble connecting to my knowledge base right now. Please try again later.".

(** server/openai.ts, [getAIChatResponse] *)
Definition getAIChatResponse (message : string) : Srv string :=
  tryCatch
    (content <- sdkCall (mkRequest OpenAIBackend
                           [("system", openaiSystemPrompt); ("user", message)]) ;;
     ret (Js.strOrElse content "I couldn't process your request. Please try again."))
    (fun _ => ret openaiApology).

(** [if (systemInstruction)]: [undefined] and the empty string are falsy. *)
Definition given (systemInstruction : option string) : option string :=
  match systemInstruction with
  | Some EmptyString => None
  | other => other
  end.

(** server/perplexity.ts, [getPerplexityResponse] *)
Definition getPerplexityResponse (userPrompt : string) (systemInstruction : option string)
  : Srv string :=
  key <- gets perplexityKey ;;
  match key with
  | None | Some EmptyString => throw "Perplexity API key not configured"
  | Some _ =>
      let messages :=
        match given systemInstruction with
        | Some text => [("system", text)]
        | None => []
        end ++ [("user", userPrompt)] in
      tryCatch
        (response <- call (mkRequest PerplexityBackend messages) ;;
         match response with
         | ConnectionError => throw "TypeError: fetch failed"
         | Status false _ => throw "Perplexity API error"
         | Status true None => throw "TypeError: Cannot read properties of undefined"
         | Status true (Some text) => ret text
         end)
        (fun _ => throw "Failed to get response from Perplexity API")
  end.

(** server/gemini.ts, [getGeminiResponse]: the system instruction, when
    given, is sent first as a message of its own. *)
Definition getGeminiResponse (prompt : string) (systemInstruction : option string)
  : Srv string :=
  tryCatch
    (match given systemInstruction with
     | Some text => sdkCall (mkRequest GeminiBackend [("user", text)]) ;;; ret tt
     | None => ret tt
     end ;;;
     result <- sdkCall (mkRequest GeminiBackend [("user", prompt)]) ;;
     match result with
     | Some text => ret text
     | None => throw "GoogleGenerativeAIResponseError"
     end)
    (fun _ => throw "Failed to get response from Gemini API").

(** The [ask] of each provider client. *)
Definition ask (b : Backend) (prompt : string) (systemInstruction : option string)
  : Srv string :=
  match b with
  | OpenAIBackend => getAIChatResponse prompt
  | PerplexityBackend => getPerplexityResponse prompt systemInstruction
  | GeminiBackend => getGeminiResponse prompt systemInstruction
  end.

(** The backend answers a call with a connection error or a non-success
    status. *)
Definition refuses (s : Server) (r : Request) : Prop :=
  backend s r = ConnectionError \/ exists answer, backend s r = Status false answer.

(** A server whose every outbound call is refused. *)
Definition unavailable (s : Server) : Prop := forall r, refuses s r.

(** The calls a computation added to the log. *)
Definition callsMade {A} (m : Srv A) (s : Server) : nat :=
(List.length (sent (snd (m s))) - List.length (sent s))%nat.

Definition newCalls {A} (m : Srv A) (s : Server) : list Request :=
  skipn (List.length (sent s)) (sent (snd (m s))).

(** The requests one [ask] of a client consists of, in the order the
    client makes them. *)
Definition requestsOf (b : Backend) (prompt : string) (systemInstruction : option string)
  : list Request :=
  match b with
  | OpenAIBackend =>
      [mkRequest OpenAIBackend [("system", openaiSystemPrompt); ("user", prompt)]]
  | PerplexityBackend =>
      [mkRequest PerplexityBackend
         (match given systemInstruction with
          | Some text => [("system", text)]
          | None => []
          end ++ [("user", prompt)])]
  | GeminiBackend =>
      match given systemInstruction with
      | Some text => [mkRequest GeminiBackend [("user", text)]]
      | None => []
      end ++ [mkRequest GeminiBackend [("user", prompt)]]
  end.

End ServerClients.

(* ================================================================== *)
(** ** server/storage.ts: trending and engagement queries *)

Module Post.
(** A row of [posts]; the counters and [createdAt] are nullable columns
    with a default. *)
Record t : Type := mk {
  id : Z;
  userId : Z;
  title : string;
  content : string;
  visibility : string;
  subject : option string;
  likes : option Z;
  views : option Z;
  saves : option Z;
  shares : option Z;
  comments : option Z;
  createdAt : option Z
}.
End Post.

Module User.
Record t : Type := mk {
  id : Z;
  username : string;
  displayName : option string
}.
End User.

(** A row of [likes] or of [saves]. *)
Module Mark.
Record t : Type := mk {
  id : Z;
  userId : Z;
  postId : Z;
  createdAt : option Z
}.
End Mark.

Module Storage.

Record Db : Type := mkDb {
  posts : list Post.t;
  users : list User.t;
  likes : list Mark.t;
  saves : list Mark.t
}.

(** SQL [+] and [*] on nullable integers. *)
Definition sqlAdd (a b : option Z) : option Z :=
  match a, b with
  | Some x, Some y => Some (x + y)
  | _, _ => None
  end.

Definition sqlMul (a b : option Z) : option Z :=
  match a, b with
  | Some x, Some y => Some (x * y)
  | _, _ => None
  end.

(** [a] comes strictly before [b] under [ORDER BY ... DESC]: larger
    values first, NULL before every value. *)
Definition descBefore (a b : option Z) : bool :=
  match a, b with
  | None, Some _ => true
  | Some x, Some y => Z.ltb y x
  | _, None => false
  end.

Section OrderBy.
Context {A : Type} (key : A -> option Z).

Fixpoint insertDesc (x : A) (sorted : list A) : list A :=
  match sorted with
  | [] => [x]
  | y :: rest =>
      if descBefore (key y) (key x)
      then y :: insertDesc x rest
      else x :: y :: rest
  end.

(** One ordering by [desc(key)]: rows of equal key stay in the order the
    table yields them. *)
Definition inTableOrder (rows : list A) : list A :=
  fold_right insertDesc [] rows.

(** [a] may stand before [b] in a result ordered by [desc(key)]. *)
Definition inDescOrder (a b : A) : Prop :=
  descBefore (key b) (key a) = false.

(** [out] holds the rows of [rows], ranked by [desc(key)]. *)
Definition rankedFrom (rows out : list A) : Prop :=
  Permutation out rows
  /\ StronglySorted inDescOrder out.
End OrderBy.

(** [.orderBy(desc(key))]. The clause names one key: in which order rows
    of equal key, or rows whose key is NULL, come is left to the database.
    The queries below take the ordering the database performs as
    [orderByDesc]; all that is known of it is that it is [faithful]. *)
Definition Engine : Type := forall A : Type, (A -> option Z) -> list A -> list A.

Definition faithful (orderByDesc : Engine) : Prop :=
  forall (A : Type) (key : A -> option Z) (rows : list A),
    rankedFrom key rows (orderByDesc A key rows).

(** Two orderings a database may perform: rows of equal key in the order
    of the table, and in the reverse of that order. *)
Definition tableOrder : Engine :=
  fun A key rows => inTableOrder key rows.

Definition reverseTableOrder : Engine :=
  fun A key rows => inTableOrder key (rev rows).

(** [limit: number = 10] *)
Definition limitOr10 (limit : option nat) : nat :=
  match limit with
  | Some n => n
  | None => 10%nat
  end.

Definition isPublic (p : Post.t) : bool :=
  String.eqb (Post.visibility p) "public".

(** [sql`(${posts.likes} * 2 + ${posts.views} + ${posts.saves} * 3)`] *)
Definition trendingScore (p : Post.t) : option Z :=
  sqlAdd (sqlAdd (sqlMul (Post.likes p) (Some 2)) (Post.views p))
         (sqlMul (Post.saves p) (Some 3)).

(** [getTrendingPosts] *)
Definition getTrendingPosts (orderByDesc : Engine) (limit : option nat) (db : Db)
  : list Post.t :=
  firstn (limitOr10 limit)
         (orderByDesc _ trendingScore (filter isPublic (posts db))).

(** A row of [getTrendingPostsWithMetrics]. *)
Record MetricsRow : Type := mkRow {
  rowId : Z;
  rowTitle : string;
  rowSubject : option string;
  rowCreatedAt : option Z;
  rowViews : option Z;
  rowLikes : option Z;
  rowSaves : option Z;
  rowComments : option Z;
  rowUsername : string;
  rowDisplayName : option string
}.

(** [.from(posts).innerJoin(users, eq(posts.userId, users.id))] *)
Definition postsWithAuthors (db : Db) : list (Post.t * User.t) :=
  flat_map
    (fun p => map (fun u => (p, u))
                  (filter (fun u => Z.eqb (Post.userId p) (User.id u)) (users db)))
    (posts db).

(** [sql`(${posts.views} + ${posts.likes} * 2 + ${posts.saves} * 3)`] *)
Definition metricsScore (pu : Post.t * User.t) : option Z :=
  let p := fst pu in
  sqlAdd (sqlAdd (Post.views p) (sqlMul (Post.likes p) (Some 2)))
         (sqlMul (Post.saves p) (Some 3)).

Definition metricsRow (pu : Post.t * User.t) : MetricsRow :=
  let (p, u) := pu in
  mkRow (Post.id p) (Post.title p) (Post.subject p) (Post.createdAt p)
        (Post.views p) (Post.likes p) (Post.saves p) (Post.comments p)
        (User.username u) (User.displayName u).

(** [getTrendingPostsWithMetrics] *)
Definition getTrendingPostsWithMetrics (orderByDesc : Engine) (limit : option nat)
  (db : Db) : list MetricsRow :=
  map metricsRow
      (firstn (limitOr10 limit) (orderByDesc _ metricsScore (postsWithAuthors db))).

(** *** Engagement metrics *)

(** What a JavaScript expression of [getPostEngagementMetrics] evaluates
    to: a number or a string. *)
Inductive JsValue : Type :=
| JsNumber (x : float)
| JsString (s : string).

(** The number holding an integer (of the size of a database counter,
    where the conversion is exact). *)
Definition number (z : Z) : float :=
  if Z.ltb z 0
  then PrimFloat.opp (PrimFloat.of_uint63 (Uint63.of_Z (- z)))
  else PrimFloat.of_uint63 (Uint63.of_Z z).

Definition twoDigits (n : Z) : string :=
  ((if Z.ltb n 10 then "0" else "") ++ Js.toString n)%string.

(** [x.toFixed(2)] for a number below 10^21: the decimal with two
    fraction digits nearest to the exact value of [x], the larger one
    when two are equally near. *)
Definition toFixed2 (x : float) : string :=
  match Prim2SF x with
  | S754_nan => "NaN"
  | S754_infinity s => if s then "-Infinity" else "Infinity"
  | S754_zero _ => "0.00"
  | S754_finite s m e =>
      let num := Z.pos m * 100 * (if Z.leb 0 e then 2 ^ e else 1) in
      let den := if Z.leb 0 e then 1 else 2 ^ (- e) in
      let n := (2 * num + den) / (2 * den) in
      ((if s then "-" else "")
       ++ Js.toString (n / 100) ++ "." ++ twoDigits (n mod 100))%string
  end.

(** [(post.likes || 0) + (post.saves || 0) + (post.comments || 0)] *)
Definition totalInteractions (p : Post.t) : Z :=
  Js.orElse (Post.likes p) 0 + Js.orElse (Post.saves p) 0
  + Js.orElse (Post.comments p) 0.

(** [(post.views || 0) > 0
       ? (totalInteractions / (post.views || 1) * 100).toFixed(2) : 0]
    The counters are integers, so their sums and the test against 0 are
    taken in [Z]; the quotient and the product are binary64 operations. *)
Definition engagementRate (p : Post.t) : JsValue :=
  if Z.ltb 0 (Js.orElse (Post.views p) 0)
  then JsString
         (toFixed2
            (PrimFloat.mul
               (PrimFloat.div (number (totalInteractions p))
                              (number (Js.orElse (Post.views p) 1)))
               (number 100)))
  else JsNumber (number 0).

(** A row of [likeDetails] or [saveDetails]. *)
Record MarkDetail : Type := mkDetail {
  detailId : Z;
  detailUserId : Z;
  detailCreatedAt : option Z;
  detailUsername : string;
  detailDisplayName : option string
}.

(** [.from(marks).innerJoin(users, ...).where(eq(marks.postId, postId))
     .orderBy(desc(marks.createdAt))] *)
Definition markDetails (orderByDesc : Engine) (marks : list Mark.t) (db : Db)
  (postId : Z) : list MarkDetail :=
  map (fun mu : Mark.t * User.t =>
         let (m, u) := mu in
         mkDetail (Mark.id m) (Mark.userId m) (Mark.createdAt m)
                  (User.username u) (User.displayName u))
      (orderByDesc _ (fun mu : Mark.t * User.t => Mark.createdAt (fst mu))
         (filter (fun mu : Mark.t * User.t => Z.eqb (Mark.postId (fst mu)) postId)
            (flat_map
               (fun m => map (fun u => (m, u))
                             (filter (fun u => Z.eqb (Mark.userId m) (User.id u))
                                     (users db)))
               marks))).

Record Breakdown : Type := mkBreakdown {
  bLikes : Z;
  bSaves : Z;
  bComments : Z;
  bViews : Z
}.

Record EngagementMetrics : Type := mkMetrics {
  post : Post.t;
  likeDetails : list MarkDetail;
  saveDetails : list MarkDetail;
  rate : JsValue;
  interactionBreakdown : Breakdown
}.

(** [getPostEngagementMetrics] *)
Definition getPostEngagementMetrics (orderByDesc : Engine) (postId : Z) (db : Db)
  : Outcome EngagementMetrics :=
  match filter (fun p => Z.eqb (Post.id p) postId) (posts db) with
  | [] => Thrown "Post not found"
  | p :: _ =>
      Returned
        (mkMetrics p
           (markDetails orderByDesc (likes db) db postId)
           (markDetails orderByDesc (saves db) db postId)
           (engagementRate p)
           (mkBreakdown (Js.orElse (Post.likes p) 0) (Js.orElse (Post.saves p) 0)
                        (Js.orElse (Post.comments p) 0) (Js.orElse (Post.views p) 0)))
  end.

(** *** The measures as the specification words them *)

(** views*1 + likes*2 + saves*3 *)
Definition specTrendingScore (views likes saves : Z) : Z :=
  views * 1 + likes * 2 + saves * 3.

(** (likes + saves + comments) / max(views, 1) * 100, to two decimals *)
Definition specEngagementRate (views likes saves comments : Z) : string :=
  toFixed2
    (PrimFloat.mul
       (PrimFloat.div (number (likes + saves + comments)) (number (Z.max views 1)))
       (number 100)).

(** The number a result stands for, when it is a number or one of the
    strings [toFixed2] writes for an integer number of hundredths. *)
Definition sameReading (v : JsValue) (s : string) : bool :=
  match v with
  | JsString t => String.eqb t s
  | JsNumber x => String.eqb (toFixed2 x) s
  end.

End Storage.

(* ================================================================== *)
(** ** Concrete browsers and tables used in the examples *)

Module Scenario.

Definition student : LocalUser.t := LocalUser.mk 7 "sam" "sam@example.org" true.

(** A signed-in browser with an empty chat cache, whose three homework
    routes answer [g], [p] and [o] and whose Gemini SDK answers [sdk]. *)
Definition browser (g p o : FetchResult) (sdk : option string) : World.t :=
World.mk Absent (Parsed student) false 1700000000000 (fun _ => "k3x9q2a") 0
         true [] []
         (fun _ _ => g) (fun _ _ => p) (fun _ _ => o) (fun _ => sdk).

(** The same browser with every route and the SDK down. *)
Definition offline : World.t := browser NetworkFailure NetworkFailure NetworkFailure None.

(** A browser whose storage refuses writes. *)
Definition fullDisk : World.t :=
World.mk Absent (Parsed student) true 1700000000000 (fun _ => "k3x9q2a") 0
         true [] []
         (fun _ _ => NetworkFailure) (fun _ _ => NetworkFailure)
         (fun _ _ => NetworkFailure) (fun _ => None).

(** A server with its key set whose backends are all out of reach. *)
Definition downServer : ServerClients.Server :=
ServerClients.mkServer (Some "pplx-key") (fun _ => ServerClients.ConnectionError) [].

(** A server whose backends all answer with a non-success status. *)
Definition rejectingServer : ServerClients.Server :=
ServerClients.mkServer (Some "pplx-key")
  (fun _ => ServerClients.Status false (Some "rate limited")) [].

(** A server whose backends accept the one message "Be brief." and answer
    every other request with an error status. *)
Definition primedOnly : ServerClients.Server :=
ServerClients.mkServer (Some "pplx-key")
  (fun r =>
     match ServerClients.payload r with
     | [(_, text)] =>
         if String.eqb text "Be brief."
         then ServerClients.Status true (Some "OK")
         else ServerClients.Status false (Some "overloaded")
     | _ => ServerClients.Status false (Some "overloaded")
     end)
  [].

(** A post of user 1 with the given id, visibility, views, likes, saves,
    comments and creation instant. *)
Definition post (id : Z) (visibility : string) (views likes saves comments created : Z)
  : Post.t :=
Post.mk id 1 "Fractions" "How to add fractions" visibility (Some "math")
        (Some likes) (Some views) (Some saves) (Some 0) (Some comments) (Some created).

(** A (score 10, older), B (score 10, newer), C (score 5). *)
Definition postA : Post.t := post 1 "public" 10 0 0 0 1000.
Definition postB : Post.t := post 2 "public" 10 0 0 0 2000.
Definition postC : Post.t := post 3 "public" 5 0 0 0 3000.

(** A private post with a high score. *)
Definition diary : Post.t := post 4 "private" 50 0 0 0 4000.

(** Post 9: 10 views, 5 likes, 2 saves. *)
Definition scored : Post.t := post 9 "public" 10 5 2 0 5000.

(** Post 8, with 10 views and 2 saves, after its owner has sent
    [PUT /api/posts/8] with the body [{"likes": null}]: [updatePost] sets
    what the body holds. *)
Definition unset : Post.t :=
Post.mk 8 1 "Fractions" "How to add fractions" "public" (Some "math")
        None (Some 10) (Some 2) (Some 0) (Some 0) (Some 4000).

Definition author : User.t := User.mk 1 "sam" (Some "Sam").

(** The [posts] table holding [rows], in that order, beside their author. *)
Definition tableOf (rows : list Post.t) : Storage.Db := Storage.mkDb rows [author] [] [].

End Scenario.

(* ================================================================== *)
(** ** Shapes of the chat cache and of a service's result *)

Module CacheShape.
Import ChatStorage Providers.

(** No user has two sessions in the cache. *)
Definition oneSessionPerUser (w : World.t) : Prop :=
  NoDup (map ChatSession.userId (cachedSessions w)).

(** Nobody is signed in: the user entry is absent or unreadable. *)
Definition signedOut (w : World.t) : Prop :=
  forall u, World.userStore w <> Parsed u.

(** The call resolved with the exchange (asked, answered) and appended its
    two turns to the user's cached history. *)
Definition resolvedWith (uid : Z) (asked answered : string) (w : World.t)
           (result : Outcome Exchange * World.t) : Prop :=
  exists ex,
    fst result = Returned ex
    /\ ChatMessage.content (Providers.userMessage ex) = asked
    /\ ChatMessage.role (Providers.userMessage ex) = user
    /\ ChatMessage.content (Providers.assistantMessage ex) = answered
    /\ ChatMessage.role (Providers.assistantMessage ex) = assistant
    /\ loadChatHistoryFromStorage uid (snd result)
       = loadChatHistoryFromStorage uid w
         ++ [Providers.userMessage ex; Providers.assistantMessage ex].

(** The call rejected and left the browser as it was. *)
Definition rejectedClean (w : World.t) (result : Outcome Exchange * World.t) : Prop :=
  returned (fst result) = false /\ snd result = w.

End CacheShape.

(* ================================================================== *)
(** ** server/storage.ts and server/routes.ts: likes and views *)

Module Likes.
Import Storage.

(** The database with what an insert draws on: the sequence behind
    [likes.id] and the clock behind [defaultNow()]. *)
Record Store : Type := mkStore {
  db : Db;
  likeSeq : Z;
  now : Z
}.

Definition Sql (A : Type) : Type := M Store A.

Definition withLikes (v : option Z) (p : Post.t) : Post.t :=
  Post.mk (Post.id p) (Post.userId p) (Post.title p) (Post.content p)
          (Post.visibility p) (Post.subject p) v (Post.views p) (Post.saves p)
          (Post.shares p) (Post.comments p) (Post.createdAt p).

Definition withViews (v : option Z) (p : Post.t) : Post.t :=
  Post.mk (Post.id p) (Post.userId p) (Post.title p) (Post.content p)
          (Post.visibility p) (Post.subject p) (Post.likes p) v (Post.saves p)
          (Post.shares p) (Post.comments p) (Post.createdAt p).

Definition withPosts (l : list Post.t) (d : Db) : Db :=
  mkDb l (users d) (likes d) (saves d).

Definition withLikeRows (l : list Mark.t) (d : Db) : Db :=
  mkDb (posts d) (users d) l (saves d).

(** [eq(posts.id, id)] *)
Definition hasId (id : Z) (p : Post.t) : bool := Z.eqb (Post.id p) id.

(** [and(eq(likes.userId, userId), eq(likes.postId, postId))] *)
Definition isLikeOf (userId postId : Z) (m : Mark.t) : bool :=
  Z.eqb (Mark.userId m) userId && Z.eqb (Mark.postId m) postId.

(** [sql`${posts.likes} > 0`]: not true of NULL. *)
Definition positive (v : option Z) : bool :=
  match v with
  | Some x => Z.ltb 0 x
  | None => false
  end.

(** [getPost]: [const [post] = await db.select()...] *)
Definition getPost (id : Z) : Sql (option Post.t) :=
  gets (fun st => hd_error (filter (hasId id) (posts (db st)))).

(** [getLike] *)
Definition getLike (userId postId : Z) : Sql (option Mark.t) :=
  gets (fun st => hd_error (filter (isLikeOf userId postId) (likes (db st)))).

(** [createLike]: the insert (refused when the user or the post it
    references is missing), then the counter of the post. *)
Definition createLike (userId postId : Z) : Sql Mark.t :=
  st <- gets (fun st => st) ;;
  if existsb (fun u => Z.eqb (User.id u) userId) (users (db st))
     && existsb (hasId postId) (posts (db st))
  then
    let like := Mark.mk (likeSeq st) userId postId (Some (now st)) in
    modify (fun st =>
              mkStore (withLikeRows (likes (db st) ++ [like]) (db st))
                      (likeSeq st + 1) (now st)) ;;;
    modify (fun st =>
              mkStore
                (withPosts
                   (map (fun p => if hasId postId p
                                  then withLikes (sqlAdd (Post.likes p) (Some 1)) p
                                  else p)
                        (posts (db st)))
                   (db st))
                (likeSeq st) (now st)) ;;;
    ret like
  else
    modify (fun st => mkStore (db st) (likeSeq st + 1) (now st)) ;;;
    throw "insert or update on table violates foreign key constraint".

(** [deleteLike] *)
Definition deleteLike (userId postId : Z) : Sql bool :=
  count <- gets (fun st => List.length (filter (isLikeOf userId postId) (likes (db st)))) ;;
  modify (fun st =>
            mkStore
              (withLikeRows
                 (filter (fun m => negb (isLikeOf userId postId m)) (likes (db st)))
                 (db st))
              (likeSeq st) (now st)) ;;;
  if (0 <? count)%nat
  then
    modify (fun st =>
              mkStore
                (withPosts
                   (map (fun p => if hasId postId p && positive (Post.likes p)
                                  then withLikes (sqlAdd (Post.likes p) (Some (-1))) p
                                  else p)
                        (posts (db st)))
                   (db st))
                (likeSeq st) (now st)) ;;;
    ret true
  else ret false.

(** [incrementPostViews] *)
Definition incrementPostViews (postId : Z) : Sql (option Post.t) :=
  modify (fun st =>
            mkStore
              (withPosts
                 (map (fun p => if hasId postId p
                                then withViews (sqlAdd (Post.views p) (Some 1)) p
                                else p)
                      (posts (db st)))
                 (db st))
              (likeSeq st) (now st)) ;;;
  getPost postId.

(** What a handler sends: [res.status(code).json(body)]. *)
Inductive Body : Type :=
| Message (text : string)
| LikeRow (like : Mark.t)
| PostRow (post : Post.t).

Record Response : Type := mkResponse {
  status : Z;
  body : Body
}.

(** [app.post('/api/posts/:id/like')]; [session] is the signed-in user's
    id, if any. *)
Definition likeRoute (session : option Z) (postId : Z) : Sql Response :=
  match session with
  | None => ret (mkResponse 401 (Message "Not authenticated"))
  | Some userId =>
      post <- getPost postId ;;
      match post with
      | None => ret (mkResponse 404 (Message "Post not found"))
      | Some _ =>
          existingLike <- getLike userId postId ;;
          match existingLike with
          | Some _ => ret (mkResponse 400 (Message "Post already liked"))
          | None =>
              like <- createLike userId postId ;;
              ret (mkResponse 201 (LikeRow like))
          end
      end
  end.

(** [app.delete('/api/posts/:id/like')] *)
Definition unlikeRoute (session : option Z) (postId : Z) : Sql Response :=
  match session with
  | None => ret (mkResponse 401 (Message "Not authenticated"))
  | Some userId =>
      result <- deleteLike userId postId ;;
      if result : bool
      then ret (mkResponse 200 (Message "Like removed successfully"))
      else ret (mkResponse 404 (Message "Like not found"))
  end.

(** [app.get('/api/posts/:id')]: the post is read, then its views are
    counted up, then the post as read is sent. *)
Definition viewRoute (postId : Z) : Sql Response :=
  post <- getPost postId ;;
  match post with
  | None => ret (mkResponse 404 (Message "Post not found"))
  | Some p =>
      incrementPostViews postId ;;;
      ret (mkResponse 200 (PostRow p))
  end.

(** The number of like rows of a post. *)
Definition likeCount (postId : Z) (d : Db) : Z :=
  Z.of_nat (List.length (filter (fun m => Z.eqb (Mark.postId m) postId) (likes d))).

(** Every post's counter is the number of its like rows, and nobody has
    liked a post twice. *)
Definition likesConsistent (d : Db) : Prop :=
  (forall p, In p (posts d) -> Post.likes p = Some (likeCount (Post.id p) d))
  /\ NoDup (map (fun m => (Mark.userId m, Mark.postId m)) (likes d)).

(** The stored views of the posts with the given id. *)
Definition storedViews (postId : Z) (d : Db) : list (option Z) :=
  map Post.views (filter (hasId postId) (posts d)).

(** No post has a negative like counter. *)
Definition noNegativeLikes (d : Db) : Prop :=
  forall p c, In p (posts d) -> Post.likes p = Some c -> 0 <= c.

End Likes.

(* ================================================================== *)
(** ** server/storage.ts: the feeds ordered by date *)

Module Feeds.
Import Storage.

(** [eq(posts.subject, subject)]: not true of a NULL subject. *)
Definition hasSubject (subject : string) (p : Post.t) : bool :=
  match Post.subject p with
  | Some s => String.eqb s subject
  | None => false
  end.

(** [getRecentPosts] *)
Definition getRecentPosts (orderByDesc : Engine) (limit : option nat) (db : Db)
  : list Post.t :=
  firstn (limitOr10 limit)
         (orderByDesc _ Post.createdAt (filter isPublic (posts db))).

(** [getPostsBySubject] *)
Definition getPostsBySubject (orderByDesc : Engine) (subject : string)
  (limit : option nat) (db : Db) : list Post.t :=
  firstn (limitOr10 limit)
         (orderByDesc _ Post.createdAt
            (filter (fun p => isPublic p && hasSubject subject p) (posts db))).

(** [getUserPosts] *)
Definition getUserPosts (orderByDesc : Engine) (userId : Z) (db : Db) : list Post.t :=
  orderByDesc _ Post.createdAt
    (filter (fun p => Z.eqb (Post.userId p) userId) (posts db)).

(** The [posts] field of [GET /api/users/:username]:
    [posts.filter(post => post.visibility === 'public')] over [getUserPosts]. *)
Definition profilePosts (orderByDesc : Engine) (userId : Z) (db : Db) : list Post.t :=
  filter isPublic (getUserPosts orderByDesc userId db).

(** Every row of [shown] stands at or before every row of [cut] in the
    order of [desc(key)]. *)
Definition noneCutAhead {A} (key : A -> option Z) (shown cut : list A) : Prop :=
  forall p q, In p shown -> In q cut -> inDescOrder key p q.

End Feeds.

(* ================================================================== *)
(** ** server/routes.ts: the chat routes and the table behind them *)

Module ChatRoutes.
Import ServerClients.

(** A row of [chat_messages]. *)
Record ChatRow : Type := mkChatRow {
  chatId : Z;
  chatUserId : Z;
  chatText : string;
  isUser : bool;
  chatCreatedAt : option Z
}.

(** The server as a chat route sees it: the provider side, the ids of
    [users], the table [chat_messages], the sequence behind its [id], and
    the time [defaultNow()] reads at the insert that draws a given id. *)
Record Site : Type := mkSite {
  server : Server;
  members : list Z;
  chatMessages : list ChatRow;
  chatSeq : Z;
  clock : Z -> Z
}.

Definition Route (A : Type) : Type := M Site A.

(** A provider client called from a route. *)
Definition provider {A} (m : Srv A) : Route A :=
  fun st =>
    (fst (m (server st)),
     mkSite (snd (m (server st))) (members st) (chatMessages st) (chatSeq st) (clock st)).

(** [storage.createChatMessage]: the insert is refused when [userId]
    names no row of [users]. *)
Definition createChatMessage (userId : Z) (message : string) (fromUser : bool)
  : Route ChatRow :=
  st <- gets (fun st => st) ;;
  if existsb (Z.eqb userId) (members st)
  then
    let row := mkChatRow (chatSeq st) userId message fromUser (Some (clock st (chatSeq st))) in
    modify (fun st => mkSite (server st) (members st) (chatMessages st ++ [row])
                             (chatSeq st + 1) (clock st)) ;;;
    ret row
  else
    modify (fun st => mkSite (server st) (members st) (chatMessages st)
                             (chatSeq st + 1) (clock st)) ;;;
    throw "insert or update on table violates foreign key constraint".

(** [a] comes strictly before [b] under [ORDER BY ... ASC]: smaller values
    first, NULL after every value. *)
Definition ascBefore (a b : option Z) : bool :=
  match a, b with
  | Some x, Some y => Z.ltb x y
  | Some _, None => true
  | None, _ => false
  end.

Fixpoint insertAsc (x : ChatRow) (sorted : list ChatRow) : list ChatRow :=
  match sorted with
  | [] => [x]
  | y :: rest =>
      if ascBefore (chatCreatedAt y) (chatCreatedAt x)
      then y :: insertAsc x rest
      else x :: y :: rest
  end.

(** [.orderBy(chatMessages.createdAt)], rows of equal time in the order
    the table yields them. *)
Definition orderByCreatedAt (rows : list ChatRow) : list ChatRow :=
  fold_right insertAsc [] rows.

(** [limit: number = 50] *)
Definition limitOr50 (limit : option nat) : nat :=
  match limit with
  | Some n => n
  | None => 50%nat
  end.

Definition isOf (userId : Z) (r : ChatRow) : bool := Z.eqb (chatUserId r) userId.

(** [storage.getChatMessagesByUser] *)
Definition getChatMessagesByUser (userId : Z) (limit : option nat) : Route (list ChatRow) :=
  gets (fun st => firstn (limitOr50 limit)
                         (orderByCreatedAt (filter (isOf userId) (chatMessages st)))).

(** A field of the request body. *)
Inductive Field : Type :=
| Missing
| Text (s : string)
| NotText.

(** [z.string().min(1)] *)
Definition requiredText (f : Field) : Route string :=
  match f with
  | Text (String c rest) => ret (String c rest)
  | _ => throw "ZodError"
  end.

(** [z.string().optional()] *)
Definition optionalText (f : Field) : Route (option string) :=
  match f with
  | Missing => ret None
  | Text s => ret (Some s)
  | NotText => throw "ZodError"
  end.

(** [req.session], whose fields are set or not. *)
Record Session : Type := mkSession {
  isLoggedIn : option bool;
  sessionUserId : option Z
}.

(** [req.session?.isLoggedIn && req.session.userId]: an id of 0 is falsy. *)
Definition signedIn (session : option Session) : option Z :=
  match session with
  | Some (mkSession (Some true) (Some id)) => if Z.eqb id 0 then None else Some id
  | _ => None
  end.

Inductive Json : Type :=
| Message (text : string)
| Row (row : ChatRow)
| Rows (rows : list ChatRow)
| Answer (message : string) (id : Z) (createdAt : option Z).

Record HttpResponse : Type := mkHttp {
  status : Z;
  json : Json
}.

Definition notAuthenticated : HttpResponse := mkHttp 401 (Message "Not authenticated").

(** server/openai.ts, [getHomeworkHelp] *)
Definition getHomeworkHelp (subject question : string) : Srv string :=
  tryCatch
    (content <- sdkCall (mkRequest OpenAIBackend
                           [("system", ("You are a specialized educational assistant for " ++ subject ++ ". Provide helpful, step-by-step explanations with a focus on teaching the student how to approach similar problems in the future. Include relevant formulas, concepts, and examples when appropriate.")%string);
                            ("user", question)]) ;;
     ret (Js.strOrElse content "I couldn't process your request. Please try again."))
    (fun _ => ret "Sorry, I'm having trouble analyzing this homework problem right now. Please try again later.").

(** The system instruction of [getHomeworkHelp] in server/perplexity.ts
    and in server/gemini.ts. *)
Definition homeworkInstruction (subject : string) : string :=
  ("You are a knowledgeable educational assistant specializing in " ++ subject ++ ". " ++ Js.nl
   ++ "  Provide detailed, accurate, and helpful explanations that enable learning." ++ Js.nl
   ++ "  Include relevant equations, concepts, and step-by-step solutions when appropriate." ++ Js.nl
   ++ "  Your responses should be educational and help students understand concepts, not just give answers.")%string.

Definition homeworkPrompt (subject question : string) : string :=
  ("I need help with this " ++ subject ++ " question: " ++ question)%string.

(** server/perplexity.ts, [getHomeworkHelp] *)
Definition getPerplexityHomeworkHelp (subject question : string) : Srv string :=
  getPerplexityResponse (homeworkPrompt subject question) (Some (homeworkInstruction subject)).

(** server/gemini.ts, [getHomeworkHelp] *)
Definition getGeminiHomeworkHelp (subject question : string) : Srv string :=
  getGeminiResponse (homeworkPrompt subject question) (Some (homeworkInstruction subject)).

(** [`[${subject}] ${question}`] *)
Definition tagged (subject question : string) : string :=
  ("[" ++ subject ++ "] " ++ question)%string.

(** [POST /api/chat] *)
Definition chatRoute (session : option Session) (message : Field) : Route HttpResponse :=
  match signedIn session with
  | None => ret notAuthenticated
  | Some userId =>
      tryCatch
        (message <- requiredText message ;;
         createChatMessage userId message true ;;;
         aiResponse <- provider (getAIChatResponse message) ;;
         savedMessage <- createChatMessage userId aiResponse false ;;
         ret (mkHttp 200 (Row savedMessage)))
        (fun error => ret (mkHttp 400 (Message error)))
  end.

(** [POST /api/chat/homework-help] *)
Definition chatHomeworkRoute (session : option Session) (subject question : Field)
  : Route HttpResponse :=
  match signedIn session with
  | None => ret notAuthenticated
  | Some userId =>
      tryCatch
        (subject <- requiredText subject ;;
         question <- requiredText question ;;
         createChatMessage userId (tagged subject question) true ;;;
         aiResponse <- provider (getHomeworkHelp subject question) ;;
         savedMessage <- createChatMessage userId aiResponse false ;;
         ret (mkHttp 200 (Row savedMessage)))
        (fun error => ret (mkHttp 400 (Message error)))
  end.

(** [GET /api/chat/history] *)
Definition historyRoute (session : option Session) : Route HttpResponse :=
  match signedIn session with
  | None => ret notAuthenticated
  | Some userId =>
      messages <- getChatMessagesByUser userId None ;;
      ret (mkHttp 200 (Rows messages))
  end.

(** [POST /api/perplexity/chat]; [account] is the id of [req.user] when
    [req.isAuthenticated()]. *)
Definition perplexityChatRoute (account : option Z) (message systemInstruction : Field)
  : Route HttpResponse :=
  match account with
  | None => ret notAuthenticated
  | Some userId =>
      tryCatch
        (message <- requiredText message ;;
         systemInstruction <- optionalText systemInstruction ;;
         aiResponse <- provider (getPerplexityResponse message systemInstruction) ;;
         createChatMessage userId message true ;;;
         savedMessage <- createChatMessage userId aiResponse false ;;
         ret (mkHttp 200 (Answer aiResponse (chatId savedMessage)
                                 (chatCreatedAt savedMessage))))
        (fun error => ret (mkHttp 500 (Message error)))
  end.

(** [POST /api/gemini/chat] *)
Definition geminiChatRoute (account : option Z) (message systemInstruction : Field)
  : Route HttpResponse :=
  match account with
  | None => ret notAuthenticated
  | Some userId =>
      tryCatch
        (message <- requiredText message ;;
         systemInstruction <- optionalText systemInstruction ;;
         aiResponse <- provider (getGeminiResponse message systemInstruction) ;;
         createChatMessage userId message true ;;;
         savedMessage <- createChatMessage userId aiResponse false ;;
         ret (mkHttp 200 (Answer aiResponse (chatId savedMessage)
                                 (chatCreatedAt savedMessage))))
        (fun error => ret (mkHttp 500 (Message error)))
  end.

(** [POST /api/perplexity/homework] *)
Definition perplexityHomeworkRoute (account : option Z) (subject question : Field)
  : Route HttpResponse :=
  match account with
  | None => ret notAuthenticated
  | Some userId =>
      tryCatch
        (subject <- requiredText subject ;;
         question <- requiredText question ;;
         createChatMessage userId (tagged subject question) true ;;;
         aiResponse <- provider (getPerplexityHomeworkHelp subject question) ;;
         savedMessage <- createChatMessage userId aiResponse false ;;
         ret (mkHttp 200 (Answer aiResponse (chatId savedMessage)
                                 (chatCreatedAt savedMessage))))
        (fun error => ret (mkHttp 500 (Message error)))
  end.

(** [POST /api/gemini/homework] *)
Definition geminiHomeworkRoute (account : option Z) (subject question : Field)
  : Route HttpResponse :=
  match account with
  | None => ret notAuthenticated
  | Some userId =>
      tryCatch
        (subject <- requiredText subject ;;
         question <- requiredText question ;;
         aiResponse <- provider (getGeminiHomeworkHelp subject question) ;;
         createChatMessage userId (tagged subject question) true ;;;
         savedMessage <- createChatMessage userId aiResponse false ;;
         ret (mkHttp 200 (Answer aiResponse (chatId savedMessage)
                                 (chatCreatedAt savedMessage))))
        (fun error => ret (mkHttp 500 (Message error)))
  end.

(** The rows a question and its answer add to the table of [st]. *)
Definition questionRow (userId : Z) (asked : string) (st : Site) : ChatRow :=
  mkChatRow (chatSeq st) userId asked true (Some (clock st (chatSeq st))).

Definition answerRow (userId : Z) (answered : string) (st : Site) : ChatRow :=
  mkChatRow (chatSeq st + 1) userId answered false (Some (clock st (chatSeq st + 1))).

Definition exchange (userId : Z) (asked answered : string) (st : Site) : list ChatRow :=
  [questionRow userId asked st; answerRow userId answered st].

(** The text [z.string().min(1)] lets through. *)
Definition filled (f : Field) : option string :=
  match f with
  | Text (String c rest) => Some (String c rest)
  | _ => None
  end.

(** The value [z.string().optional()] lets through. *)
Definition optional (f : Field) : option (option string) :=
  match f with
  | Missing => Some None
  | Text s => Some (Some s)
  | NotText => None
  end.

(** A route was given a request it does not take on and answered with
    another status than 200, leaving the server as it was. *)
Definition turnedAway (st : Site) (out : Outcome HttpResponse * Site) : Prop :=
  exists response,
    fst out = Returned response /\ status response <> 200 /\ snd out = st.

(** A route that asks the provider before it stores anything, on a request
    of [userId] with the question [asked] to which the provider gave
    [answer]: when the provider answered and the user is in [users], the
    route answers 200 with that answer and has added the question row and
    the answer row of that user, and nothing else; otherwise it answers
    500 and the table is as it was. *)
Definition storedWhenAnswered (userId : Z) (asked : string) (answer : Outcome string)
  (st : Site) (out : Outcome HttpResponse * Site) : Prop :=
  match answer with
  | Returned answered =>
      if existsb (Z.eqb userId) (members st)
      then fst out = Returned (mkHttp 200 (Answer answered (chatSeq st + 1)
                                                  (Some (clock st (chatSeq st + 1)))))
           /\ chatMessages (snd out) = chatMessages st ++ exchange userId asked answered st
      else (exists error, fst out = Returned (mkHttp 500 (Message error)))
           /\ chatMessages (snd out) = chatMessages st
  | Thrown error =>
      fst out = Returned (mkHttp 500 (Message error))
      /\ chatMessages (snd out) = chatMessages st
  end.

(** Every row of the user in [rows] carries a time before [t]. *)
Definition stampedBefore (userId t : Z) (rows : list ChatRow) : bool :=
  forallb (fun r => negb (isOf userId r)
                    || match chatCreatedAt r with
                       | Some stamp => Z.ltb stamp t
                       | None => false
                       end)
          rows.

End ChatRoutes.

(* ================================================================== *)
(** ** More string operations of the sources *)

Module JsText.

(** The string holds ASCII characters only (codes below 128). The methods
    of this module are [String.prototype] methods as they act on such
    strings: outside ASCII, [toUpperCase] maps further letters (dotless i
    to I, long s to S, sharp s to SS) and [trim] strips further blanks
    (no-break space, U+FEFF, U+2028 and so on), which is not modelled;
    what is proved of them is proved for [asciiOnly] strings. *)
Fixpoint asciiOnly (s : string) : bool :=
  match s with
  | EmptyString => true
  | String c rest => (nat_of_ascii c <? 128)%nat && asciiOnly rest
  end.

Definition upperAscii (c : ascii) : ascii :=
  let n := nat_of_ascii c in
  if ((97 <=? n) && (n <=? 122))%nat then ascii_of_nat (n - 32) else c.

(** [s.toUpperCase()] for an [asciiOnly] string: a to z become A to Z. *)
Fixpoint toUpperCase (s : string) : string :=
  match s with
  | EmptyString => EmptyString
  | String c rest => String (upperAscii c) (toUpperCase rest)
  end.

(** The characters of an [asciiOnly] string that the [\s] class and
    [trim] treat as blank: tab, line feed, vertical tab, form feed,
    carriage return and space. *)
Definition isBlank (c : ascii) : bool :=
  let n := nat_of_ascii c in
  (((9 <=? n) && (n <=? 13)) || (n =? 32))%nat.

Fixpoint trimStart (s : string) : string :=
  match s with
  | EmptyString => EmptyString
  | String c rest => if isBlank c then trimStart rest else s
  end.

(** The string without its trailing blanks. *)
Fixpoint trimEnd (s : string) : string :=
  match s with
  | EmptyString => EmptyString
  | String c rest =>
      match trimEnd rest with
      | EmptyString => if isBlank c then EmptyString else String c EmptyString
      | kept => String c kept
      end
  end.

(** [s.trim()] for an [asciiOnly] string. *)
Definition trim (s : string) : string := trimEnd (trimStart s).

(** [s.split(/[...]/)] for a class of single characters: a cut at every
    character of the class, empty pieces kept. *)
Fixpoint splitAt (sep : ascii -> bool) (s : string) : list string :=
  match s with
  | EmptyString => [EmptyString]
  | String c rest =>
      if sep c
      then EmptyString :: splitAt sep rest
      else match splitAt sep rest with
           | piece :: pieces => String c piece :: pieces
           | [] => [String c EmptyString]
           end
  end.

(** [s.split(/\s+/)]: a cut at every maximal run of blanks. *)
Fixpoint splitBlankRuns (s : string) : list string :=
  match s with
  | EmptyString => [EmptyString]
  | String c rest =>
      if isBlank c
      then match rest with
           | String d _ => if isBlank d then splitBlankRuns rest
                           else EmptyString :: splitBlankRuns rest
           | EmptyString => [EmptyString; EmptyString]
           end
      else match splitBlankRuns rest with
           | piece :: pieces => String c piece :: pieces
           | [] => [String c EmptyString]
           end
  end.

Definition nonEmpty (s : string) : bool :=
  match s with EmptyString => false | _ => true end.

(** [pieces.join(sep)] *)
Fixpoint join (sep : string) (pieces : list string) : string :=
  match pieces with
  | [] => EmptyString
  | [piece] => piece
  | piece :: rest => (piece ++ sep ++ join sep rest)%string
  end.

(** [s.replace(/^data: /, '')] *)
Definition dropDataPrefix (s : string) : string :=
  if String.prefix "data: " s then String.substring 6 (String.length s - 6) s else s.

End JsText.

(* ================================================================== *)
(** ** client/src/lib/openai.ts: chat, history and the offline answers *)

Module ClientChat.
Import ChatStorage Providers JsText.

(** openai.ts, [generateLocalResponse]: the answer given when the server
    is out of reach. *)
Definition generateLocalResponse (message : string) : string :=
  let message := Js.toLowerCase message in
  if Js.includes message "hello" || Js.includes message "hi " || Js.includes message "hey" then
    "Hello! I'm your educational assistant. How can I help you with your studies today?"
  else if Js.includes message "how are you" then
    "I'm functioning well and ready to assist with your educational needs. What can I help you with?"
  else if Js.includes message "help with" || Js.includes message "homework" || Js.includes message "assignment" then
    "I'd be happy to help with your assignment. Could you provide some more details about the specific subject and question?"
  else if Js.includes message "math" || Js.includes message "equation" || Js.includes message "solve" then
    "For math problems, I'd normally work through the solution step by step. To better assist you, could you write out the complete problem you're trying to solve?"
  else if Js.includes message "history" || Js.includes message "historical" then
    "History questions are fascinating. Could you specify which historical period, event, or figure you're asking about?"
  else if Js.includes message "science" || Js.includes message "scientific" || Js.includes message "physics" || Js.includes message "chemistry" || Js.includes message "biology" then
    "For science questions, I can help explain concepts, processes, or theories. Could you clarify which specific scientific topic you're interested in?"
  else if Js.includes message "literature" || Js.includes message "book" || Js.includes message "novel" || Js.includes message "poem" then
    "Literature analysis is one of my specialties. Which work are you studying, and what aspects would you like to explore?"
  else if Js.includes message "thank" then
    "You're welcome! Don't hesitate to ask if you need any more assistance with your studies."
  else
    "I'm here to help with your educational questions. To provide the most relevant assistance, could you specify which subject you're studying and what specific question you have?".

(** openai.ts, [sendChatMessage]; [reply] is what [POST /api/chat/message]
    answers (the [message] field of its body). A failing route is answered
    from [generateLocalResponse]; nothing is rethrown. *)
Definition sendChatMessage (reply : FetchResult) (message : string) : Client Exchange :=
  usr <- requireUser ;;
  tryCatch
    (data <- fetchText reply "Server API failed" ;;
     um <- saveChatMessageToStorage (LocalUser.id usr)
             (mkInput user message (Some (LocalUser.id usr))) ;;
     am <- saveChatMessageToStorage (LocalUser.id usr)
             (mkInput assistant data (Some (LocalUser.id usr))) ;;
     ret (mkExchange um am))
    (fun _ =>
       um <- saveChatMessageToStorage (LocalUser.id usr)
               (mkInput user message (Some (LocalUser.id usr))) ;;
       let responseText := generateLocalResponse message in
       am <- saveChatMessageToStorage (LocalUser.id usr)
               (mkInput assistant responseText (Some (LocalUser.id usr))) ;;
       ret (mkExchange um am)).

(** What [GET /api/chat/history] answers: no connection, or a response
    with its [ok] flag and, when the body parses, the messages in it. *)
Inductive HistoryReply : Type :=
| HistoryFailure
| HistoryResponse (ok : bool) (body : option (list ChatMessage.t)).

(** openai.ts, [getChatHistory]: nobody signed in gives the empty list;
    the server's list is used when it answers, the local cache otherwise. *)
Definition getChatHistory (reply : HistoryReply) : Client (list ChatMessage.t) :=
  u <- loadUserFromLocalStorage ;;
  match u with
  | None => ret []
  | Some usr =>
      fromServer <-
        tryCatch
          (match reply with
           | HistoryFailure => throw "TypeError: Failed to fetch"
           | HistoryResponse true None => throw "SyntaxError: Unexpected end of JSON input"
           | HistoryResponse true (Some messages) => ret (Some messages)
           | HistoryResponse false _ => ret None
           end)
          (fun _ => ret None) ;;
      match fromServer with
      | Some messages => ret messages
      | None => gets (loadChatHistoryFromStorage (LocalUser.id usr))
      end
  end.

End ClientChat.

(* ================================================================== *)
(** ** client/src/lib/perplexityService.ts: the streamed chat *)

Module PerplexityStream.
Import ChatStorage Providers JsText.

(** What the reader of a streamed body yields: the chunks read, and
    whether a read then fails instead of reporting the end. *)
Record Reader : Type := mkReader {
  chunks : list string;
  breaksOff : bool
}.

(** What [POST /api/perplexity/chat/stream] answers. *)
Inductive StreamReply : Type :=
| StreamFailure
| StreamResponse (ok : bool) (reader : option Reader).

(** The browser together with what the caller's two callbacks have been
    handed so far: the arguments of [onChunk], in order, and those of
    [onComplete]. *)
Record Listening : Type := mkListening {
  browser : World.t;
  heard : list string;
  completed : list string
}.

Definition Stream (A : Type) : Type := M Listening A.

Definition inBrowser {A} (m : Client A) : Stream A :=
  fun l =>
    let (o, w') := m (browser l) in
    (o, mkListening w' (heard l) (completed l)).

(** [onChunk(textChunk)] *)
Definition hear (textChunk : string) : Stream unit :=
  modify (fun l => mkListening (browser l) (heard l ++ [textChunk]) (completed l)).

(** [onComplete(fullResponse)] *)
Definition complete (fullResponse : string) : Stream unit :=
  modify (fun l => mkListening (browser l) (heard l) (completed l ++ [fullResponse])).

(** [chunk.replace(/^data: /, '').trim()] *)
Definition textOfChunk (chunk : string) : string := trim (dropDataPrefix chunk).

(** The [while (true)] loop over the reader, up to [done] (or to the read
    that fails); [onChunk] tells whether the callback was passed. *)
Fixpoint readAll (onChunk : bool) (values : list string) (fullResponse : string)
  : Stream string :=
  match values with
  | [] => ret fullResponse
  | value :: rest =>
      let textChunk := textOfChunk value in
      (if nonEmpty textChunk && onChunk then hear textChunk else ret tt) ;;;
      readAll onChunk rest (fullResponse ++ textChunk)%string
  end.

(** perplexityService.ts, [streamPerplexityChat] *)
Definition streamPerplexityChat (reply : StreamReply) (message : string)
           (onChunk onComplete : bool) : Stream string :=
  usr <- inBrowser requireUser ;;
  tryCatch
    (inBrowser (saveChatMessageToStorage (LocalUser.id usr)
                  (mkInput user message (Some (LocalUser.id usr)))) ;;;
     match reply with
     | StreamFailure => throw "TypeError: Failed to fetch"
     | StreamResponse false _ => throw "Failed to stream response from Perplexity API"
     | StreamResponse true None => throw "Failed to get response stream"
     | StreamResponse true (Some reader) =>
         fullResponse <- readAll onChunk (chunks reader) "" ;;
         if breaksOff reader
         then throw "TypeError: network error"
         else
           inBrowser (saveChatMessageToStorage (LocalUser.id usr)
                        (mkInput assistant fullResponse (Some (LocalUser.id usr)))) ;;;
           (if onComplete : bool then complete fullResponse else ret tt) ;;;
           ret fullResponse
     end)
    (fun error => throw error).

(** The pieces put end to end. *)
Definition glue (pieces : list string) : string :=
  fold_right String.append EmptyString pieces.

(** The stream ended as a stream should: a success status, a reader, and
    an end reported after the last chunk. *)
Definition ranToEnd (reply : StreamReply) : option (list string) :=
  match reply with
  | StreamResponse true (Some reader) =>
      if breaksOff reader then None else Some (chunks reader)
  | _ => None
  end.

End PerplexityStream.

(* ================================================================== *)
(** ** Concrete browsers for the further examples *)

Module Cases.
Import Scenario.

Definition turn (uid : Z) (r : Role) (text : string) : ChatMessage.t :=
  ChatMessage.mk "1699999999999abc1234" uid text r 1699999999999.

(** A signed-in browser (user 7) whose cache holds a session of user 7 and
    one of user 8; the Gemini and Perplexity routes answer, the OpenAI
    route is down. *)
Definition twoSessions : World.t :=
  World.mk
    (Parsed [ChatSession.mk 7 [turn 7 user "hi"; turn 7 assistant "hello"] 1699999999999;
             ChatSession.mk 8 [turn 8 user "yo"] 1699999999999])
    (Parsed student) false 1700000000000 (fun _ => "k3x9q2a") 0
    true [] []
    (fun _ _ => Response true (Some "4")) (fun _ _ => Response true (Some "four"))
    (fun _ _ => NetworkFailure) (fun _ => Some "IV").

(** The same browser with nobody signed in. *)
Definition nobody : World.t :=
  World.mk (World.chatStore twoSessions) Absent false 1700000000000
           (fun _ => "k3x9q2a") 0 true [] []
           (fun _ _ => Response true (Some "4")) (fun _ _ => Response true (Some "four"))
           (fun _ _ => NetworkFailure) (fun _ => Some "IV").

Definition reader : User.t := User.mk 2 "kim" None.

(** A database with two posts of user 1: post 5 carries one like, by
    user 2, and post 6 none. *)
Definition shelf : Likes.Store :=
  Likes.mkStore
    (Storage.mkDb [post 5 "public" 3 1 0 0 6000; post 6 "public" 0 0 0 0 6100]
                  [author; reader]
                  [Mark.mk 1 2 5 (Some 6500)] [])
    2 7000.

(** The same database after user 1 has liked post 5. *)
Definition likedShelf : Likes.Store := snd (Likes.likeRoute (Some 1) 5 shelf).

Definition likedResponse : Likes.Response :=
  Likes.mkResponse 201 (Likes.LikeRow (Mark.mk 2 1 5 (Some 7000))).

(** A session of user 7. *)
Definition loggedIn : ChatRoutes.Session := ChatRoutes.mkSession (Some true) (Some 7).

(** A server with users 7 and 8 and an empty chat table; its providers
    cannot be reached. *)
Definition classroom : ChatRoutes.Site :=
  ChatRoutes.mkSite downServer [7; 8] [] 1 (fun n => 1700000000000 + n).

(** The same server without a Perplexity key. *)
Definition keyless : ChatRoutes.Site :=
  ChatRoutes.mkSite (ServerClients.mkServer None (fun _ => ServerClients.ConnectionError) [])
                    [7; 8] [] 1 (fun n => 1700000000000 + n).

(** A server where user 7 has fifty rows, stamped earlier. *)
Definition longChat : ChatRoutes.Site :=
  ChatRoutes.mkSite downServer [7; 8]
    (map (fun n => ChatRoutes.mkChatRow (Z.of_nat n) 7 "again" true
                     (Some (1600000000000 + Z.of_nat n)))
         (seq 1 50))
    51 (fun n => 1700000000000 + n).

End Cases.

(* ================================================================== *)
(** * Properties *)

(** Running a computation: unfold the sequencing down to the world. *)
Ltac run :=
  unfold tryCatch, bind, ret, throw, gets, modify in *; cbn in *.

(* ------------------------------------------------------------------ *)
(** ** The local cache (chatStorageService.ts) *)

Section ChatStorageFacts.
Import ChatStorage.

Implicit Types (uid : Z) (w : World.t) (sessions : list ChatSession.t).

Lemma find_pushToSession uid m stamp sessions s :
  find (isSessionOf uid) sessions = Some s ->
  find (isSessionOf uid) (pushToSession uid m stamp sessions)
  = Some (ChatSession.mk (ChatSession.userId s) (ChatSession.messages s ++ [m]) stamp).
Proof.
  induction sessions as [|x rest IH]; cbn; [discriminate|].
  destruct (isSessionOf uid x) eqn:Hx; cbn.
  - intros [= ->]. unfold isSessionOf in *. cbn. now rewrite Hx.
  - rewrite Hx. exact IH.
Qed.

Lemma find_app_last {A} (f : A -> bool) (l : list A) (x : A) :
  find f l = None -> f x = true -> find f (l ++ [x]) = Some x.
Proof.
  induction l as [|y rest IH]; cbn; intros Hnone Hx.
  - now rewrite Hx.
  - destruct (f y); [discriminate | auto].
Qed.

Lemma others_pushToSession uid m stamp sessions :
  filter (fun s => negb (isSessionOf uid s)) (pushToSession uid m stamp sessions)
  = filter (fun s => negb (isSessionOf uid s)) sessions.
Proof.
  induction sessions as [|x rest IH]; cbn; [reflexivity|].
  destruct (isSessionOf uid x) eqn:Hx; cbn.
  - unfold isSessionOf in *. cbn. now rewrite Hx.
  - rewrite Hx. cbn. now rewrite IH.
Qed.

Lemma others_app_own uid sessions s :
  isSessionOf uid s = true ->
  filter (fun s => negb (isSessionOf uid s)) (sessions ++ [s])
  = filter (fun s => negb (isSessionOf uid s)) sessions.
Proof.
  intros Hs. rewrite filter_app. cbn. rewrite Hs. cbn. now rewrite app_nil_r.
Qed.

Lemma others_idempotent uid sessions :
  filter (fun s => negb (isSessionOf uid s))
         (filter (fun s => negb (isSessionOf uid s)) sessions)
  = filter (fun s => negb (isSessionOf uid s)) sessions.
Proof.
  induction sessions as [|x rest IH]; cbn; [reflexivity|].
  destruct (isSessionOf uid x) eqn:Hx; cbn; [exact IH|].
  rewrite Hx. cbn. now rewrite IH.
Qed.

Lemma find_other_filter uid v sessions :
  v <> uid ->
  find (isSessionOf v) (filter (fun s => negb (isSessionOf uid s)) sessions)
  = find (isSessionOf v) sessions.
Proof.
  intros Hv. induction sessions as [|x rest IH]; cbn; [reflexivity|].
  destruct (isSessionOf uid x) eqn:Hx; cbn.
  - destruct (isSessionOf v x) eqn:Hvx; [|exact IH].
    unfold isSessionOf in *. apply Z.eqb_eq in Hx, Hvx. congruence.
  - now rewrite IH.
Qed.

(** The history of another user is read from the sessions of others. *)
Lemma history_from_others uid v w :
  v <> uid ->
  loadChatHistoryFromStorage v w
  = match find (isSessionOf v) (sessionsOfOthers uid w) with
    | Some s => ChatSession.messages s
    | None => []
    end.
Proof.
  intros Hv. unfold loadChatHistoryFromStorage, sessionsOfOthers, cachedSessions.
  destruct (World.chatStore w); cbn; try reflexivity.
  now rewrite find_other_filter.
Qed.

Lemma save_writable uid message w :
  cacheWritable w = true ->
  fst (saveChatMessageToStorage uid message w) = Returned (builtMessage uid message w)
  /\ loadChatHistoryFromStorage uid (snd (saveChatMessageToStorage uid message w))
     = loadChatHistoryFromStorage uid w ++ [builtMessage uid message w]
  /\ sessionsOfOthers uid (snd (saveChatMessageToStorage uid message w))
     = sessionsOfOthers uid w
  /\ cacheWritable (snd (saveChatMessageToStorage uid message w)) = true.
Proof.
  unfold cacheWritable, saveChatMessageToStorage, generateUniqueId, now,
    readSessions, writeSessions, submitChatMessageToServer,
    loadChatHistoryFromStorage, sessionsOfOthers, cachedSessions, builtMessage.
  run.
  destruct (World.setItemThrows w) eqn:Hq; [discriminate|].
  destruct (World.chatStore w) as [| |sessions] eqn:Hs; cbn; [|discriminate|];
    intros _; rewrite ?Hq; cbn.
  - destruct (World.chatApiReachable w); cbn; unfold isSessionOf; cbn;
      rewrite Z.eqb_refl, ?Hq; cbn; repeat split; reflexivity.
  - destruct (find (isSessionOf uid) sessions) as [s|] eqn:Hf;
      destruct (World.chatApiReachable w); cbn;
      rewrite ?(find_pushToSession _ _ _ _ _ Hf), ?others_pushToSession, ?Hq; cbn;
      repeat split; try reflexivity;
      rewrite ?(find_app_last (isSessionOf uid) sessions _ Hf), ?others_app_own;
      unfold isSessionOf; cbn; rewrite ?Z.eqb_refl; reflexivity.
Qed.

Lemma save_not_writable uid message w :
  cacheWritable w = false ->
  (exists m, fst (saveChatMessageToStorage uid message w) = Returned m
             /\ ChatMessage.content m = inContent message
             /\ ChatMessage.role m = inRole message
             /\ ChatMessage.userId m = uid)
  /\ World.chatStore (snd (saveChatMessageToStorage uid message w)) = World.chatStore w
  /\ World.serverInbox (snd (saveChatMessageToStorage uid message w)) = World.serverInbox w.
Proof.
  unfold cacheWritable, saveChatMessageToStorage, generateUniqueId, now,
    readSessions, writeSessions, submitChatMessageToServer.
  run.
  destruct (World.chatStore w) as [| |sessions] eqn:Hs;
    destruct (World.setItemThrows w) eqn:Hq; cbn; try discriminate; intros _;
    rewrite ?Hq; cbn; rewrite ?Hs; eauto 10.
Qed.

Lemma clear_others uid w :
  fst (clearChatHistory uid w) = Returned tt
  /\ sessionsOfOthers uid (snd (clearChatHistory uid w)) = sessionsOfOthers uid w.
Proof.
  unfold clearChatHistory, writeSessions, sessionsOfOthers, cachedSessions.
  run.
  destruct (World.chatStore w) as [| |sessions] eqn:Hs; cbn; rewrite ?Hs; auto.
  destruct (World.setItemThrows w) eqn:Hq; cbn; rewrite ?Hs; auto.
  destruct (World.chatApiReachable w); cbn; rewrite others_idempotent; auto.
Qed.

End ChatStorageFacts.

(* ------------------------------------------------------------------ *)
(** ** The orchestrator (homeworkHelpService.ts) *)

Section OrchestratorFacts.
Import ChatStorage Providers HomeworkHelp.

Lemma save_total uid message w :
  exists m, fst (saveChatMessageToStorage uid message w) = Returned m
            /\ ChatMessage.content m = inContent message
            /\ ChatMessage.role m = inRole message
            /\ ChatMessage.userId m = uid.
Proof.
  destruct (cacheWritable w) eqn:Hw.
  - destruct (save_writable uid message w Hw) as (Hm & _).
    exists (builtMessage uid message w). auto.
  - destruct (save_not_writable uid message w Hw) as (Hm & _). exact Hm.
Qed.

Local Opaque saveChatMessageToStorage.

(** The tail of every branch: one save, then the attributed object. *)
Lemma answer_runs uid um text src r :
  exists am,
    fst (saveChatMessageToStorage uid (mkInput assistant text (Some uid)) (world r))
    = Returned am
    /\ answer uid um text src r
       = (Returned (mkHelp um (attribute am text src)),
          mkRun (snd (saveChatMessageToStorage uid (mkInput assistant text (Some uid))
                        (world r)))
                (invoked r)).
Proof.
  destruct (save_total uid (mkInput assistant text (Some uid)) (world r)) as (am & Ham & _).
  exists am. split; [exact Ham|].
  unfold answer, inWorld. run.
  destruct (saveChatMessageToStorage uid _ (world r)) as [o w']. cbn in *.
  now subst o.
Qed.

Variables g p o : string -> string -> Client Exchange.

(** The orchestrator, branch by branch, for any three services. *)
Lemma orchestrate_unfold subject question w u :
  World.userStore w = Parsed u ->
  exists um,
    fst (saveChatMessageToStorage (LocalUser.id u)
           (mkInput user (taggedQuestion subject question) (Some (LocalUser.id u))) w)
    = Returned um
    /\ getIntegratedHomeworkHelp g p o subject question (mkRun w [])
       = let uid := LocalUser.id u in
         let w1 := snd (saveChatMessageToStorage uid
                          (mkInput user (taggedQuestion subject question) (Some uid)) w) in
         match g subject question w1 with
         | (Returned ex, w2) =>
             answer uid um
               (ChatMessage.content (Providers.assistantMessage ex) ++ geminiSuffix)%string
               "Gemini" (mkRun w2 [Gemini])
         | (Thrown _, w2) =>
             match p subject question w2 with
             | (Returned ex, w3) =>
                 answer uid um
                   (ChatMessage.content (Providers.assistantMessage ex)
                    ++ perplexitySuffix)%string
                   "Perplexity" (mkRun w3 [Gemini; Perplexity])
             | (Thrown _, w3) =>
                 match o subject question w3 with
                 | (Returned ex, w4) =>
                     answer uid um
                       (ChatMessage.content (Providers.assistantMessage ex))
                       "OpenAI" (mkRun w4 [Gemini; Perplexity; OpenAI])
                 | (Thrown _, w4) =>
                     answer uid um errorMessage "Error"
                       (mkRun w4 [Gemini; Perplexity; OpenAI])
                 end
             end
         end.
Proof.
  intros Hu.
  destruct (save_total (LocalUser.id u)
              (mkInput user (taggedQuestion subject question) (Some (LocalUser.id u))) w)
    as (um & Hum & _).
  exists um. split; [exact Hum|].
  unfold getIntegratedHomeworkHelp, requireUser, loadUserFromLocalStorage, inWorld, await.
  run. rewrite Hu. cbn.
  destruct (saveChatMessageToStorage (LocalUser.id u) _ w) as [o1 w1]. cbn in *. subst o1.
  assert (tail : forall uid' um' text src r rest,
             (let (o0, s') := answer uid' um' text src r in
              match o0 with
              | Returned a => (Returned a, s')
              | Thrown e => rest e s'
              end) = answer uid' um' text src r).
  { intros uid' um' text src r rest.
    destruct (answer_runs uid' um' text src r) as (am & _ & ->). reflexivity. }
  destruct (g subject question w1) as [[ex|e] w2]; cbn.
  { apply tail with (rest := fun _ s' => _). }
  destruct (p subject question w2) as [[ex|e'] w3]; cbn.
  { apply tail with (rest := fun _ s' => _). }
  destruct (o subject question w3) as [[ex|e''] w4]; cbn.
  { apply tail with (rest := fun _ s' => _). }
  reflexivity.
Qed.

End OrchestratorFacts.

Section OrchestratorClaims.
Import ChatStorage Providers HomeworkHelp.

Lemma attribute_saved uid text src w :
  forall am,
    fst (saveChatMessageToStorage uid (mkInput assistant text (Some uid)) w) = Returned am ->
    message (attribute am text src) = am.
Proof.
  intros am Ham.
  destruct (save_total uid (mkInput assistant text (Some uid)) w) as (m & Hm & Hc & _).
  rewrite Hm in Ham. injection Ham as <-. cbn in Hc.
  destruct m; cbn in *. now subst.
Qed.

(** What one branch's tail leaves behind: the source, the text, and the
    turn in the cache. *)
Lemma answer_result uid um text src r :
  exists am,
    turnOf (fst (answer uid um text src r)) = Some am
    /\ ChatMessage.content am = text
    /\ ChatMessage.role am = assistant
    /\ sourceOf (fst (answer uid um text src r)) = Some src
    /\ textOf (fst (answer uid um text src r)) = Some text
    /\ invoked (snd (answer uid um text src r)) = invoked r
    /\ (cacheWritable (world r) = true ->
        appended uid (world r) (world (snd (answer uid um text src r))) am).
Proof.
  destruct (answer_runs uid um text src r) as (am & Ham & ->).
  cbn [fst snd turnOf sourceOf textOf assistantMessage world invoked].
  exists am.
  rewrite (attribute_saved uid text src (world r) am Ham). cbn.
  destruct (save_total uid (mkInput assistant text (Some uid)) (world r))
    as (m & Hm & Hc & Hr & _).
  rewrite Hm in Ham. injection Ham as <-. cbn in Hc, Hr.
  repeat split; auto.
  - destruct m; cbn in *; now subst.
  - intros Hw. unfold appended.
    destruct (save_writable uid (mkInput assistant text (Some uid)) (world r) Hw)
      as (Hb & Hh & _).
    rewrite Hh. rewrite Hm in Hb. now injection Hb as <-.
Qed.

Variables g p o : string -> string -> Client Exchange.

(** C3. The services are awaited one at a time in the order Gemini,
    Perplexity, OpenAI. The first one that resolves ends the search: the
    services awaited are exactly those up to it, and the source reported
    is its name. A rejection moves on to the next service, so when Gemini
    rejects and Perplexity resolves exactly two services were awaited and
    the source is Perplexity. *)
Theorem providers_tried_in_priority_order subject question w u :
  World.userStore w = Parsed u ->
  let w1 := snd (saveChatMessageToStorage (LocalUser.id u)
                   (mkInput user (taggedQuestion subject question)
                            (Some (LocalUser.id u))) w) in
  let r := getIntegratedHomeworkHelp g p o subject question (mkRun w []) in
  match g subject question w1 with
  | (Returned _, _) =>
      invoked (snd r) = [Gemini] /\ sourceOf (fst r) = Some (providerName Gemini)
  | (Thrown _, w2) =>
      match p subject question w2 with
      | (Returned _, _) =>
          invoked (snd r) = [Gemini; Perplexity]
          /\ sourceOf (fst r) = Some (providerName Perplexity)
      | (Thrown _, w3) =>
          invoked (snd r) = [Gemini; Perplexity; OpenAI]
          /\ match o subject question w3 with
             | (Returned _, _) => sourceOf (fst r) = Some (providerName OpenAI)
             | (Thrown _, _) => sourceOf (fst r) = Some "Error"
             end
      end
  end.
Proof.
  intros Hu w1 r.
  destruct (orchestrate_unfold g p o subject question w u Hu) as (um & _ & Hrun).
  subst r. rewrite Hrun. cbn zeta. fold w1.
  destruct (g subject question w1) as [[ex|e] w2].
  { destruct (answer_result (LocalUser.id u) um
                (ChatMessage.content (Providers.assistantMessage ex) ++ geminiSuffix)%string
                "Gemini" (mkRun w2 [Gemini])) as (am & _ & _ & _ & Hs & _ & Hi & _).
    auto. }
  destruct (p subject question w2) as [[ex|e'] w3].
  { destruct (answer_result (LocalUser.id u) um
                (ChatMessage.content (Providers.assistantMessage ex) ++ perplexitySuffix)%string
                "Perplexity" (mkRun w3 [Gemini; Perplexity]))
      as (am & _ & _ & _ & Hs & _ & Hi & _).
    auto. }
  destruct (o subject question w3) as [[ex|e''] w4].
  { destruct (answer_result (LocalUser.id u) um
                (ChatMessage.content (Providers.assistantMessage ex))
                "OpenAI" (mkRun w4 [Gemini; Perplexity; OpenAI]))
      as (am & _ & _ & _ & Hs & _ & Hi & _).
    auto. }
  destruct (answer_result (LocalUser.id u) um errorMessage
              "Error" (mkRun w4 [Gemini; Perplexity; OpenAI]))
    as (am & _ & _ & _ & Hs & _ & Hi & _).
  auto.
Qed.

(** C1 (amended). Whatever the three services are, the text handed back is
    the serving service's answer followed by "(Powered by Google Gemini)"
    when Gemini served, by "(Powered by Perplexity AI)" when Perplexity
    served, and by nothing when OpenAI served. The text is fixed once,
    before the assistant turn is saved, and the turn appended to the
    user's cached history (when the cache takes the write) is the returned
    turn, annotation included. *)
Theorem attribution_follows_serving_provider subject question w u :
  World.userStore w = Parsed u ->
  let uid := LocalUser.id u in
  let w1 := snd (saveChatMessageToStorage uid
                   (mkInput user (taggedQuestion subject question) (Some uid)) w) in
  let r := getIntegratedHomeworkHelp g p o subject question (mkRun w []) in
  exists am,
    turnOf (fst r) = Some am
    /\ match g subject question w1 with
       | (Returned ex, w2) =>
           ChatMessage.content am
           = (ChatMessage.content (Providers.assistantMessage ex) ++ geminiSuffix)%string
           /\ (cacheWritable w2 = true -> appended uid w2 (world (snd r)) am)
       | (Thrown _, w2) =>
           match p subject question w2 with
           | (Returned ex, w3) =>
               ChatMessage.content am
               = (ChatMessage.content (Providers.assistantMessage ex)
                  ++ perplexitySuffix)%string
               /\ (cacheWritable w3 = true -> appended uid w3 (world (snd r)) am)
           | (Thrown _, w3) =>
               match o subject question w3 with
               | (Returned ex, w4) =>
                   ChatMessage.content am
                   = ChatMessage.content (Providers.assistantMessage ex)
                   /\ (cacheWritable w4 = true -> appended uid w4 (world (snd r)) am)
               | (Thrown _, w4) =>
                   ChatMessage.content am = errorMessage
                   /\ (cacheWritable w4 = true -> appended uid w4 (world (snd r)) am)
               end
           end
       end.
Proof.
  intros Hu uid w1 r.
  destruct (orchestrate_unfold g p o subject question w u Hu) as (um & _ & Hrun).
  subst r. rewrite Hrun. cbn zeta. fold uid. fold w1.
  destruct (g subject question w1) as [[ex|e] w2].
  { destruct (answer_result uid um
                (ChatMessage.content (Providers.assistantMessage ex) ++ geminiSuffix)%string
                "Gemini" (mkRun w2 [Gemini])) as (am & Ht & Hc & _ & _ & _ & _ & Ha).
    exists am. auto. }
  destruct (p subject question w2) as [[ex|e'] w3].
  { destruct (answer_result uid um
                (ChatMessage.content (Providers.assistantMessage ex) ++ perplexitySuffix)%string
                "Perplexity" (mkRun w3 [Gemini; Perplexity]))
      as (am & Ht & Hc & _ & _ & _ & _ & Ha).
    exists am. auto. }
  destruct (o subject question w3) as [[ex|e''] w4].
  { destruct (answer_result uid um
                (ChatMessage.content (Providers.assistantMessage ex))
                "OpenAI" (mkRun w4 [Gemini; Perplexity; OpenAI]))
      as (am & Ht & Hc & _ & _ & _ & _ & Ha).
    exists am. auto. }
  destruct (answer_result uid um errorMessage
              "Error" (mkRun w4 [Gemini; Perplexity; OpenAI]))
    as (am & Ht & Hc & _ & _ & _ & _ & Ha).
  exists am. auto.
Qed.

End OrchestratorClaims.

Section OrchestratorExamples.
Import ChatStorage Providers HomeworkHelp Scenario.

(** The defining case of C3: Gemini rejects, Perplexity resolves. *)
Lemma providers_tried_in_priority_order_witness :
  World.userStore offline = Parsed student
  /\ let r := getIntegratedHomeworkHelp (stub None) (stub (Some "4")) (stub None)
                "math" "2+2" (mkRun offline []) in
     invoked (snd r) = [Gemini; Perplexity]
     /\ sourceOf (fst r) = Some (providerName Perplexity).
Proof.
  split; [reflexivity|].
  exact (providers_tried_in_priority_order
           (stub None) (stub (Some "4")) (stub None) "math" "2+2" offline student eq_refl).
Defined.

(** With three stand-in services that reject, the call returns the fixed
    apology and reports the source "Error". *)
Lemma exhausted_source_is_Error :
  let r := getIntegratedHomeworkHelp (stub None) (stub None) (stub None)
             "math" "2+2" (mkRun offline []) in
  textOf (fst r) = Some errorMessage
  /\ sourceOf (fst r) = Some "Error"
  /\ sourceOf (fst r) <> Some "none".
Proof.
  vm_compute. repeat split; discriminate.
Qed.

Lemma attribution_follows_serving_provider_witness :
  World.userStore offline = Parsed student
  /\ let w1 := snd (saveChatMessageToStorage 7
                     (mkInput user (taggedQuestion "math" "2+2") (Some 7)) offline) in
     let r := getIntegratedHomeworkHelp (stub None) (stub (Some "4")) (stub None)
                "math" "2+2" (mkRun offline []) in
     exists am,
       turnOf (fst r) = Some am
       /\ ChatMessage.content am = ("4" ++ perplexitySuffix)%string
       /\ (cacheWritable w1 = true -> appended 7 w1 (world (snd r)) am).
Proof.
  split; [reflexivity|].
  exact (attribution_follows_serving_provider
           (stub None) (stub (Some "4")) (stub None) "math" "2+2" offline student eq_refl).
Defined.

(** C1 as worded fails both ways. Gemini is the primary service (the one
    [getPreferredAIForSubject] falls back on, and the first one tried), yet
    its answer comes back annotated; OpenAI is the last resort, yet its
    answer comes back as it is. *)
Lemma primary_answer_is_annotated :
  getPreferredAIForSubject "art" = Gemini
  /\ (let r := getIntegratedHomeworkHelp (stub (Some "4")) (stub None) (stub None)
                 "art" "hue" (mkRun offline []) in
      invoked (snd r) = [Gemini]
      /\ sourceOf (fst r) = Some "Gemini"
      /\ textOf (fst r) = Some ("4" ++ geminiSuffix)%string
      /\ textOf (fst r) <> Some "4")
  /\ (let r := getIntegratedHomeworkHelp (stub None) (stub None) (stub (Some "4"))
                 "art" "hue" (mkRun offline []) in
      invoked (snd r) = [Gemini; Perplexity; OpenAI]
      /\ sourceOf (fst r) = Some "OpenAI"
      /\ textOf (fst r) = Some "4").
Proof.
  vm_compute. repeat split; discriminate.
Qed.

(** C4, at a run the code can make. The browser is signed in, the cache is
    empty and the Gemini route answers "4": the orchestrator saves the
    question, the Gemini service saves the question and its answer again,
    and the orchestrator saves the annotated answer, so one exchange leaves
    four turns in the cache, two of them the assistant's. *)
Theorem linked_exchange_caches_four_turns :
  let w := browser (Response true (Some "4")) NetworkFailure NetworkFailure None in
  let r := getIntegratedHomeworkHelpLinked "math" "2+2" (mkRun w []) in
  sourceOf (fst r) = Some "Gemini"
  /\ cachedRoles 7 w = []
  /\ cachedRoles 7 (world (snd r)) = [user; user; assistant; assistant]
  /\ cachedContents 7 (world (snd r))
     = ["[math] 2+2"; "[math] 2+2"; "4"; ("4" ++ geminiSuffix)%string].
Proof.
  vm_compute. repeat split.
Qed.

(** With services that save nothing, the orchestrator's own two saves are
    all that reaches the cache. *)
Lemma stubbed_exchange_caches_two_turns :
  let r := getIntegratedHomeworkHelp (stub (Some "4")) (stub None) (stub None)
             "math" "2+2" (mkRun offline []) in
  cachedRoles 7 (world (snd r)) = [user; assistant]
  /\ cachedContents 7 (world (snd r)) = ["[math] 2+2"; ("4" ++ geminiSuffix)%string].
Proof.
  vm_compute. repeat split.
Qed.

End OrchestratorExamples.

(* ------------------------------------------------------------------ *)
(** ** Claims on the local cache *)

Section ChatStorageClaims.
Import ChatStorage Scenario.

Lemma save_inbox uid message w :
  cacheWritable w = true ->
  World.serverInbox (snd (saveChatMessageToStorage uid message w))
  = if World.chatApiReachable w
    then World.serverInbox w ++ [builtMessage uid message w]
    else World.serverInbox w.
Proof.
  unfold cacheWritable, saveChatMessageToStorage, generateUniqueId, now,
    readSessions, writeSessions, submitChatMessageToServer, builtMessage.
  run.
  destruct (World.setItemThrows w) eqn:Hq; [discriminate|].
  destruct (World.chatStore w) as [| |sessions] eqn:Hs; cbn; [|discriminate|];
    intros _; rewrite ?Hq; cbn; destruct (World.chatApiReachable w); reflexivity.
Qed.

(** C5 (amended). [saveChatMessageToStorage] never hands an error to its
    caller. When the local write goes through, the call returns the new
    turn and that turn is the last of the user's cached history, whether
    or not the server could be reached (an unreachable server receives
    nothing and nothing is reported). When the local write fails, the
    failure is swallowed as well: the call returns a turn built from the
    arguments and the cache is left as it was. *)
Theorem save_never_escalates uid message w :
  (exists m,
      fst (saveChatMessageToStorage uid message w) = Returned m
      /\ ChatMessage.content m = inContent message
      /\ ChatMessage.role m = inRole message
      /\ ChatMessage.userId m = uid)
  /\ (cacheWritable w = true ->
      exists m,
        fst (saveChatMessageToStorage uid message w) = Returned m
        /\ loadChatHistoryFromStorage uid (snd (saveChatMessageToStorage uid message w))
           = loadChatHistoryFromStorage uid w ++ [m]
        /\ World.serverInbox (snd (saveChatMessageToStorage uid message w))
           = if World.chatApiReachable w
             then World.serverInbox w ++ [m]
             else World.serverInbox w)
  /\ (cacheWritable w = false ->
      World.chatStore (snd (saveChatMessageToStorage uid message w)) = World.chatStore w).
Proof.
  split; [apply save_total|]. split.
  - intros Hw. exists (builtMessage uid message w).
    destruct (save_writable uid message w Hw) as (Hm & Hh & _).
    repeat split; auto using save_inbox.
  - intros Hw. now destruct (save_not_writable uid message w Hw) as (_ & Hs & _).
Qed.

(** C5 as worded fails on its second half: with a storage that refuses
    writes the call returns a turn all the same, and the turn is in no
    cache. *)
Lemma local_write_failure_is_swallowed :
  World.setItemThrows fullDisk = true
  /\ returned (fst (saveChatMessageToStorage 7 (mkInput user "hello" None) fullDisk)) = true
  /\ loadChatHistoryFromStorage 7
       (snd (saveChatMessageToStorage 7 (mkInput user "hello" None) fullDisk)) = []
  /\ World.serverInbox
       (snd (saveChatMessageToStorage 7 (mkInput user "hello" None) fullDisk)) = [].
Proof.
  vm_compute. repeat split.
Qed.

(** The first half of C5 at a concrete browser: the server is out of
    reach, the turn is cached. *)
Lemma remote_failure_keeps_local_turn :
  let w := World.mk Absent (Parsed student) false 1700000000000 (fun _ => "k3x9q2a") 0
                    false [] []
                    (fun _ _ => NetworkFailure) (fun _ _ => NetworkFailure)
                    (fun _ _ => NetworkFailure) (fun _ => None) in
  let r := saveChatMessageToStorage 7 (mkInput user "hello" None) w in
  returned (fst r) = true
  /\ map ChatMessage.content (loadChatHistoryFromStorage 7 (snd r)) = ["hello"]
  /\ World.serverInbox (snd r) = [].
Proof.
  vm_compute. repeat split.
Qed.

(** C10. [saveChatMessageToStorage uid] and [clearChatHistory uid] leave
    the cached sessions of every other user as they were, and with them
    the history each of those users reads back. *)
Theorem cache_updates_touch_one_user uid message w :
  sessionsOfOthers uid (snd (saveChatMessageToStorage uid message w))
  = sessionsOfOthers uid w
  /\ sessionsOfOthers uid (snd (clearChatHistory uid w)) = sessionsOfOthers uid w
  /\ (forall v, v <> uid ->
      loadChatHistoryFromStorage v (snd (saveChatMessageToStorage uid message w))
      = loadChatHistoryFromStorage v w
      /\ loadChatHistoryFromStorage v (snd (clearChatHistory uid w))
         = loadChatHistoryFromStorage v w).
Proof.
  assert (Hsave : sessionsOfOthers uid (snd (saveChatMessageToStorage uid message w))
                  = sessionsOfOthers uid w).
  { destruct (cacheWritable w) eqn:Hw.
    - now destruct (save_writable uid message w Hw) as (_ & _ & Ho & _).
    - destruct (save_not_writable uid message w Hw) as (_ & Hs & _).
      unfold sessionsOfOthers, cachedSessions. now rewrite Hs. }
  assert (Hclear := proj2 (clear_others uid w)).
  split; [exact Hsave|]. split; [exact Hclear|].
  intros v Hv. rewrite !(history_from_others uid v) by assumption.
  rewrite Hsave, Hclear. auto.
Qed.

End ChatStorageClaims.

(* ------------------------------------------------------------------ *)
(** ** The server-side provider clients *)

Section ServerClientFacts.
Import ServerClients Scenario.

Lemma one_more_call (s : Server) (r : Request) :
  (List.length (sent s ++ [r]) - List.length (sent s))%nat = 1%nat.
Proof. rewrite List.length_app. cbn. lia. Qed.

Lemma skipn_own_length {A} (l added : list A) :
  skipn (List.length l) (l ++ added) = added.
Proof. induction l as [|x l IH]; [reflexivity | exact IH]. Qed.

Lemma skipn_whole {A} (l : list A) : skipn (List.length l) l = [].
Proof. induction l as [|x l IH]; [reflexivity | exact IH]. Qed.

Lemma refused_not_ok (s : Server) (r : Request) (answer : option string) :
  refuses s r -> backend s r <> Status true answer.
Proof. intros [H | (a & H)]; rewrite H; discriminate. Qed.

(** Settle a goal on the calls of a run once the run is unfolded. *)
Ltac settled :=
  cbn [fst snd sent returned];
  rewrite <- ?app_assoc, ?skipn_own_length, ?skipn_whole; cbn [app In firstn].

(** [getAIChatResponse]: one call, whose refusal is answered with the
    apology. *)
Lemma openai_on_refusal message s r :
  In r (newCalls (getAIChatResponse message) s) -> refuses s r ->
  r = mkRequest OpenAIBackend [("system", openaiSystemPrompt); ("user", message)]
  /\ newCalls (getAIChatResponse message) s = [r]
  /\ fst (getAIChatResponse message s) = Returned openaiApology.
Proof.
  unfold newCalls, getAIChatResponse, sdkCall, call. run.
  destruct (backend s _) as [|[|] answer] eqn:Hreply; settled;
    intros [<- | []] Hr; (split; [reflexivity|]); (split; [reflexivity|]);
    try reflexivity.
  exfalso. exact (refused_not_ok _ _ _ Hr Hreply).
Qed.

(** [getPerplexityResponse]: at most one call, whose refusal is handed
    on. *)
Lemma perplexity_on_refusal userPrompt systemInstruction s r :
  In r (newCalls (getPerplexityResponse userPrompt systemInstruction) s) ->
  refuses s r ->
  newCalls (getPerplexityResponse userPrompt systemInstruction) s
  = requestsOf PerplexityBackend userPrompt systemInstruction
  /\ newCalls (getPerplexityResponse userPrompt systemInstruction) s = [r]
  /\ returned (fst (getPerplexityResponse userPrompt systemInstruction s)) = false.
Proof.
  unfold newCalls, getPerplexityResponse, requestsOf, call. run.
  destruct (perplexityKey s) as [[|c key]|] eqn:Hk; settled; try tauto.
  destruct (backend s _) as [|[|] [text|]] eqn:Hreply; settled;
    intros [<- | []] Hr; (split; [reflexivity|]); (split; [reflexivity|]);
    try reflexivity.
  exfalso. exact (refused_not_ok _ _ _ Hr Hreply).
Qed.

(** [getGeminiResponse]: the priming call, when there is an instruction,
    then the prompt; a refusal of either is handed on and no call follows
    it. *)
Lemma gemini_on_refusal prompt systemInstruction s r :
  In r (newCalls (getGeminiResponse prompt systemInstruction) s) ->
  refuses s r ->
  (exists n, newCalls (getGeminiResponse prompt systemInstruction) s
             = firstn n (requestsOf GeminiBackend prompt systemInstruction))
  /\ (exists before, newCalls (getGeminiResponse prompt systemInstruction) s = before ++ [r]
                     /\ ~ In r before)
  /\ returned (fst (getGeminiResponse prompt systemInstruction s)) = false.
Proof.
  unfold newCalls, getGeminiResponse, requestsOf, sdkCall, call. run.
  destruct (given systemInstruction) as [text|]; cbn.
  - destruct (backend s (mkRequest GeminiBackend [("user", text)]))
      as [|[|] primed] eqn:Hprimed; cbn; settled.
    + intros [<- | []] Hr. split; [now exists 1%nat|].
      split; [exists []; auto | reflexivity].
    + destruct (backend s (mkRequest GeminiBackend [("user", prompt)]))
        as [|[|] [answer|]] eqn:Hreply; settled;
        (intros [<- | [<- | []]] Hr;
         [exfalso; exact (refused_not_ok _ _ _ Hr Hprimed)|]);
        try (exfalso; exact (refused_not_ok _ _ _ Hr Hreply));
        (split; [now exists 2%nat|]);
        (split; [|reflexivity]);
        exists [mkRequest GeminiBackend [("user", text)]];
        (split; [reflexivity|]);
        intros [Heq | []]; rewrite Heq in Hprimed;
        exact (refused_not_ok _ _ _ Hr Hprimed).
    + intros [<- | []] Hr. split; [now exists 1%nat|].
      split; [exists []; auto | reflexivity].
  - destruct (backend s (mkRequest GeminiBackend [("user", prompt)]))
      as [|[|] [answer|]] eqn:Hreply; settled;
      intros [<- | []] Hr;
      try (exfalso; exact (refused_not_ok _ _ _ Hr Hreply));
      (split; [now exists 1%nat|]); (split; [exists []; auto | reflexivity]).
Qed.

(** C9 (amended). Take any run of a client's [ask] in which a call it
    made was refused (the connection failed or the status was not a
    success). The Perplexity and Gemini clients then fail: they hand an
    error to their caller and return no substitute answer; for Gemini
    this holds for the priming call and for the prompt alike. The OpenAI
    client does not fail: it returns its fixed apology as the answer. No
    client retries: the refused call was made once and is the last call
    of the run, and the calls of the run are the first of the requests
    that make up one [ask], in their order. *)
Theorem provider_clients_on_refusal b prompt systemInstruction s r :
  In r (newCalls (ask b prompt systemInstruction) s) ->
  refuses s r ->
  match b with
  | OpenAIBackend => fst (ask b prompt systemInstruction s) = Returned openaiApology
  | PerplexityBackend | GeminiBackend =>
      returned (fst (ask b prompt systemInstruction s)) = false
  end
  /\ (exists before,
         newCalls (ask b prompt systemInstruction) s = before ++ [r] /\ ~ In r before)
  /\ (exists n,
         newCalls (ask b prompt systemInstruction) s
         = firstn n (requestsOf b prompt systemInstruction)).
Proof.
  intros Hmade Hrefused. destruct b; cbn [ask] in *.
  - destruct (openai_on_refusal prompt s r Hmade Hrefused) as (Hr & Hcalls & Hout).
    split; [exact Hout|]. rewrite Hcalls.
    split; [exists []; auto|]. exists 1%nat. now rewrite Hr.
  - destruct (perplexity_on_refusal prompt systemInstruction s r Hmade Hrefused)
      as (Hplan & Hcalls & Hout).
    split; [exact Hout|]. split; [rewrite Hcalls; exists []; auto|].
    exists 1%nat. now rewrite Hplan.
  - destruct (gemini_on_refusal prompt systemInstruction s r Hmade Hrefused)
      as (Hplan & Hlast & Hout).
    auto.
Qed.

(** A Gemini run whose priming call is accepted and whose prompt is
    refused. *)
Lemma provider_clients_on_refusal_witness :
  let r := mkRequest GeminiBackend [("user", "What is 2+2?")] in
  let run := ask GeminiBackend "What is 2+2?" (Some "Be brief.") in
  returned (fst (run primedOnly)) = false
  /\ (exists before, newCalls run primedOnly = before ++ [r] /\ ~ In r before)
  /\ (exists n, newCalls run primedOnly
                = firstn n (requestsOf GeminiBackend "What is 2+2?" (Some "Be brief."))).
Proof.
  exact (provider_clients_on_refusal GeminiBackend "What is 2+2?" (Some "Be brief.")
           primedOnly (mkRequest GeminiBackend [("user", "What is 2+2?")])
           (or_intror (or_introl eq_refl))
           (or_intror (ex_intro _ (Some "overloaded") eq_refl))).
Defined.

(** The run of the witness: two calls, the first accepted, the second
    refused, and an error for the caller. *)
Lemma primed_then_refused :
  let run := ask GeminiBackend "What is 2+2?" (Some "Be brief.") in
  newCalls run primedOnly
  = [mkRequest GeminiBackend [("user", "Be brief.")];
     mkRequest GeminiBackend [("user", "What is 2+2?")]]
  /\ backend primedOnly (mkRequest GeminiBackend [("user", "Be brief.")])
     = Status true (Some "OK")
  /\ fst (run primedOnly) = Thrown "Failed to get response from Gemini API".
Proof.
  vm_compute. repeat split.
Qed.

(** C9 as worded fails for the OpenAI client: with the backend out of
    reach, or answering with an error status, [getAIChatResponse] returns
    a string in place of failing. *)
Lemma openai_client_returns_substitute :
  unavailable downServer
  /\ unavailable rejectingServer
  /\ fst (ask OpenAIBackend "What is 2+2?" None downServer) = Returned openaiApology
  /\ fst (ask OpenAIBackend "What is 2+2?" None rejectingServer) = Returned openaiApology
  /\ returned (fst (ask OpenAIBackend "What is 2+2?" None downServer)) = true.
Proof.
  split; [intros r; left; reflexivity|].
  split; [intros r; right; eexists; reflexivity|].
  vm_compute. repeat split.
Qed.

End ServerClientFacts.

(* ------------------------------------------------------------------ *)
(** ** Ranking and engagement (storage.ts) *)

Section OrderByFacts.
Import Storage Feeds.
Context {A : Type} (key : A -> option Z).

Lemma descBefore_false_trans (a b c : option Z) :
  descBefore b a = false -> descBefore c b = false -> descBefore c a = false.
Proof.
  destruct a, b, c; cbn; try congruence; rewrite ?Z.ltb_ge; lia.
Qed.

Lemma descBefore_true_order (a b : option Z) :
  descBefore a b = true -> descBefore b a = false.
Proof.
  destruct a, b; cbn; try congruence; rewrite ?Z.ltb_lt, ?Z.ltb_ge; lia.
Qed.

Lemma inDescOrder_trans (x y z : A) :
  inDescOrder key x y -> inDescOrder key y z -> inDescOrder key x z.
Proof. unfold inDescOrder. eauto using descBefore_false_trans. Qed.

Lemma insertDesc_perm (x : A) (l : list A) : Permutation (insertDesc key x l) (x :: l).
Proof.
  induction l as [|y rest IH]; cbn; [reflexivity|].
  destruct (descBefore (key y) (key x)); [|reflexivity].
  rewrite IH. apply perm_swap.
Qed.

Lemma inTableOrder_perm (l : list A) : Permutation (inTableOrder key l) l.
Proof.
  induction l as [|x rest IH]; cbn; [reflexivity|].
  rewrite insertDesc_perm. now constructor.
Qed.

Lemma insertDesc_sorted (x : A) (l : list A) :
  StronglySorted (inDescOrder key) l ->
  StronglySorted (inDescOrder key) (insertDesc key x l).
Proof.
  induction 1 as [|y rest Hrest IH Hall]; cbn.
  - repeat constructor.
  - destruct (descBefore (key y) (key x)) eqn:Hyx.
    + constructor; [exact IH|].
      eapply Permutation_Forall; [symmetry; apply insertDesc_perm|].
      constructor; [|exact Hall].
      now apply descBefore_true_order.
    + constructor; [now constructor|].
      constructor; [exact Hyx|].
      eapply Forall_impl; [|exact Hall].
      intros z Hz. eapply inDescOrder_trans; [exact Hyx | exact Hz].
Qed.

Lemma inTableOrder_sorted (l : list A) :
  StronglySorted (inDescOrder key) (inTableOrder key l).
Proof.
  induction l as [|x rest IH]; cbn; [constructor|].
  now apply insertDesc_sorted.
Qed.

Lemma inTableOrder_ranked (l : list A) : rankedFrom key l (inTableOrder key l).
Proof.
  split; auto using inTableOrder_perm, inTableOrder_sorted.
Qed.

(** Rows already in order come back as they are. *)
Lemma inTableOrder_keeps_sorted (l : list A) :
  StronglySorted (inDescOrder key) l -> inTableOrder key l = l.
Proof.
  induction 1 as [|x rest Hrest IH Hall]; [reflexivity|].
  cbn [inTableOrder fold_right]. fold (inTableOrder key rest). rewrite IH.
  destruct rest as [|y rest']; [reflexivity|]. cbn.
  inversion Hall as [|? ? Hxy _]; subst.
  unfold inDescOrder in Hxy. now rewrite Hxy.
Qed.

Lemma firstn_sorted (R : A -> A -> Prop) (n : nat) (l : list A) :
  StronglySorted R l -> StronglySorted R (firstn n l).
Proof.
  intros Hl. revert n.
  induction Hl as [|x rest Hrest IH Hall]; intros [|n]; cbn; try constructor.
  - apply IH.
  - rewrite Forall_forall in *. intros y Hy. apply Hall.
    rewrite <- (firstn_skipn n rest). apply in_or_app. now left.
Qed.

Lemma firstn_incl (n : nat) (l : list A) (x : A) : In x (firstn n l) -> In x l.
Proof.
  intros Hx. rewrite <- (firstn_skipn n l). apply in_or_app. now left.
Qed.

Lemma filter_sorted (R : A -> A -> Prop) (keep : A -> bool) (l : list A) :
  StronglySorted R l -> StronglySorted R (filter keep l).
Proof.
  induction 1 as [|x rest Hrest IH Hall]; cbn; [constructor|].
  destruct (keep x); [|exact IH].
  constructor; [exact IH|].
  rewrite Forall_forall in *. intros y Hy. apply filter_In in Hy as (Hy & _). auto.
Qed.

Lemma filter_permutation (keep : A -> bool) (l l' : list A) :
  Permutation l l' -> Permutation (filter keep l) (filter keep l').
Proof.
  induction 1 as [|x l l' _ IH|x y l|l l' l'' _ IH1 _ IH2]; cbn.
  - constructor.
  - destruct (keep x); [now constructor | exact IH].
  - destruct (keep x), (keep y); try reflexivity. apply perm_swap.
  - now transitivity (filter keep l').
Qed.

Lemma filter_keeps_all (keep : A -> bool) (l : list A) :
  (forall x, In x l -> keep x = true) -> filter keep l = l.
Proof.
  induction l as [|x rest IH]; cbn; intros Hall; [reflexivity|].
  rewrite (Hall x (or_introl eq_refl)), IH; auto.
Qed.

(** Narrowing twice is narrowing by both tests at once. *)
Lemma filter_both (f g : A -> bool) (l : list A) :
  filter (fun p => f p && g p) l = filter g (filter f l).
Proof.
  induction l as [|x rest IH]; cbn; [reflexivity|].
  destruct (f x); cbn; [|exact IH]. destruct (g x); now rewrite IH.
Qed.

(** What a limit cuts off a ranked list stands behind what it keeps. *)
Lemma limit_cuts_the_tail (n : nat) (l : list A) :
  StronglySorted (inDescOrder key) l ->
  noneCutAhead key (firstn n l) (skipn n l).
Proof.
  intros Hl. revert n.
  induction Hl as [|x rest Hrest IH Hall]; intros [|n] p q; cbn; try tauto.
  intros [<- | Hp] Hq.
  - rewrite Forall_forall in Hall. apply Hall.
    rewrite <- (firstn_skipn n rest). apply in_or_app. now right.
  - now apply (IH n).
Qed.

(** The first rows of a ranking: they are in order, they come from the
    rows ranked, and what is cut stands behind them. *)
Lemma front_of_ranking (n : nat) (rows ranked : list A) :
  rankedFrom key rows ranked ->
  StronglySorted (inDescOrder key) (firstn n ranked)
  /\ (forall x, In x (firstn n ranked) -> In x rows)
  /\ (exists cut, Permutation (firstn n ranked ++ cut) rows
                  /\ noneCutAhead key (firstn n ranked) cut)
  /\ List.length (firstn n ranked) = Nat.min n (List.length rows).
Proof.
  intros (Hperm & Hsorted). split; [now apply firstn_sorted|].
  split; [intros x Hx; apply (Permutation_in _ Hperm); now apply firstn_incl in Hx|].
  split.
  - exists (skipn n ranked). rewrite firstn_skipn.
    split; [exact Hperm | now apply limit_cuts_the_tail].
  - now rewrite length_firstn, (Permutation_length Hperm).
Qed.

(** Narrowing a ranking gives a ranking of the rows narrowed. *)
Lemma filter_ranked (keep : A -> bool) (rows ranked : list A) :
  rankedFrom key rows ranked ->
  rankedFrom key (filter keep rows) (filter keep ranked).
Proof.
  intros (Hperm & Hsorted).
  split; [now apply filter_permutation | now apply filter_sorted].
Qed.

(** Two rows of which the second must come first have one ranking. *)
Lemma ranked_pair (x y : A) (ranked : list A) :
  descBefore (key y) (key x) = true ->
  rankedFrom key [x; y] ranked -> ranked = [y; x].
Proof.
  intros Hyx (Hperm & Hsorted).
  apply Permutation_sym, Permutation_length_2_inv in Hperm as [-> | ->]; [|reflexivity].
  inversion Hsorted as [|? ? _ Hall]; subst.
  inversion Hall as [|? ? Hxy _]; subst.
  unfold inDescOrder in Hxy. congruence.
Qed.

(** Three rows of which the third must come last have two rankings. *)
Lemma ranked_triple (x y z : A) (ranked : list A) :
  descBefore (key x) (key z) = true ->
  descBefore (key y) (key z) = true ->
  rankedFrom key [x; y; z] ranked ->
  ranked = [x; y; z] \/ ranked = [y; x; z].
Proof.
  intros Hxz Hyz (Hperm & Hsorted).
  assert (Hperm' : Permutation ranked (z :: [x; y])).
  { rewrite Hperm. change [x; y; z] with ([x; y] ++ [z]).
    symmetry. apply Permutation_cons_append. }
  destruct (Permutation_vs_cons_inv Hperm') as (front & back & ->).
  apply Permutation_sym, Permutation_cons_app_inv in Hperm'.
  destruct back as [|b back].
  - rewrite app_nil_r in Hperm'.
    apply Permutation_length_2_inv in Hperm' as [-> | ->]; auto.
  - exfalso.
    assert (Hb : In b [x; y]).
    { apply (Permutation_in _ (Permutation_sym Hperm')), in_or_app. right. now left. }
    assert (Hzb : inDescOrder key z b).
    { clear - Hsorted. induction front as [|f front IH]; cbn in Hsorted;
        inversion Hsorted as [|? ? Hs Hall]; subst; [now inversion Hall | auto]. }
    unfold inDescOrder in Hzb. destruct Hb as [<- | [<- | []]]; congruence.
Qed.

End OrderByFacts.

Section EngineFacts.
Import Storage.

Lemma tableOrder_faithful : faithful tableOrder.
Proof. intros A key rows. apply inTableOrder_ranked. Qed.

Lemma reverseTableOrder_faithful : faithful reverseTableOrder.
Proof.
  intros A key rows. unfold reverseTableOrder.
  destruct (inTableOrder_ranked key (rev rows)) as (Hperm & Hsorted).
  split; [|exact Hsorted]. rewrite Hperm. symmetry. apply Permutation_rev.
Qed.

End EngineFacts.

Section StorageClaims.
Import Storage Feeds Scenario.




(** [getTrendingPosts] leaves a private post out; the metrics query has no
    visibility condition and lists it, first, whatever the ordering of
    the database. *)
Lemma metrics_query_lists_private_post (orderByDesc : Engine) :
  faithful orderByDesc ->
  getTrendingPosts orderByDesc None (tableOf [postA; diary]) = [postA]
  /\ map rowId (getTrendingPostsWithMetrics orderByDesc None (tableOf [postA; diary]))
     = [4; 1].
Proof.
  intros Hengine. unfold getTrendingPosts, getTrendingPostsWithMetrics. split.
  - change (filter isPublic (posts (tableOf [postA; diary]))) with [postA].
    destruct (Hengine _ trendingScore [postA]) as (Hperm & _).
    apply Permutation_sym, Permutation_length_1_inv in Hperm. now rewrite Hperm.
  - change (postsWithAuthors (tableOf [postA; diary]))
      with [(postA, author); (diary, author)].
    now rewrite (ranked_pair metricsScore (postA, author) (diary, author) _ eq_refl
                   (Hengine _ metricsScore _)).
Qed.

(** The score of a post whose counters are set is, in both queries,
    views*1 + likes*2 + saves*3, with no weight left to the caller. *)
Lemma trending_score_weights q author views likes saves :
  Post.views q = Some views ->
  Post.likes q = Some likes ->
  Post.saves q = Some saves ->
  trendingScore q = Some (specTrendingScore views likes saves)
  /\ metricsScore (q, author) = Some (specTrendingScore views likes saves).
Proof.
  intros Hv Hl Hs. unfold trendingScore, metricsScore, specTrendingScore. cbn.
  rewrite Hv, Hl, Hs. cbn. repeat split; f_equal; lia.
Qed.

(** A post with a counter that is not set has no score. *)
Lemma unset_counter_no_score q author :
  Post.views q = None \/ Post.likes q = None \/ Post.saves q = None ->
  trendingScore q = None /\ metricsScore (q, author) = None.
Proof.
  unfold trendingScore, metricsScore. cbn.
  intros [H | [H | H]]; rewrite H;
    destruct (Post.views q), (Post.likes q), (Post.saves q); cbn; auto.
Qed.

(** Both queries rank by that score: of two posts with set counters, the
    one listed earlier has the larger or an equal weighted sum. *)
Lemma trending_rank_follows_weights (orderByDesc : Engine) limit db :
  faithful orderByDesc ->
  StronglySorted
    (fun p q =>
       forall v l s v' l' s',
         Post.views p = Some v -> Post.likes p = Some l -> Post.saves p = Some s ->
         Post.views q = Some v' -> Post.likes q = Some l' -> Post.saves q = Some s' ->
         specTrendingScore v' l' s' <= specTrendingScore v l s)
    (getTrendingPosts orderByDesc limit db).
Proof.
  intros Hengine. unfold getTrendingPosts.
  destruct (front_of_ranking trendingScore (limitOr10 limit) _ _
              (Hengine _ trendingScore (filter isPublic (posts db))))
    as (Hsorted & _).
  induction Hsorted as [|p rest _ IH Hall]; constructor; [exact IH|].
  eapply Forall_impl; [|exact Hall].
  intros q Hpq v l s v' l' s' Hv Hl Hs Hv' Hl' Hs'.
  unfold inDescOrder in Hpq.
  destruct (trending_score_weights p author v l s Hv Hl Hs) as (Hp & _).
  destruct (trending_score_weights q author v' l' s' Hv' Hl' Hs') as (Hq & _).
  rewrite Hp, Hq in Hpq. cbn in Hpq. now apply Z.ltb_ge in Hpq.
Qed.

(** C7 fails on a post with a counter that is not set. The columns are
    nullable and the score is computed in SQL without a default, so such
    a post has no score, and a row without a score comes first under
    [desc]: whatever the ordering of the database, both trending queries
    list the post with 10 views, 2 saves and no like count ahead of the
    post with 10 views, 5 likes and 2 saves, which scores 26. *)
Theorem null_counter_ranks_first (orderByDesc : Engine) :
  faithful orderByDesc ->
  trendingScore scored = Some (specTrendingScore 10 5 2)
  /\ specTrendingScore 10 5 2 = 26
  /\ Post.likes unset = None
  /\ trendingScore unset = None
  /\ getTrendingPosts orderByDesc None (tableOf [scored; unset]) = [unset; scored]
  /\ map rowId (getTrendingPostsWithMetrics orderByDesc None (tableOf [scored; unset]))
     = [Post.id unset; Post.id scored].
Proof.
  intros Hengine. do 4 (split; [reflexivity|]).
  unfold getTrendingPosts, getTrendingPostsWithMetrics. split.
  - change (filter isPublic (posts (tableOf [scored; unset]))) with [scored; unset].
    now rewrite (ranked_pair trendingScore scored unset _ eq_refl
                   (Hengine _ trendingScore _)).
  - change (postsWithAuthors (tableOf [scored; unset]))
      with [(scored, author); (unset, author)].
    now rewrite (ranked_pair metricsScore (scored, author) (unset, author) _ eq_refl
                   (Hengine _ metricsScore _)).
Qed.

Lemma null_counter_ranks_first_witness :
  trendingScore scored = Some (specTrendingScore 10 5 2)
  /\ specTrendingScore 10 5 2 = 26
  /\ Post.likes unset = None
  /\ trendingScore unset = None
  /\ getTrendingPosts tableOrder None (tableOf [scored; unset]) = [unset; scored]
  /\ map rowId (getTrendingPostsWithMetrics tableOrder None (tableOf [scored; unset]))
     = [Post.id unset; Post.id scored].
Proof.
  exact (null_counter_ranks_first tableOrder tableOrder_faithful).
Defined.



(** The two rates the specification quotes, as the query computes them. *)
Lemma quoted_engagement_rates :
  engagementRate (post 9 "public" 100 10 5 5 5000) = JsString "20.00"
  /\ engagementRate (post 9 "public" 0 0 0 0 5000) = JsNumber (number 0)
  /\ (exists m, getPostEngagementMetrics tableOrder 9
                  (tableOf [post 9 "public" 100 10 5 5 5000])
                = Returned m /\ rate m = JsString "20.00").
Proof.
  split; [vm_compute; reflexivity|].
  split; [vm_compute; reflexivity|].
  eexists. split; [reflexivity | vm_compute; reflexivity].
Qed.


End StorageClaims.

(* ------------------------------------------------------------------ *)
(** ** The orchestrator linked with the three client services *)

Section LinkedOrchestrator.
Import ChatStorage Providers HomeworkHelp.

Lemma save_surroundings uid message w :
  sameSurroundings w (snd (saveChatMessageToStorage uid message w)).
Proof.
  unfold sameSurroundings, saveChatMessageToStorage, generateUniqueId, now,
    readSessions, writeSessions, submitChatMessageToServer.
  run.
  destruct (World.chatStore w) as [| |sessions]; cbn;
    destruct (World.setItemThrows w); cbn;
    try destruct (World.chatApiReachable w); cbn; auto 10.
Qed.

Lemma save_roles uid message w :
  cacheWritable w = true ->
  cachedRoles uid (snd (saveChatMessageToStorage uid message w))
  = cachedRoles uid w ++ [inRole message]
  /\ cacheWritable (snd (saveChatMessageToStorage uid message w)) = true.
Proof.
  intros Hw. destruct (save_writable uid message w Hw) as (_ & Hh & _ & Hw').
  split; [|exact Hw'].
  unfold cachedRoles. rewrite Hh, map_app. reflexivity.
Qed.

Local Opaque saveChatMessageToStorage.
Local Opaque geminiSystemInstruction geminiPrompt taggedQuestion generateHomeworkHelp.

(** The two saves of a service: a user turn and an assistant turn. *)
Lemma saveBoth_roles uid asked answered w :
  cacheWritable w = true ->
  returned (fst (saveBoth uid asked answered w)) = true
  /\ cachedRoles uid (snd (saveBoth uid asked answered w))
     = cachedRoles uid w ++ [user; assistant]
  /\ cacheWritable (snd (saveBoth uid asked answered w)) = true
  /\ sameSurroundings w (snd (saveBoth uid asked answered w)).
Proof.
  intros Hw. unfold saveBoth. run.
  destruct (save_total uid (mkInput user asked (Some uid)) w) as (um & Hum & _).
  destruct (save_roles uid (mkInput user asked (Some uid)) w Hw) as (Hr1 & Hw1).
  pose proof (save_surroundings uid (mkInput user asked (Some uid)) w) as Hs1.
  destruct (saveChatMessageToStorage uid (mkInput user asked (Some uid)) w) as [o1 w1].
  cbn in *. subst o1.
  destruct (save_total uid (mkInput assistant answered (Some uid)) w1) as (am & Ham & _).
  destruct (save_roles uid (mkInput assistant answered (Some uid)) w1 Hw1) as (Hr2 & Hw2).
  pose proof (save_surroundings uid (mkInput assistant answered (Some uid)) w1) as Hs2.
  destruct (saveChatMessageToStorage uid (mkInput assistant answered (Some uid)) w1)
    as [o2 w2].
  cbn in *. subst o2. cbn.
  repeat split; auto.
  - rewrite Hr2, Hr1, <- app_assoc. reflexivity.
  - unfold sameSurroundings in *. intuition congruence.
  - unfold sameSurroundings in *. intuition congruence.
  - unfold sameSurroundings in *. intuition congruence.
  - unfold sameSurroundings in *. intuition congruence.
  - unfold sameSurroundings in *. intuition congruence.
Qed.

Lemma saveBoth_run uid asked answered w :
  cacheWritable w = true ->
  exists ex w',
    saveBoth uid asked answered w = (Returned ex, w')
    /\ cachedRoles uid w' = cachedRoles uid w ++ [user; assistant]
    /\ cacheWritable w' = true
    /\ sameSurroundings w w'.
Proof.
  intros Hw. destruct (saveBoth_roles uid asked answered w Hw) as (Hr & Hroles & Hw' & Hs).
  destruct (saveBoth uid asked answered w) as [[ex|e] w']; cbn in *;
    [eauto 10 | discriminate].
Qed.

(** Run the pair of saves the goal is waiting on. *)
Ltac saved Hw :=
  match goal with
  | |- context [saveBoth ?uid ?asked ?answered ?w] =>
      destruct (saveBoth_run uid asked answered w Hw) as (? & ? & -> & ? & ? & ?);
      cbn; auto
  end.

Lemma gemini_service_caches subject question w u :
  World.userStore w = Parsed u -> cacheWritable w = true ->
  cachesTwoOrNothing (LocalUser.id u) w (getGeminiHomeworkHelp subject question w).
Proof.
  intros Hu Hw. unfold cachesTwoOrNothing.
  unfold getGeminiHomeworkHelp, requireUser, loadUserFromLocalStorage, fetchText, sendMessage.
  run. rewrite Hu. cbn.
  destruct (World.geminiHomeworkApi w subject question) as [|[|] [text|]]; cbn;
    try solve [saved Hw];
    (destruct (World.geminiSdk w (geminiSystemInstruction subject)); cbn; [|reflexivity];
     destruct (World.geminiSdk w (geminiPrompt subject question)) as [answer|]; cbn;
     [|reflexivity]; saved Hw).
Qed.

Lemma perplexity_service_caches subject question w u :
  World.userStore w = Parsed u -> cacheWritable w = true ->
  cachesTwoOrNothing (LocalUser.id u) w (getPerplexityHomeworkHelp subject question w).
Proof.
  intros Hu Hw. unfold cachesTwoOrNothing.
  unfold getPerplexityHomeworkHelp, requireUser, loadUserFromLocalStorage, fetchText.
  run. rewrite Hu. cbn.
  destruct (World.perplexityHomeworkApi w subject question) as [|[|] [text|]]; cbn;
    try reflexivity.
  saved Hw.
Qed.

(** The OpenAI service always resolves: its own fallback answers when the
    route does not. *)
Lemma openai_service_caches subject question w u :
  World.userStore w = Parsed u -> cacheWritable w = true ->
  returned (fst (getOpenAIHomeworkHelp subject question w)) = true
  /\ cachesTwoOrNothing (LocalUser.id u) w (getOpenAIHomeworkHelp subject question w).
Proof.
  intros Hu Hw. unfold cachesTwoOrNothing.
  change (getOpenAIHomeworkHelp subject question)
    with (usr <- requireUser ;;
          tryCatch
            (reply <- gets (fun w => World.openaiHomeworkApi w subject question) ;;
             data <- fetchText reply "Server API failed" ;;
             saveBoth (LocalUser.id usr) (taggedQuestion subject question) data)
            (fun _ =>
               saveBoth (LocalUser.id usr) (taggedQuestion subject question)
                        (generateHomeworkHelp subject question))).
  unfold requireUser, loadUserFromLocalStorage, fetchText.
  run. rewrite Hu. cbn.
  destruct (World.openaiHomeworkApi w subject question) as [|[|] [text|]]; cbn;
    saved Hw.
Qed.

Lemma answer_roles uid um text src r :
  cacheWritable (world r) = true ->
  returned (fst (answer uid um text src r)) = true
  /\ cachedRoles uid (world (snd (answer uid um text src r)))
     = cachedRoles uid (world r) ++ [assistant].
Proof.
  intros Hw.
  destruct (answer_result uid um text src r) as (am & Ht & _ & Hrole & _ & _ & _ & Ha).
  specialize (Ha Hw). unfold appended in Ha. unfold cachedRoles.
  rewrite Ha, map_app. cbn. rewrite Hrole.
  split; [|reflexivity].
  destruct (fst (answer uid um text src r)); [reflexivity | discriminate].
Qed.

(** Every exchange the linked orchestrator completes leaves four turns in
    a cache that takes writes: the question twice, then two assistant
    turns. *)
Theorem linked_exchange_always_caches_four_turns subject question w u :
  World.userStore w = Parsed u ->
  cacheWritable w = true ->
  let r := getIntegratedHomeworkHelpLinked subject question (mkRun w []) in
  returned (fst r) = true
  /\ cachedRoles (LocalUser.id u) (world (snd r))
     = cachedRoles (LocalUser.id u) w ++ [user; user; assistant; assistant].
Proof.
  intros Hu Hw r. subst r. unfold getIntegratedHomeworkHelpLinked.
  destruct (orchestrate_unfold getGeminiHomeworkHelp getPerplexityHomeworkHelp
              getOpenAIHomeworkHelp subject question w u Hu) as (um & _ & ->).
  cbn zeta.
  set (uid := LocalUser.id u).
  set (asked := mkInput user (taggedQuestion subject question) (Some uid)).
  destruct (save_roles uid asked w Hw) as (Hr1 & Hw1).
  destruct (save_surroundings uid asked w) as (Hu1 & _).
  set (w1 := snd (saveChatMessageToStorage uid asked w)) in *.
  rewrite Hu in Hu1. cbn in Hr1.
  assert (Hfinish : forall w2 text src calls,
             cachedRoles uid w2 = cachedRoles uid w1 ++ [user; assistant] ->
             cacheWritable w2 = true ->
             returned (fst (answer uid um text src (mkRun w2 calls))) = true
             /\ cachedRoles uid (world (snd (answer uid um text src (mkRun w2 calls))))
                = cachedRoles uid w ++ [user; user; assistant; assistant]).
  { intros w2 text src calls Hr2 Hw2.
    destruct (answer_roles uid um text src (mkRun w2 calls) Hw2) as (Hret & Hr3).
    split; [exact Hret|]. cbn in Hr3. rewrite Hr3, Hr2, Hr1, <- !app_assoc. reflexivity. }
  pose proof (gemini_service_caches subject question w1 u Hu1 Hw1) as Hg.
  unfold cachesTwoOrNothing in Hg. fold uid in Hg.
  destruct (getGeminiHomeworkHelp subject question w1) as [[ex|e] w2].
  { destruct Hg as (Hr2 & Hw2 & _). now apply Hfinish. }
  subst w2.
  pose proof (perplexity_service_caches subject question w1 u Hu1 Hw1) as Hp.
  unfold cachesTwoOrNothing in Hp. fold uid in Hp.
  destruct (getPerplexityHomeworkHelp subject question w1) as [[ex|e'] w3].
  { destruct Hp as (Hr2 & Hw2 & _). now apply Hfinish. }
  subst w3.
  destruct (openai_service_caches subject question w1 u Hu1 Hw1) as (Hret & Ho).
  unfold cachesTwoOrNothing in Ho. fold uid in Ho.
  destruct (getOpenAIHomeworkHelp subject question w1) as [[ex|e''] w4];
    [|discriminate].
  destruct Ho as (Hr2 & Hw2 & _). now apply Hfinish.
Qed.

End LinkedOrchestrator.

(* ------------------------------------------------------------------ *)
(** ** When every provider fails *)

Section Exhaustion.
Import ChatStorage Providers HomeworkHelp Scenario.

(** The two saves of a service never fail, whether or not the cache takes
    the writes. *)
Lemma saveBoth_total uid asked answered w :
  exists um am w',
    saveBoth uid asked answered w = (Returned (mkExchange um am), w')
    /\ ChatMessage.content am = answered
    /\ sameSurroundings w w'.
Proof.
  unfold saveBoth. run.
  destruct (save_total uid (mkInput user asked (Some uid)) w) as (um & Hum & _).
  pose proof (save_surroundings uid (mkInput user asked (Some uid)) w) as Hs1.
  destruct (saveChatMessageToStorage uid (mkInput user asked (Some uid)) w) as [o1 w1].
  cbn in *. subst o1.
  destruct (save_total uid (mkInput assistant answered (Some uid)) w1)
    as (am & Ham & Hc & _).
  pose proof (save_surroundings uid (mkInput assistant answered (Some uid)) w1) as Hs2.
  destruct (saveChatMessageToStorage uid (mkInput assistant answered (Some uid)) w1)
    as [o2 w2].
  cbn in *. subst o2. exists um, am, w2.
  split; [reflexivity|]. split; [exact Hc|].
  unfold sameSurroundings in *. intuition congruence.
Qed.

(** The fallback of [getHomeworkHelp] ends with the same two saves as its
    main path. *)
Lemma openai_service_unfold subject question :
  getOpenAIHomeworkHelp subject question
  = (usr <- requireUser ;;
     tryCatch
       (reply <- gets (fun w => World.openaiHomeworkApi w subject question) ;;
        data <- fetchText reply "Server API failed" ;;
        saveBoth (LocalUser.id usr) (taggedQuestion subject question) data)
       (fun _ =>
          saveBoth (LocalUser.id usr) (taggedQuestion subject question)
                   (generateHomeworkHelp subject question))).
Proof. reflexivity. Qed.

Local Opaque saveChatMessageToStorage saveBoth.
Local Opaque geminiSystemInstruction geminiPrompt taggedQuestion generateHomeworkHelp.

(** Run the two saves the goal is waiting on. *)
Ltac twoSaves :=
  match goal with
  | |- context [saveBoth ?uid ?asked ?answered ?w] =>
      let Hrun := fresh "Hrun" in
      destruct (saveBoth_total uid asked answered w) as (? & ? & ? & Hrun & ? & ?);
      rewrite Hrun; cbn
  end.

(** The OpenAI service resolves for a signed-in user, whatever its route
    does; with the route down its answer is the canned one. *)
Lemma openai_service_resolves subject question w u :
  World.userStore w = Parsed u ->
  exists ex w',
    getOpenAIHomeworkHelp subject question w = (Returned ex, w')
    /\ (bodyOf (World.openaiHomeworkApi w subject question) = None ->
        ChatMessage.content (Providers.assistantMessage ex)
        = generateHomeworkHelp subject question).
Proof.
  intros Hu. rewrite openai_service_unfold.
  unfold requireUser, loadUserFromLocalStorage, fetchText.
  run. rewrite Hu. cbn.
  destruct (World.openaiHomeworkApi w subject question) as [|[|] [text|]]; cbn;
    twoSaves; eexists _, _; (split; [reflexivity|]); cbn; intros; congruence.
Qed.

(** With their backends down the Gemini and the Perplexity service reject
    and leave the browser as it was. *)
Lemma gemini_service_down subject question w u :
  World.userStore w = Parsed u ->
  bodyOf (World.geminiHomeworkApi w subject question) = None ->
  World.geminiSdk w (geminiSystemInstruction subject) = None
  \/ World.geminiSdk w (geminiPrompt subject question) = None ->
  exists e, getGeminiHomeworkHelp subject question w = (Thrown e, w).
Proof.
  intros Hu Hroute Hsdk.
  unfold getGeminiHomeworkHelp, requireUser, loadUserFromLocalStorage, fetchText,
    sendMessage.
  run. rewrite Hu. cbn.
  destruct (World.geminiHomeworkApi w subject question) as [|[|] [text|]]; cbn in *;
    try discriminate;
    (destruct (World.geminiSdk w (geminiSystemInstruction subject)); cbn; eauto;
     destruct (World.geminiSdk w (geminiPrompt subject question)); cbn; eauto;
     destruct Hsdk; discriminate).
Qed.

Lemma perplexity_service_down subject question w u :
  World.userStore w = Parsed u ->
  bodyOf (World.perplexityHomeworkApi w subject question) = None ->
  exists e, getPerplexityHomeworkHelp subject question w = (Thrown e, w).
Proof.
  intros Hu Hroute.
  unfold getPerplexityHomeworkHelp, requireUser, loadUserFromLocalStorage, fetchText.
  run. rewrite Hu. cbn.
  destruct (World.perplexityHomeworkApi w subject question) as [|[|] [text|]]; cbn in *;
    try discriminate; eauto.
Qed.

(** C2 (amended). For a signed-in user the call returns, whatever fails.
    If each of the three services rejects in the run, the text is the
    fixed apology and the source reported is the marker "Error". With the
    services the application links that does not happen: the OpenAI
    service rejects for no signed-in user, since it answers from
    [generateHomeworkHelp] when its route fails. So when every backend
    fails, all three services have been awaited and the call returns that
    canned answer with the source "OpenAI". *)
Theorem all_providers_fail_degraded g p o subject question w u :
  World.userStore w = Parsed u ->
  let w1 := snd (saveChatMessageToStorage (LocalUser.id u)
                   (mkInput user (taggedQuestion subject question)
                            (Some (LocalUser.id u))) w) in
  (forall e1 w2 e2 w3 e3 w4,
      g subject question w1 = (Thrown e1, w2) ->
      p subject question w2 = (Thrown e2, w3) ->
      o subject question w3 = (Thrown e3, w4) ->
      let r := getIntegratedHomeworkHelp g p o subject question (mkRun w []) in
      returned (fst r) = true
      /\ textOf (fst r) = Some errorMessage
      /\ sourceOf (fst r) = Some "Error")
  /\ (forall w', World.userStore w' = Parsed u ->
                 returned (fst (getOpenAIHomeworkHelp subject question w')) = true)
  /\ (backendsDown subject question w ->
      let r := getIntegratedHomeworkHelpLinked subject question (mkRun w []) in
      returned (fst r) = true
      /\ invoked (snd r) = [Gemini; Perplexity; OpenAI]
      /\ textOf (fst r) = Some (generateHomeworkHelp subject question)
      /\ sourceOf (fst r) = Some "OpenAI").
Proof.
  intros Hu w1.
  assert (Hreturned : forall oc : Outcome IntegratedHelp,
             textOf oc <> None -> returned oc = true).
  { intros [h|e] H; [reflexivity | now destruct H]. }
  split; [|split].
  - intros e1 w2 e2 w3 e3 w4 Hg Hp Ho r.
    destruct (orchestrate_unfold g p o subject question w u Hu) as (um & _ & Hrun).
    subst r. rewrite Hrun. cbn zeta. fold w1. rewrite Hg, Hp, Ho.
    destruct (answer_result (LocalUser.id u) um errorMessage
                "Error" (mkRun w4 [Gemini; Perplexity; OpenAI]))
      as (am & _ & _ & _ & Hs & Ht & _).
    split; [apply Hreturned; congruence | auto].
  - intros w' Hu'.
    destruct (openai_service_resolves subject question w' u Hu') as (ex & w'' & -> & _).
    reflexivity.
  - intros (Hgemini & Hsdk & Hperplexity & Hopenai) r.
    destruct (orchestrate_unfold getGeminiHomeworkHelp getPerplexityHomeworkHelp
                getOpenAIHomeworkHelp subject question w u Hu) as (um & _ & Hrun).
    subst r. unfold getIntegratedHomeworkHelpLinked. rewrite Hrun. cbn zeta. fold w1.
    destruct (save_surroundings (LocalUser.id u)
                (mkInput user (taggedQuestion subject question) (Some (LocalUser.id u))) w)
      as (Hu1 & Hg1 & Hp1 & Ho1 & Hs1).
    fold w1 in Hu1, Hg1, Hp1, Ho1, Hs1. rewrite Hu in Hu1.
    destruct (gemini_service_down subject question w1 u Hu1) as (e1 & ->);
      [now rewrite Hg1 | now rewrite Hs1 |].
    destruct (perplexity_service_down subject question w1 u Hu1) as (e2 & ->);
      [now rewrite Hp1 |].
    destruct (openai_service_resolves subject question w1 u Hu1) as (ex & w4 & -> & Hex).
    rewrite Ho1 in Hex. rewrite (Hex Hopenai).
    destruct (answer_result (LocalUser.id u) um (generateHomeworkHelp subject question)
                "OpenAI" (mkRun w4 [Gemini; Perplexity; OpenAI]))
      as (am & _ & _ & _ & Hs & Ht & Hi & _).
    split; [apply Hreturned; congruence | auto].
Qed.

Lemma offline_backends_down : backendsDown "math" "2+2" offline.
Proof. repeat split. now left. Qed.

(** The witness: three stand-in services that reject, for the orchestrator
    taken alone, and the offline browser for the application as linked. *)
Lemma all_providers_fail_degraded_witness :
  (let r := getIntegratedHomeworkHelp (stub None) (stub None) (stub None)
              "math" "2+2" (mkRun offline []) in
   returned (fst r) = true
   /\ textOf (fst r) = Some errorMessage
   /\ sourceOf (fst r) = Some "Error")
  /\ (let r := getIntegratedHomeworkHelpLinked "math" "2+2" (mkRun offline []) in
      returned (fst r) = true
      /\ invoked (snd r) = [Gemini; Perplexity; OpenAI]
      /\ textOf (fst r) = Some (generateHomeworkHelp "math" "2+2")
      /\ sourceOf (fst r) = Some "OpenAI").
Proof.
  pose (H := all_providers_fail_degraded (stub None) (stub None) (stub None)
               "math" "2+2" offline student eq_refl).
  split.
  - exact (proj1 H _ _ _ _ _ _ eq_refl eq_refl eq_refl).
  - exact (proj2 (proj2 H) offline_backends_down).
Defined.

(** C2 as worded fails in a run the application can make: the user is
    signed in and every backend is out of reach. Every provider has been
    tried and has failed to reach its backend, yet the text returned is
    not the degraded-service message and the source is not "none": it is
    the canned answer of the OpenAI service, reported as "OpenAI". *)
Lemma all_backends_down_openai_answers :
  backendsDown "math" "2+2" offline
  /\ let r := getIntegratedHomeworkHelpLinked "math" "2+2" (mkRun offline []) in
     invoked (snd r) = [Gemini; Perplexity; OpenAI]
     /\ textOf (fst r) = Some (generateHomeworkHelp "math" "2+2")
     /\ textOf (fst r) <> Some errorMessage
     /\ sourceOf (fst r) = Some "OpenAI"
     /\ sourceOf (fst r) <> Some "none".
Proof.
  split; [exact offline_backends_down|].
  vm_compute. repeat split; discriminate.
Qed.

End Exhaustion.

(* ------------------------------------------------------------------ *)
(** ** More on the local cache *)

Section CacheShapeFacts.
Import ChatStorage CacheShape.

Lemma find_own_filtered uid (sessions : list ChatSession.t) :
  find (isSessionOf uid) (filter (fun s => negb (isSessionOf uid s)) sessions) = None.
Proof.
  induction sessions as [|x rest IH]; cbn; [reflexivity|].
  destruct (isSessionOf uid x) eqn:Hx; cbn; [exact IH|].
  now rewrite Hx.
Qed.

(** [clearChatHistory] never throws. When [setItem] works the user's
    history reads back empty afterwards; when it throws the cache keeps
    what it had. With no cache entry the function returns at once and the
    server is not asked to clear anything. *)
Theorem clear_empties_history uid w :
  fst (clearChatHistory uid w) = Returned tt
  /\ (World.setItemThrows w = false ->
      loadChatHistoryFromStorage uid (snd (clearChatHistory uid w)) = [])
  /\ (World.setItemThrows w = true ->
      World.chatStore (snd (clearChatHistory uid w)) = World.chatStore w
      /\ World.serverClears (snd (clearChatHistory uid w)) = World.serverClears w)
  /\ (World.chatStore w = Absent -> snd (clearChatHistory uid w) = w).
Proof.
  unfold clearChatHistory, writeSessions, loadChatHistoryFromStorage.
  run.
  destruct (World.chatStore w) as [| |sessions] eqn:Hs; cbn; rewrite ?Hs;
    try (repeat split; intros; congruence).
  destruct (World.setItemThrows w) eqn:Hq; cbn; rewrite ?Hs.
  - repeat split; intros; congruence.
  - destruct (World.chatApiReachable w); cbn;
      rewrite find_own_filtered; repeat split; intros; congruence.
Qed.

Lemma userIds_pushToSession uid m stamp (sessions : list ChatSession.t) :
  map ChatSession.userId (pushToSession uid m stamp sessions)
  = map ChatSession.userId sessions.
Proof.
  induction sessions as [|x rest IH]; cbn; [reflexivity|].
  destruct (isSessionOf uid x); cbn; [reflexivity | now rewrite IH].
Qed.

Lemma find_none_not_in uid (sessions : list ChatSession.t) :
  find (isSessionOf uid) sessions = None ->
  ~ In uid (map ChatSession.userId sessions).
Proof.
  induction sessions as [|x rest IH]; cbn; [tauto|].
  destruct (isSessionOf uid x) eqn:Hx; [discriminate|].
  intros Hf [Heq | Hin]; [|now apply IH].
  unfold isSessionOf in Hx. apply Z.eqb_neq in Hx. congruence.
Qed.

Lemma NoDup_map_filter {A B} (f : A -> B) (keep : A -> bool) (l : list A) :
  NoDup (map f l) -> NoDup (map f (filter keep l)).
Proof.
  induction l as [|x rest IH]; cbn; [auto|].
  intros Hnd. inversion Hnd as [|? ? Hnotin Hrest]; subst.
  destruct (keep x); cbn; [|auto].
  constructor; [|auto].
  intros Hin. apply Hnotin. apply in_map_iff in Hin as (y & Hy & Hyin).
  apply in_map_iff. exists y. split; [exact Hy|]. now apply filter_In in Hyin.
Qed.

Lemma NoDup_snoc {A} (l : list A) (x : A) :
  NoDup l -> ~ In x l -> NoDup (l ++ [x]).
Proof.
  induction l as [|y rest IH]; cbn; intros Hnd Hx.
  - constructor; [tauto | constructor].
  - inversion Hnd as [|? ? Hy Hrest]; subst. constructor.
    + rewrite in_app_iff. cbn. intros [H | [H | []]]; [tauto | subst; tauto].
    + apply IH; tauto.
Qed.

(** A cache in which every user has at most one session stays so under
    [saveChatMessageToStorage] and [clearChatHistory]. *)
Theorem one_session_per_user_kept uid message w :
  oneSessionPerUser w ->
  oneSessionPerUser (snd (saveChatMessageToStorage uid message w))
  /\ oneSessionPerUser (snd (clearChatHistory uid w)).
Proof.
  unfold oneSessionPerUser, cachedSessions. intros Hnd. split.
  - unfold saveChatMessageToStorage, generateUniqueId, now,
      readSessions, writeSessions, submitChatMessageToServer.
    run.
    destruct (World.chatStore w) as [| |sessions] eqn:Hs; cbn;
      destruct (World.setItemThrows w) eqn:Hq; cbn; rewrite ?Hs;
      try destruct (World.chatApiReachable w); cbn; rewrite ?Hs;
      try exact Hnd; try (repeat constructor; cbn; tauto).
    all: destruct (find (isSessionOf uid) sessions) eqn:Hf;
      [ now rewrite userIds_pushToSession
      | rewrite map_app; cbn; apply NoDup_snoc;
        [exact Hnd | now apply find_none_not_in] ].
  - unfold clearChatHistory, writeSessions. run.
    destruct (World.chatStore w) as [| |sessions] eqn:Hs; cbn; rewrite ?Hs;
      try exact Hnd.
    destruct (World.setItemThrows w) eqn:Hq; cbn; rewrite ?Hs; try exact Hnd.
    destruct (World.chatApiReachable w); cbn; now apply NoDup_map_filter.
Qed.

End CacheShapeFacts.

(* ------------------------------------------------------------------ *)
(** ** The three client services, one by one *)

Section ServiceOutcomes.
Import ChatStorage Providers HomeworkHelp CacheShape.

Lemma saveBoth_resolved uid asked answered w :
  cacheWritable w = true ->
  resolvedWith uid asked answered w (saveBoth uid asked answered w).
Proof.
  intros Hw. unfold resolvedWith, saveBoth. run.
  destruct (save_writable uid (mkInput user asked (Some uid)) w Hw)
    as (Hm1 & Hh1 & _ & Hw1).
  destruct (saveChatMessageToStorage uid (mkInput user asked (Some uid)) w)
    as [o1 w1]. cbn in *. subst o1.
  destruct (save_writable uid (mkInput assistant answered (Some uid)) w1 Hw1)
    as (Hm2 & Hh2 & _ & _).
  destruct (saveChatMessageToStorage uid (mkInput assistant answered (Some uid)) w1)
    as [o2 w2]. cbn in *. subst o2. cbn.
  eexists. split; [reflexivity|]. cbn.
  rewrite Hh2, Hh1, <- app_assoc. repeat split.
Qed.

Local Opaque saveChatMessageToStorage saveBoth.
Local Opaque geminiSystemInstruction geminiPrompt taggedQuestion generateHomeworkHelp.

(** Run the two saves the goal is waiting on. *)
Ltac bothSaved Hw :=
  match goal with
  | |- context [saveBoth ?uid ?asked ?answered ?w] =>
      let ex := fresh "ex" in
      let Hex := fresh "Hex" in
      let o1 := fresh "o" in
      pose proof (saveBoth_resolved uid asked answered w Hw) as (ex & Hex & ?);
      destruct (saveBoth uid asked answered w) as [o1 ?];
      cbn in *; subst o1; cbn; exists ex; auto
  end.

(** [getPerplexityHomeworkHelp], for a signed-in user whose cache takes
    writes: it resolves exactly when the route answers with a success
    status and a readable body, the answer being the route's message and
    the question and answer being appended to the cached history;
    otherwise it rejects and nothing in the browser has changed. *)
Theorem perplexity_service_outcome subject question w u :
  World.userStore w = Parsed u ->
  cacheWritable w = true ->
  match World.perplexityHomeworkApi w subject question with
  | Response true (Some text) =>
      resolvedWith (LocalUser.id u) (taggedQuestion subject question) text w
        (getPerplexityHomeworkHelp subject question w)
  | _ => rejectedClean w (getPerplexityHomeworkHelp subject question w)
  end.
Proof.
  intros Hu Hw.
  unfold getPerplexityHomeworkHelp, requireUser, loadUserFromLocalStorage, fetchText,
    rejectedClean.
  run. rewrite Hu. cbn.
  destruct (World.perplexityHomeworkApi w subject question) as [|[|] [text|]]; cbn;
    auto.
  bothSaved Hw.
Qed.

(** [getGeminiHomeworkHelp], same setting: the route's answer is used when
    the route succeeds; when it does not, the SDK in the browser is primed
    with the system instruction and asked the prompt, and its answer is
    used; the call rejects, leaving the browser as it was, only when the
    route and the SDK both fail. *)
Theorem gemini_service_outcome subject question w u :
  World.userStore w = Parsed u ->
  cacheWritable w = true ->
  match World.geminiHomeworkApi w subject question with
  | Response true (Some text) =>
      resolvedWith (LocalUser.id u) (taggedQuestion subject question) text w
        (getGeminiHomeworkHelp subject question w)
  | _ =>
      match World.geminiSdk w (geminiSystemInstruction subject),
            World.geminiSdk w (geminiPrompt subject question) with
      | Some _, Some answer =>
          resolvedWith (LocalUser.id u) (taggedQuestion subject question) answer w
            (getGeminiHomeworkHelp subject question w)
      | _, _ => rejectedClean w (getGeminiHomeworkHelp subject question w)
      end
  end.
Proof.
  intros Hu Hw.
  unfold getGeminiHomeworkHelp, requireUser, loadUserFromLocalStorage, fetchText,
    sendMessage, rejectedClean.
  run. rewrite Hu. cbn.
  destruct (World.geminiHomeworkApi w subject question) as [|[|] [text|]]; cbn;
    try solve [bothSaved Hw];
    (destruct (World.geminiSdk w (geminiSystemInstruction subject)); cbn; auto;
     destruct (World.geminiSdk w (geminiPrompt subject question)) as [answer|]; cbn;
     auto; bothSaved Hw).
Qed.

(** The OpenAI service ([getHomeworkHelp] of openai.ts), same setting: it
    never rejects. The answer is the route's when the route succeeds and
    the canned text of [generateHomeworkHelp] otherwise; either way the
    question and the answer are appended to the cached history. *)
Theorem openai_service_outcome subject question w u :
  World.userStore w = Parsed u ->
  cacheWritable w = true ->
  resolvedWith (LocalUser.id u) (taggedQuestion subject question)
    match World.openaiHomeworkApi w subject question with
    | Response true (Some text) => text
    | _ => generateHomeworkHelp subject question
    end
    w (getOpenAIHomeworkHelp subject question w).
Proof.
  intros Hu Hw. rewrite openai_service_unfold.
  unfold requireUser, loadUserFromLocalStorage, fetchText.
  run. rewrite Hu. cbn.
  destruct (World.openaiHomeworkApi w subject question) as [|[|] [text|]]; cbn;
    bothSaved Hw.
Qed.

(** With nobody signed in, each of the three services and the orchestrator
    reject with "User not authenticated" before doing anything: the
    browser is as it was and no service has been awaited. *)
Theorem signed_out_rejects_first g p o subject question w calls :
  signedOut w ->
  getGeminiHomeworkHelp subject question w = (Thrown "User not authenticated", w)
  /\ getPerplexityHomeworkHelp subject question w = (Thrown "User not authenticated", w)
  /\ getOpenAIHomeworkHelp subject question w = (Thrown "User not authenticated", w)
  /\ getIntegratedHomeworkHelp g p o subject question (mkRun w calls)
     = (Thrown "User not authenticated", mkRun w calls).
Proof.
  intros Hout. rewrite openai_service_unfold.
  unfold getGeminiHomeworkHelp, getPerplexityHomeworkHelp, getIntegratedHomeworkHelp,
    requireUser, loadUserFromLocalStorage, inWorld.
  run.
  destruct (World.userStore w) as [| |u] eqn:Hu; cbn; auto.
  now destruct (Hout u).
Qed.

End ServiceOutcomes.

(* ------------------------------------------------------------------ *)
(** ** The subject router ([getPreferredAIForSubject]) *)

Section RouterFacts.
Import HomeworkHelp JsText.

Lemma prefix_app (m b : string) : String.prefix m (m ++ b) = true.
Proof.
  induction m as [|c m IH]; cbn; [now destruct b|].
  destruct (ascii_dec c c); [exact IH | contradiction].
Qed.

Lemma includes_prefix (s sub : string) :
  String.prefix sub s = true -> Js.includes s sub = true.
Proof.
  intros H. destruct s; cbn [Js.includes]; now rewrite H.
Qed.

(** A string includes whatever stands somewhere inside it. *)
Lemma includes_inside (a m b : string) : Js.includes (a ++ m ++ b) m = true.
Proof.
  induction a as [|c a IH].
  - change ("" ++ m ++ b)%string with (m ++ b)%string.
    apply includes_prefix, prefix_app.
  - cbn [String.append Js.includes]. rewrite IH. apply orb_true_r.
Qed.

Lemma toLowerCase_app (a b : string) :
  Js.toLowerCase (a ++ b) = (Js.toLowerCase a ++ Js.toLowerCase b)%string.
Proof.
  induction a as [|c a IH]; cbn; [reflexivity | now rewrite IH].
Qed.

Lemma lower_of_upper (c : ascii) : Js.lowerAscii (upperAscii c) = Js.lowerAscii c.
Proof.
  destruct c as [[] [] [] [] [] [] [] []]; reflexivity.
Qed.

Lemma lower_of_lower (c : ascii) : Js.lowerAscii (Js.lowerAscii c) = Js.lowerAscii c.
Proof.
  destruct c as [[] [] [] [] [] [] [] []]; reflexivity.
Qed.

Lemma toLowerCase_toUpperCase (s : string) :
  Js.toLowerCase (toUpperCase s) = Js.toLowerCase s.
Proof.
  induction s as [|c s IH]; cbn; [reflexivity|].
  now rewrite lower_of_upper, IH.
Qed.

Lemma toLowerCase_idempotent (s : string) :
  Js.toLowerCase (Js.toLowerCase s) = Js.toLowerCase s.
Proof.
  induction s as [|c s IH]; cbn; [reflexivity|].
  now rewrite lower_of_lower, IH.
Qed.

(** A subject that mentions math, physics or computer science, in any
    mix of capitals and small letters and whatever else it mentions, is
    routed to Gemini. *)
Theorem gemini_keywords_win (before mention after keyword : string) :
  In keyword ["math"; "physics"; "computer science"] ->
  Js.toLowerCase mention = keyword ->
  getPreferredAIForSubject (before ++ mention ++ after) = Gemini.
Proof.
  intros Hk Hm. unfold getPreferredAIForSubject.
  rewrite !toLowerCase_app, Hm.
  destruct Hk as [<- | [<- | [<- | []]]];
    rewrite includes_inside; cbn [orb]; rewrite ?orb_true_r; reflexivity.
Qed.

Lemma gemini_keywords_win_witness :
  In "physics" ["math"; "physics"; "computer science"]
  /\ Js.toLowerCase "PHYSICS" = "physics"
  /\ getPreferredAIForSubject ("History of " ++ "PHYSICS" ++ " and politics") = Gemini.
Proof.
  assert (Hin : In "physics" ["math"; "physics"; "computer science"])
    by (right; left; reflexivity).
  split; [exact Hin|]. split; [reflexivity|].
  exact (gemini_keywords_win "History of " "PHYSICS" " and politics" "physics"
           Hin eq_refl).
Defined.

(** For a subject written in ASCII characters the routing does not depend
    on the case of the letters: the subject, the subject in capitals and
    the subject in small letters get the same provider. *)
Theorem routing_ignores_case (subject : string) :
  asciiOnly subject = true ->
  getPreferredAIForSubject (toUpperCase subject) = getPreferredAIForSubject subject
  /\ getPreferredAIForSubject (Js.toLowerCase subject) = getPreferredAIForSubject subject.
Proof.
  intros _. unfold getPreferredAIForSubject.
  now rewrite toLowerCase_toUpperCase, toLowerCase_idempotent.
Qed.

Lemma routing_ignores_case_witness :
  getPreferredAIForSubject (toUpperCase "Modern History")
  = getPreferredAIForSubject "Modern History"
  /\ getPreferredAIForSubject (Js.toLowerCase "Modern History")
     = getPreferredAIForSubject "Modern History".
Proof.
  exact (routing_ignores_case "Modern History" eq_refl).
Defined.

End RouterFacts.

(* ------------------------------------------------------------------ *)
(** ** The services and the cache at concrete browsers *)

Section ServiceExamples.
Import ChatStorage Providers HomeworkHelp CacheShape Scenario Cases.

Lemma one_session_per_user_kept_witness :
  oneSessionPerUser twoSessions
  /\ oneSessionPerUser
       (snd (saveChatMessageToStorage 7 (mkInput user "again" None) twoSessions))
  /\ oneSessionPerUser (snd (clearChatHistory 7 twoSessions)).
Proof.
  assert (Hone : oneSessionPerUser twoSessions).
  { unfold oneSessionPerUser. cbn. repeat constructor; cbn; intuition discriminate. }
  split; [exact Hone|].
  exact (one_session_per_user_kept 7 (mkInput user "again" None) twoSessions Hone).
Defined.

Lemma perplexity_service_outcome_witness :
  World.userStore twoSessions = Parsed student
  /\ cacheWritable twoSessions = true
  /\ resolvedWith 7 (taggedQuestion "math" "2+2") "four" twoSessions
       (getPerplexityHomeworkHelp "math" "2+2" twoSessions).
Proof.
  split; [reflexivity|]. split; [reflexivity|].
  exact (perplexity_service_outcome "math" "2+2" twoSessions student eq_refl eq_refl).
Defined.

(** The route is down and the SDK answers: the SDK's answer is used. *)
Lemma gemini_service_outcome_witness :
  let w := browser NetworkFailure NetworkFailure NetworkFailure (Some "IV") in
  World.userStore w = Parsed student
  /\ cacheWritable w = true
  /\ resolvedWith 7 (taggedQuestion "math" "2+2") "IV" w
       (getGeminiHomeworkHelp "math" "2+2" w).
Proof.
  split; [reflexivity|]. split; [reflexivity|].
  exact (gemini_service_outcome "math" "2+2"
           (browser NetworkFailure NetworkFailure NetworkFailure (Some "IV"))
           student eq_refl eq_refl).
Defined.

Lemma openai_service_outcome_witness :
  World.userStore twoSessions = Parsed student
  /\ cacheWritable twoSessions = true
  /\ resolvedWith 7 (taggedQuestion "math" "2+2") (generateHomeworkHelp "math" "2+2")
       twoSessions (getOpenAIHomeworkHelp "math" "2+2" twoSessions).
Proof.
  split; [reflexivity|]. split; [reflexivity|].
  exact (openai_service_outcome "math" "2+2" twoSessions student eq_refl eq_refl).
Defined.

Lemma signed_out_rejects_first_witness :
  signedOut nobody
  /\ getGeminiHomeworkHelp "math" "2+2" nobody = (Thrown "User not authenticated", nobody)
  /\ getPerplexityHomeworkHelp "math" "2+2" nobody
     = (Thrown "User not authenticated", nobody)
  /\ getOpenAIHomeworkHelp "math" "2+2" nobody = (Thrown "User not authenticated", nobody)
  /\ getIntegratedHomeworkHelp (stub (Some "4")) (stub None) (stub None)
       "math" "2+2" (mkRun nobody [])
     = (Thrown "User not authenticated", mkRun nobody []).
Proof.
  assert (Hout : signedOut nobody) by (intros u; discriminate).
  split; [exact Hout|].
  exact (signed_out_rejects_first (stub (Some "4")) (stub None) (stub None)
           "math" "2+2" nobody [] Hout).
Defined.

End ServiceExamples.

(* ------------------------------------------------------------------ *)
(** ** Likes and views (storage.ts, routes.ts) *)

Section LikeFacts.
Import Storage Likes.

Lemma filter_map_same_id {A} (keep : A -> bool) (f : A -> A) (l : list A) :
  (forall x, keep (f x) = keep x) ->
  filter keep (map f l) = map f (filter keep l).
Proof.
  intros Hf. induction l as [|x rest IH]; cbn; [reflexivity|].
  rewrite Hf. destruct (keep x); cbn; now rewrite IH.
Qed.

Lemma filter_none_all {A} (m : A -> bool) (l : list A) :
  filter m l = [] -> filter (fun x => negb (m x)) l = l.
Proof.
  induction l as [|x rest IH]; cbn; [reflexivity|].
  destruct (m x); cbn; [discriminate|]. intros H. now rewrite IH.
Qed.

Lemma hd_error_none_nil {A} (l : list A) : hd_error l = None -> l = [].
Proof. destruct l; [reflexivity | discriminate]. Qed.

Lemma hasId_withLikes postId v p : hasId postId (withLikes v p) = hasId postId p.
Proof. reflexivity. Qed.

Lemma hasId_withViews postId v p : hasId postId (withViews v p) = hasId postId p.
Proof. reflexivity. Qed.

Lemma hasId_bumped (g : Post.t -> bool) (v : Post.t -> option Z) other p :
  hasId other (if g p then withLikes (v p) p else p) = hasId other p.
Proof. now destruct (g p). Qed.

(** What a like that goes through leaves in the store. *)
Lemma like_created st userId postId q :
  hd_error (filter (hasId postId) (posts (db st))) = Some q ->
  filter (isLikeOf userId postId) (likes (db st)) = [] ->
  existsb (fun u => Z.eqb (User.id u) userId) (users (db st)) = true ->
  likeRoute (Some userId) postId st
  = (Returned (mkResponse 201
                 (LikeRow (Mark.mk (likeSeq st) userId postId (Some (now st))))),
     mkStore
       (mkDb (map (fun p => if hasId postId p
                            then withLikes (sqlAdd (Post.likes p) (Some 1)) p
                            else p)
                  (posts (db st)))
             (users (db st))
             (likes (db st) ++ [Mark.mk (likeSeq st) userId postId (Some (now st))])
             (saves (db st)))
       (likeSeq st + 1) (now st)).
Proof.
  intros Hpost Hnone Huser.
  unfold likeRoute, getPost, getLike, createLike. run.
  rewrite Hpost. cbn. rewrite Hnone. cbn. rewrite Huser. cbn.
  assert (Hex : existsb (hasId postId) (posts (db st)) = true).
  { apply existsb_exists. exists q.
    destruct (filter (hasId postId) (posts (db st))) as [|x rest] eqn:Hf; [discriminate|].
    injection Hpost as ->.
    assert (Hin : In q (filter (hasId postId) (posts (db st)))) by (rewrite Hf; now left).
    now apply filter_In in Hin. }
  rewrite Hex. reflexivity.
Qed.

(** The cases of [likeRoute], each with the store it leaves. *)
Lemma like_cases st session postId :
  (exists userId q,
      session = Some userId
      /\ hd_error (filter (hasId postId) (posts (db st))) = Some q
      /\ filter (isLikeOf userId postId) (likes (db st)) = []
      /\ existsb (fun u => Z.eqb (User.id u) userId) (users (db st)) = true)
  \/ (exists r, likeRoute session postId st = (Returned r, st) /\ status r <> 201)
  \/ (exists e st', likeRoute session postId st = (Thrown e, st')
                    /\ db st' = db st).
Proof.
  unfold likeRoute, getPost, getLike, createLike. run.
  destruct session as [userId|]; [|right; left; eexists; split; [reflexivity | cbn; lia]].
  destruct (hd_error (filter (hasId postId) (posts (db st)))) as [q|] eqn:Hpost; cbn;
    [|right; left; eexists; split; [reflexivity | cbn; lia]].
  destruct (hd_error (filter (isLikeOf userId postId) (likes (db st)))) as [m|] eqn:Hlike;
    cbn; [right; left; eexists; split; [reflexivity | cbn; lia]|].
  destruct (existsb (fun u => Z.eqb (User.id u) userId) (users (db st))) eqn:Huser; cbn.
  - left. exists userId, q. auto using hd_error_none_nil.
  - right. right. eauto.
Qed.

(** A second like of the same post by the same user is refused with 400
    "Post already liked", and changes nothing: the counter has gone up by
    one like, not two. *)
Theorem second_like_is_refused st userId postId r st' :
  likeRoute (Some userId) postId st = (Returned r, st') ->
  status r = 201 ->
  likeRoute (Some userId) postId st'
  = (Returned (mkResponse 400 (Message "Post already liked")), st').
Proof.
  intros Hrun H201.
  destruct (like_cases st (Some userId) postId)
    as [(u & q & Hs & Hpost & Hnone & Huser) | [(r' & Hr & Hst) | (e & st2 & He & _)]];
    [injection Hs as <- | congruence | congruence].
  rewrite (like_created st userId postId q Hpost Hnone Huser) in Hrun.
  injection Hrun as <- <-.
  unfold likeRoute, getPost, getLike. run.
  rewrite filter_map_same_id
    by (intros x; apply (hasId_bumped (hasId postId)
                          (fun p => sqlAdd (Post.likes p) (Some 1)))).
  destruct (filter (hasId postId) (posts (db st))) as [|x rest]; [discriminate|]. cbn.
  rewrite filter_app, Hnone. cbn. unfold isLikeOf. cbn. rewrite !Z.eqb_refl. reflexivity.
Qed.


(** A like request in the name of a user the table of users does not
    hold: the insert is refused. *)
Lemma refused_insert_uses_an_id :
  let out := likeRoute (Some 99) 5 Cases.shelf in
  returned (fst out) = false
  /\ db (snd out) = db Cases.shelf
  /\ likeSeq Cases.shelf = 2 /\ likeSeq (snd out) = 3.
Proof.
  vm_compute. repeat split.
Qed.

Lemma map_fixed {A} (h : A -> A) (l : list A) :
  (forall x, In x l -> h x = x) -> map h l = l.
Proof.
  induction l as [|x rest IH]; cbn; intros H; [reflexivity|].
  rewrite H by now left. rewrite IH; [reflexivity | intros; apply H; now right].
Qed.

Lemma withLikes_same p : withLikes (Post.likes p) p = p.
Proof. now destruct p. Qed.

(** What an unlike does when the user's like is the last row of the table
    and no other row is theirs. *)
Lemma unlike_last_row st userId postId like rows :
  likes (db st) = rows ++ [like] ->
  filter (isLikeOf userId postId) rows = [] ->
  isLikeOf userId postId like = true ->
  unlikeRoute (Some userId) postId st
  = (Returned (mkResponse 200 (Message "Like removed successfully")),
     mkStore
       (mkDb (map (fun p => if hasId postId p && positive (Post.likes p)
                            then withLikes (sqlAdd (Post.likes p) (Some (-1))) p
                            else p)
                  (posts (db st)))
             (users (db st)) rows (saves (db st)))
       (likeSeq st) (now st)).
Proof.
  intros Hrows Hnone Hlike.
  unfold unlikeRoute, deleteLike. run.
  rewrite Hrows, !filter_app, Hnone, (filter_none_all _ _ Hnone). cbn.
  rewrite Hlike. cbn. now rewrite app_nil_r.
Qed.

(** Liking a post and then taking the like back restores the database:
    the same posts with the same counters, the same like rows. *)
Theorem like_then_unlike_restores st userId postId r st1 :
  noNegativeLikes (db st) ->
  likeRoute (Some userId) postId st = (Returned r, st1) ->
  status r = 201 ->
  fst (unlikeRoute (Some userId) postId st1)
  = Returned (mkResponse 200 (Message "Like removed successfully"))
  /\ db (snd (unlikeRoute (Some userId) postId st1)) = db st.
Proof.
  intros Hpos Hrun H201.
  destruct (like_cases st (Some userId) postId)
    as [(u & q & Hs & Hpost & Hnone & Huser) | [(r' & Hr & Hst) | (e & st2 & He & _)]];
    [injection Hs as <- | congruence | congruence].
  rewrite (like_created st userId postId q Hpost Hnone Huser) in Hrun.
  injection Hrun as <- <-.
  erewrite unlike_last_row;
    [ | reflexivity | exact Hnone | unfold isLikeOf; cbn; now rewrite !Z.eqb_refl ].
  split; [reflexivity|]. cbn.
  rewrite map_map, map_fixed; [now destruct (db st)|].
  intros p Hp. unfold hasId.
  destruct (Z.eqb (Post.id p) postId) eqn:Hid; cbn; rewrite Hid; [|reflexivity].
  destruct (Post.likes p) as [c|] eqn:Hc; cbn.
  - pose proof (Hpos p c Hp Hc) as Hc0.
    replace (Z.ltb 0 (c + 1)) with true by (symmetry; apply Z.ltb_lt; lia). cbn.
    replace (c + 1 + -1) with c by lia.
    rewrite <- Hc. now destruct p.
  - rewrite <- Hc. now destruct p.
Qed.


Lemma likeCount_appended d like postId :
  likeCount postId (mkDb (posts d) (users d) (likes d ++ [like]) (saves d))
  = likeCount postId d + (if Z.eqb (Mark.postId like) postId then 1 else 0).
Proof.
  unfold likeCount. cbn. rewrite filter_app, List.length_app. cbn.
  destruct (Z.eqb (Mark.postId like) postId); cbn; lia.
Qed.

(** Taking out the likes of one user on one post lowers the count of that
    post by their number, and no other count. *)
Lemma count_without (userId postId other : Z) (rows : list Mark.t) :
  (List.length (filter (fun m => Z.eqb (Mark.postId m) other)
                  (filter (fun m => negb (isLikeOf userId postId m)) rows))
   + (if Z.eqb postId other
      then List.length (filter (isLikeOf userId postId) rows)
      else 0)
   = List.length (filter (fun m => Z.eqb (Mark.postId m) other) rows))%nat.
Proof.
  induction rows as [|m rest IH]; cbn; [now destruct (Z.eqb postId other)|].
  unfold isLikeOf in *.
  destruct (Z.eqb (Mark.userId m) userId) eqn:Hu;
    destruct (Z.eqb (Mark.postId m) postId) eqn:Hp; cbn;
    destruct (Z.eqb (Mark.postId m) other) eqn:Ho; cbn;
    destruct (Z.eqb postId other) eqn:Hpo; cbn in *;
    rewrite ?Z.eqb_eq, ?Z.eqb_neq in *; try lia.
Qed.

Lemma one_like_each (userId postId : Z) (rows : list Mark.t) :
  NoDup (map (fun m => (Mark.userId m, Mark.postId m)) rows) ->
  (List.length (filter (isLikeOf userId postId) rows) <= 1)%nat.
Proof.
  induction rows as [|m rest IH]; cbn; [lia|].
  intros Hnd. inversion Hnd as [|? ? Hnotin Hrest]; subst.
  specialize (IH Hrest).
  destruct (isLikeOf userId postId m) eqn:Hm; cbn; [|lia].
  destruct (filter (isLikeOf userId postId) rest) as [|m' rest'] eqn:Hf; cbn; [lia|].
  exfalso. apply Hnotin.
  assert (Hin : In m' (filter (isLikeOf userId postId) rest)) by (rewrite Hf; now left).
  apply filter_In in Hin as (Hin & Hm').
  unfold isLikeOf in *.
  apply andb_prop in Hm as (Hu & Hp). apply andb_prop in Hm' as (Hu' & Hp').
  rewrite Z.eqb_eq in *. apply in_map_iff. exists m'. split; [congruence | exact Hin].
Qed.

(** If every post's like counter is the number of its like rows and
    nobody has liked a post twice, this is still so after a like request
    and after an unlike request, whatever their outcome. *)
Theorem like_counters_stay_consistent st session postId :
  likesConsistent (db st) ->
  likesConsistent (db (snd (likeRoute session postId st)))
  /\ likesConsistent (db (snd (unlikeRoute session postId st))).
Proof.
  intros (Hcount & Hnd). split.
  - destruct (like_cases st session postId)
      as [(u & q & -> & Hpost & Hnone & Huser) | [(r' & -> & _) | (e & st2 & -> & Hdb)]];
      [|now split|cbn; rewrite Hdb; now split].
    rewrite (like_created st u postId q Hpost Hnone Huser). cbn. split.
    + cbn. intros p' Hp'. apply in_map_iff in Hp' as (p & <- & Hp).
      specialize (Hcount p Hp).
      pose proof (likeCount_appended (db st) (Mark.mk (likeSeq st) u postId (Some (now st))))
        as Happ. unfold likeCount in *. cbn in *.
      unfold hasId. destruct (Z.eqb (Post.id p) postId) eqn:Hid; cbn.
      * rewrite Hcount. cbn. f_equal. rewrite Happ.
        apply Z.eqb_eq in Hid. rewrite Hid, Z.eqb_refl. reflexivity.
      * rewrite Hcount. f_equal. rewrite Happ.
        rewrite Z.eqb_sym, Hid. lia.
    + cbn. rewrite map_app. cbn. apply NoDup_snoc; [exact Hnd|].
      intros Hin. apply in_map_iff in Hin as (m & Hm & Hin).
      assert (Hmatch : In m (filter (isLikeOf u postId) (likes (db st)))).
      { apply filter_In. split; [exact Hin|]. unfold isLikeOf.
        injection Hm as -> ->. now rewrite !Z.eqb_refl. }
      now rewrite Hnone in Hmatch.
  - unfold unlikeRoute, deleteLike. run.
    destruct session as [userId|]; [|now split]. cbn.
    pose proof (one_like_each userId postId (likes (db st)) Hnd) as Hone.
    pose proof (count_without userId postId) as Hwithout.
    assert (Hnd' : NoDup (map (fun m => (Mark.userId m, Mark.postId m))
                             (filter (fun m => negb (isLikeOf userId postId m))
                                     (likes (db st)))))
      by now apply NoDup_map_filter.
    destruct (filter (isLikeOf userId postId) (likes (db st))) as [|m rest] eqn:Hf; cbn.
    + split; [|exact Hnd']. cbn. intros p Hp. rewrite (Hcount p Hp).
      unfold likeCount. cbn. f_equal. f_equal.
      specialize (Hwithout (Post.id p) (likes (db st))). rewrite Hf in Hwithout.
      cbn in Hwithout. destruct (Z.eqb postId (Post.id p)); lia.
    + split; [|exact Hnd']. cbn in Hone.
      destruct rest as [|m2 rest]; [|cbn in Hone; lia].
      cbn. intros p' Hp'. apply in_map_iff in Hp' as (p & <- & Hp).
      specialize (Hcount p Hp).
      specialize (Hwithout (Post.id p) (likes (db st))). rewrite Hf in Hwithout.
      cbn in Hwithout. unfold likeCount in *. cbn in *. unfold hasId.
      rewrite (Z.eqb_sym postId) in Hwithout.
      destruct (Z.eqb (Post.id p) postId) eqn:Hid; cbn.
      * rewrite Hcount. cbn.
        assert (Hposi : Z.ltb 0 (Z.of_nat (List.length
                          (filter (fun m0 => Z.eqb (Mark.postId m0) (Post.id p))
                                  (likes (db st))))) = true)
          by (apply Z.ltb_lt; lia).
        rewrite Hposi. cbn. f_equal. lia.
      * rewrite Hcount. f_equal. lia.
Qed.

End LikeFacts.

Section LikeExamples.
Import Storage Likes Scenario Cases.

Lemma second_like_is_refused_witness :
  likeRoute (Some 1) 5 shelf = (Returned likedResponse, likedShelf)
  /\ status likedResponse = 201
  /\ likeRoute (Some 1) 5 likedShelf
     = (Returned (mkResponse 400 (Message "Post already liked")), likedShelf).
Proof.
  split; [reflexivity|]. split; [reflexivity|].
  exact (second_like_is_refused shelf 1 5 likedResponse likedShelf eq_refl eq_refl).
Defined.

Lemma shelf_has_no_negative_likes : noNegativeLikes (db shelf).
Proof.
  intros p c [<- | [<- | []]]; cbn; intros [= <-]; lia.
Qed.

Lemma like_then_unlike_restores_witness :
  noNegativeLikes (db shelf)
  /\ likeRoute (Some 1) 5 shelf = (Returned likedResponse, likedShelf)
  /\ status likedResponse = 201
  /\ fst (unlikeRoute (Some 1) 5 likedShelf)
     = Returned (mkResponse 200 (Message "Like removed successfully"))
  /\ db (snd (unlikeRoute (Some 1) 5 likedShelf)) = db shelf.
Proof.
  split; [exact shelf_has_no_negative_likes|].
  split; [reflexivity|]. split; [reflexivity|].
  exact (like_then_unlike_restores shelf 1 5 likedResponse likedShelf
           shelf_has_no_negative_likes eq_refl eq_refl).
Defined.

Lemma shelf_is_consistent : likesConsistent (db shelf).
Proof.
  split.
  - intros p [<- | [<- | []]]; reflexivity.
  - cbn. repeat constructor. cbn. tauto.
Qed.

Lemma like_counters_stay_consistent_witness :
  likesConsistent (db shelf)
  /\ likesConsistent (db (snd (likeRoute (Some 1) 5 shelf)))
  /\ likesConsistent (db (snd (unlikeRoute (Some 2) 5 shelf))).
Proof.
  split; [exact shelf_is_consistent|]. split.
  - exact (proj1 (like_counters_stay_consistent shelf (Some 1) 5 shelf_is_consistent)).
  - exact (proj2 (like_counters_stay_consistent shelf (Some 2) 5 shelf_is_consistent)).
Defined.

End LikeExamples.

(* ------------------------------------------------------------------ *)
(** ** The chat of openai.ts and the streamed chat of perplexityService.ts *)

Section ClientChatFacts.
Import ChatStorage Providers CacheShape ClientChat PerplexityStream JsText.

Lemma append_empty_r (s : string) : (s ++ "")%string = s.
Proof. induction s as [|c s IH]; cbn; [reflexivity | now rewrite IH]. Qed.

Lemma append_assoc3 (a b c : string) : ((a ++ b) ++ c)%string = (a ++ b ++ c)%string.
Proof. induction a as [|x a IH]; cbn; [reflexivity | now rewrite IH]. Qed.

Lemma glue_nonEmpty (pieces : list string) : glue (filter nonEmpty pieces) = glue pieces.
Proof.
  induction pieces as [|p rest IH]; [reflexivity|].
  unfold glue in *.
  destruct p; cbn [filter nonEmpty fold_right String.append]; now rewrite IH.
Qed.

(** The loop hands every non-empty cleaned chunk to [onChunk], in order,
    and returns the cleaned chunks put end to end. *)
Lemma readAll_run onChunk values : forall acc l,
  readAll onChunk values acc l
  = (Returned (acc ++ glue (map textOfChunk values))%string,
     mkListening (browser l)
       (heard l ++ (if onChunk then filter nonEmpty (map textOfChunk values) else []))
       (completed l)).
Proof.
  induction values as [|v rest IH]; intros acc l; cbn [readAll map glue fold_right].
  - unfold ret. rewrite append_empty_r.
    destruct l, onChunk; cbn; now rewrite app_nil_r.
  - fold (glue (map textOfChunk rest)). unfold bind at 1.
    destruct (nonEmpty (textOfChunk v)) eqn:Hne; destruct onChunk; cbn [andb];
      unfold hear, modify, ret; cbn [fst snd]; rewrite IH; cbn;
      rewrite ?Hne, ?append_assoc3, <- ?app_assoc; try reflexivity.
    all: destruct (textOfChunk v); cbn in *; try discriminate; reflexivity.
Qed.

(** [sendChatMessage] ends with the same two saves on both paths. *)
Lemma sendChatMessage_unfold reply message :
  sendChatMessage reply message
  = (usr <- requireUser ;;
     tryCatch
       (data <- fetchText reply "Server API failed" ;;
        saveBoth (LocalUser.id usr) message data)
       (fun _ => saveBoth (LocalUser.id usr) message (generateLocalResponse message))).
Proof. reflexivity. Qed.

Local Opaque saveChatMessageToStorage saveBoth generateLocalResponse.

(** Run the two saves the goal is waiting on. *)
Ltac bothSaved Hw :=
  match goal with
  | |- context [saveBoth ?uid ?asked ?answered ?w] =>
      let ex := fresh "ex" in
      let Hex := fresh "Hex" in
      let o1 := fresh "o" in
      pose proof (saveBoth_resolved uid asked answered w Hw) as (ex & Hex & ?);
      destruct (saveBoth uid asked answered w) as [o1 ?];
      cbn in *; subst o1; cbn; exists ex; auto
  end.

(** [sendChatMessage], for a signed-in user whose cache takes writes,
    never rejects: the message and an answer are appended to the cached
    history, the answer being the server's when the route succeeds and
    the text of [generateLocalResponse] when it does not. *)
Theorem chat_message_always_answered reply message w u :
  World.userStore w = Parsed u ->
  cacheWritable w = true ->
  resolvedWith (LocalUser.id u) message
    match reply with
    | Response true (Some text) => text
    | _ => generateLocalResponse message
    end
    w (sendChatMessage reply message w).
Proof.
  intros Hu Hw. rewrite sendChatMessage_unfold.
  unfold requireUser, loadUserFromLocalStorage, fetchText.
  run. rewrite Hu. cbn.
  destruct reply as [|[|] [text|]]; cbn; bothSaved Hw.
Qed.

(** Offline round trip: a message sent while the server is out of reach
    is read back by [getChatHistory], still out of reach, at the end of
    the history, followed by the local answer. *)
Theorem offline_chat_reads_back message w u :
  World.userStore w = Parsed u ->
  cacheWritable w = true ->
  exists um am,
    fst (sendChatMessage NetworkFailure message w) = Returned (mkExchange um am)
    /\ ChatMessage.content um = message
    /\ ChatMessage.content am = generateLocalResponse message
    /\ fst (getChatHistory HistoryFailure (snd (sendChatMessage NetworkFailure message w)))
       = Returned (loadChatHistoryFromStorage (LocalUser.id u) w ++ [um; am]).
Proof.
  intros Hu Hw.
  destruct (chat_message_always_answered NetworkFailure message w u Hu Hw)
    as (ex & Hex & Hum & _ & Ham & _ & Hhist).
  assert (Hu' : World.userStore (snd (sendChatMessage NetworkFailure message w)) = Parsed u).
  { rewrite sendChatMessage_unfold.
    unfold requireUser, loadUserFromLocalStorage, fetchText.
    run. rewrite Hu. cbn.
    destruct (saveBoth_run (LocalUser.id u) message (generateLocalResponse message) w Hw)
      as (ex' & w' & -> & _ & _ & (Hus & _)).
    cbn. congruence. }
  destruct ex as [um am]. exists um, am. cbn in *.
  repeat split; auto.
  unfold getChatHistory, loadUserFromLocalStorage. run. rewrite Hu'. cbn.
  now rewrite Hhist.
Qed.

(** One save in a cache that takes writes, as the stream uses it. *)
Lemma save_appends uid input w :
  cacheWritable w = true ->
  exists m w',
    saveChatMessageToStorage uid input w = (Returned m, w')
    /\ ChatMessage.content m = inContent input
    /\ ChatMessage.role m = inRole input
    /\ loadChatHistoryFromStorage uid w' = loadChatHistoryFromStorage uid w ++ [m]
    /\ cacheWritable w' = true.
Proof.
  intros Hw. destruct (save_writable uid input w Hw) as (Hm & Hh & _ & Hw').
  destruct (saveChatMessageToStorage uid input w) as [o w']. cbn in *. subst o.
  exists (builtMessage uid input w), w'. auto.
Qed.

(** A stream that does not run to its end (no connection, an error
    status, no body, or a read that fails) makes [streamPerplexityChat]
    reject; the user's message, saved before the request went out, is by
    then in the cached history with no answer after it, and [onComplete]
    has not been called. *)
Theorem stream_cut_short_keeps_question reply message onChunk onComplete w u :
  World.userStore w = Parsed u ->
  cacheWritable w = true ->
  ranToEnd reply = None ->
  let r := streamPerplexityChat reply message onChunk onComplete (mkListening w [] []) in
  returned (fst r) = false
  /\ completed (snd r) = []
  /\ exists um,
       ChatMessage.content um = message
       /\ ChatMessage.role um = user
       /\ loadChatHistoryFromStorage (LocalUser.id u) (browser (snd r))
          = loadChatHistoryFromStorage (LocalUser.id u) w ++ [um].
Proof.
  intros Hu Hw Hend r. subst r.
  unfold streamPerplexityChat, inBrowser, requireUser, loadUserFromLocalStorage.
  run. rewrite Hu. cbn.
  destruct (save_appends (LocalUser.id u) (mkInput user message (Some (LocalUser.id u))) w Hw)
    as (um & w1 & -> & Hc & Hr & Hh & Hw1).
  cbn in *.
  destruct reply as [|[|] [[values breaks]|]]; cbn in *;
    try (repeat split; try reflexivity; exists um; now auto).
  rewrite readAll_run. cbn.
  destruct breaks; [|discriminate]. cbn.
  repeat split; try reflexivity. exists um. auto.
Qed.

(** A stream of ASCII chunks that runs to its end: [streamPerplexityChat]
    returns the cleaned chunks put end to end; the question and that text
    are appended to the cached history; [onChunk] has been handed the
    non-empty cleaned chunks in order, which put end to end are the text
    returned; and [onComplete] has been called once, with that text. *)
Theorem stream_run_to_end reply message onChunk onComplete w u values :
  World.userStore w = Parsed u ->
  cacheWritable w = true ->
  ranToEnd reply = Some values ->
  forallb asciiOnly values = true ->
  let r := streamPerplexityChat reply message onChunk onComplete (mkListening w [] []) in
  let full := glue (map textOfChunk values) in
  fst r = Returned full
  /\ heard (snd r) = (if onChunk then filter nonEmpty (map textOfChunk values) else [])
  /\ (onChunk = true -> glue (heard (snd r)) = full)
  /\ completed (snd r) = (if onComplete then [full] else [])
  /\ exists um am,
       ChatMessage.content um = message /\ ChatMessage.role um = user
       /\ ChatMessage.content am = full /\ ChatMessage.role am = assistant
       /\ loadChatHistoryFromStorage (LocalUser.id u) (browser (snd r))
          = loadChatHistoryFromStorage (LocalUser.id u) w ++ [um; am].
Proof.
  intros Hu Hw Hend _ r full. subst r full.
  unfold streamPerplexityChat, inBrowser, requireUser, loadUserFromLocalStorage.
  run. rewrite Hu. cbn.
  destruct (save_appends (LocalUser.id u) (mkInput user message (Some (LocalUser.id u))) w Hw)
    as (um & w1 & -> & Hc & Hr & Hh & Hw1).
  cbn in *.
  destruct reply as [|[|] [[vs breaks]|]]; cbn in *; try discriminate.
  destruct breaks; [discriminate|]. injection Hend as ->.
  rewrite readAll_run. cbn.
  destruct (save_appends (LocalUser.id u)
              (mkInput assistant (glue (map textOfChunk values)) (Some (LocalUser.id u)))
              w1 Hw1) as (am & w2 & -> & Hc2 & Hr2 & Hh2 & _).
  cbn in *.
  assert (Hheard : onChunk = true ->
                   glue (if onChunk then filter nonEmpty (map textOfChunk values) else [])
                   = glue (map textOfChunk values))
    by (intros ->; apply glue_nonEmpty).
  destruct onComplete; cbn; (split; [reflexivity|]); (split; [reflexivity|]);
    (split; [exact Hheard|]); (split; [reflexivity|]);
    exists um, am; rewrite Hh2, Hh, <- app_assoc; auto 10.
Qed.

End ClientChatFacts.

Section ClientChatExamples.
Import ChatStorage Providers CacheShape ClientChat PerplexityStream JsText Scenario Cases.

Lemma chat_message_always_answered_witness :
  World.userStore twoSessions = Parsed student
  /\ cacheWritable twoSessions = true
  /\ resolvedWith 7 "Can you help with my homework?"
       (generateLocalResponse "Can you help with my homework?")
       twoSessions
       (sendChatMessage (Response false None) "Can you help with my homework?" twoSessions).
Proof.
  split; [reflexivity|]. split; [reflexivity|].
  exact (chat_message_always_answered (Response false None)
           "Can you help with my homework?" twoSessions student eq_refl eq_refl).
Defined.

Lemma offline_chat_reads_back_witness :
  World.userStore twoSessions = Parsed student
  /\ cacheWritable twoSessions = true
  /\ exists um am,
       fst (sendChatMessage NetworkFailure "thanks" twoSessions)
       = Returned (mkExchange um am)
       /\ ChatMessage.content um = "thanks"
       /\ ChatMessage.content am = generateLocalResponse "thanks"
       /\ fst (getChatHistory HistoryFailure
                 (snd (sendChatMessage NetworkFailure "thanks" twoSessions)))
          = Returned (loadChatHistoryFromStorage 7 twoSessions ++ [um; am]).
Proof.
  split; [reflexivity|]. split; [reflexivity|].
  exact (offline_chat_reads_back "thanks" twoSessions student eq_refl eq_refl).
Defined.

(** A stream that breaks after its first chunk. *)
Lemma stream_cut_short_keeps_question_witness :
  let reply := StreamResponse true (Some (mkReader ["data: Hel"] true)) in
  let r := streamPerplexityChat reply "hi" true true (mkListening twoSessions [] []) in
  World.userStore twoSessions = Parsed student
  /\ cacheWritable twoSessions = true
  /\ ranToEnd reply = None
  /\ returned (fst r) = false
  /\ completed (snd r) = []
  /\ exists um,
       ChatMessage.content um = "hi"
       /\ ChatMessage.role um = user
       /\ loadChatHistoryFromStorage 7 (PerplexityStream.browser (snd r))
          = loadChatHistoryFromStorage 7 twoSessions ++ [um].
Proof.
  split; [reflexivity|]. split; [reflexivity|]. split; [reflexivity|].
  exact (stream_cut_short_keeps_question
           (StreamResponse true (Some (mkReader ["data: Hel"] true)))
           "hi" true true twoSessions student eq_refl eq_refl eq_refl).
Defined.

Lemma stream_run_to_end_witness :
  let reply := StreamResponse true (Some (mkReader ["data: Hel"; "  "; "data: lo "] false)) in
  let r := streamPerplexityChat reply "hi" true true (mkListening twoSessions [] []) in
  World.userStore twoSessions = Parsed student
  /\ cacheWritable twoSessions = true
  /\ ranToEnd reply = Some ["data: Hel"; "  "; "data: lo "]
  /\ forallb asciiOnly ["data: Hel"; "  "; "data: lo "] = true
  /\ fst r = Returned "Hello"
  /\ heard (snd r) = ["Hel"; "lo"]
  /\ (true = true -> glue (heard (snd r)) = "Hello")
  /\ completed (snd r) = ["Hello"]
  /\ exists um am,
       ChatMessage.content um = "hi" /\ ChatMessage.role um = user
       /\ ChatMessage.content am = "Hello" /\ ChatMessage.role am = assistant
       /\ loadChatHistoryFromStorage 7 (PerplexityStream.browser (snd r))
          = loadChatHistoryFromStorage 7 twoSessions ++ [um; am].
Proof.
  split; [reflexivity|]. split; [reflexivity|]. split; [reflexivity|].
  split; [reflexivity|].
  exact (stream_run_to_end
           (StreamResponse true (Some (mkReader ["data: Hel"; "  "; "data: lo "] false)))
           "hi" true true twoSessions student ["data: Hel"; "  "; "data: lo "]
           eq_refl eq_refl eq_refl eq_refl).
Defined.

End ClientChatExamples.

(* ------------------------------------------------------------------ *)
(** ** More on the server-side provider clients *)

Section ServerClientShapes.
Import ServerClients Scenario.

(** [getAIChatResponse] always resolves with a text that is not empty,
    after exactly one call to the backend, whatever the backend does. *)
Theorem openai_client_always_answers message s :
  exists text,
    fst (getAIChatResponse message s) = Returned text
    /\ text <> ""
    /\ callsMade (getAIChatResponse message) s = 1%nat.
Proof.
  unfold callsMade, getAIChatResponse, sdkCall, call. run.
  destruct (backend s _) as [|[|] [[|c text]|]]; cbn;
    eexists; (split; [reflexivity|]); (split; [discriminate | apply one_more_call]).
Qed.

(** [getPerplexityResponse] without a key rejects before any call is
    made. With a key it makes exactly one call, whose messages are the
    system instruction, when one is given and not empty, followed by the
    user's prompt; and when the backend answers that call with a success
    status and a text, the text is returned as it is. *)
Theorem perplexity_client_one_request userPrompt systemInstruction s :
  match perplexityKey s with
  | None | Some EmptyString =>
      getPerplexityResponse userPrompt systemInstruction s
      = (Thrown "Perplexity API key not configured", s)
  | Some _ =>
      let request :=
        mkRequest PerplexityBackend
          (match given systemInstruction with
           | Some text => [("system", text)]
           | None => []
           end ++ [("user", userPrompt)]) in
      sent (snd (getPerplexityResponse userPrompt systemInstruction s))
      = sent s ++ [request]
      /\ forall text,
          backend s request = Status true (Some text) ->
          fst (getPerplexityResponse userPrompt systemInstruction s) = Returned text
  end.
Proof.
  unfold getPerplexityResponse, call. run.
  destruct (perplexityKey s) as [[|c key]|]; cbn; try reflexivity.
  split.
  - destruct (backend s _) as [|[|] [text|]]; reflexivity.
  - intros text ->. reflexivity.
Qed.

(** [getGeminiResponse] with a system instruction sends the instruction
    first, as a message of its own; the prompt is sent only when that
    message was accepted, and a refusal of it makes the call fail with
    the prompt never sent. *)
Theorem gemini_client_primes_first prompt instruction s c rest :
  instruction = String c rest ->
  let priming := mkRequest GeminiBackend [("user", instruction)] in
  let asking := mkRequest GeminiBackend [("user", prompt)] in
  match backend s priming with
  | Status true _ =>
      sent (snd (getGeminiResponse prompt (Some instruction) s))
      = sent s ++ [priming; asking]
      /\ forall text,
          backend s asking = Status true (Some text) ->
          fst (getGeminiResponse prompt (Some instruction) s) = Returned text
  | _ =>
      returned (fst (getGeminiResponse prompt (Some instruction) s)) = false
      /\ sent (snd (getGeminiResponse prompt (Some instruction) s)) = sent s ++ [priming]
  end.
Proof.
  intros ->. unfold getGeminiResponse, sdkCall, call. run.
  destruct (backend s (mkRequest GeminiBackend [("user", String c rest)]))
    as [|[|] primed]; cbn; try (split; reflexivity).
  split.
  - destruct (backend s _) as [|[|] [text|]]; cbn; now rewrite <- app_assoc.
  - intros text ->. reflexivity.
Qed.

Lemma gemini_client_primes_first_witness :
  let priming := mkRequest GeminiBackend [("user", "Be brief.")] in
  returned (fst (getGeminiResponse "What is 2+2?" (Some "Be brief.") rejectingServer)) = false
  /\ sent (snd (getGeminiResponse "What is 2+2?" (Some "Be brief.") rejectingServer))
     = sent rejectingServer ++ [priming].
Proof.
  exact (gemini_client_primes_first "What is 2+2?" "Be brief." rejectingServer
           "B" "e brief." eq_refl).
Defined.

End ServerClientShapes.

(* ------------------------------------------------------------------ *)
(** ** The feeds ordered by date (storage.ts) *)

Section FeedFacts.
Import Storage Feeds.
Context {A : Type} (key : A -> option Z).

(** Narrowing rows that are in order and then placing a row among them
    gives the same as placing it first and narrowing after. *)
Lemma filter_insertDesc (keep : A -> bool) (x : A) (l : list A) :
  StronglySorted (inDescOrder key) l ->
  filter keep (insertDesc key x l)
  = if keep x then insertDesc key x (filter keep l) else filter keep l.
Proof.
  induction 1 as [|y rest Hrest IH Hall]; cbn.
  - now destruct (keep x).
  - destruct (descBefore (key y) (key x)) eqn:Hyx; cbn.
    + rewrite IH. destruct (keep y), (keep x); cbn; rewrite ?Hyx; reflexivity.
    + destruct (keep x) eqn:Hx; [|reflexivity].
      destruct (keep y) eqn:Hy; cbn; [now rewrite Hyx|].
      assert (Hfront : Forall (inDescOrder key x) (filter keep rest)).
      { rewrite Forall_forall in *. intros z Hz. apply filter_In in Hz as (Hz & _).
        eapply inDescOrder_trans; [exact Hyx | now apply Hall]. }
      destruct (filter keep rest) as [|z rest']; cbn; [reflexivity|].
      inversion Hfront as [|? ? Hz _]; subst. unfold inDescOrder in Hz. now rewrite Hz.
Qed.

(** When rows of equal key keep the order of the table, ranking and
    narrowing may be done in either order. *)
Lemma inTableOrder_filter (keep : A -> bool) (l : list A) :
  inTableOrder key (filter keep l) = filter keep (inTableOrder key l).
Proof.
  induction l as [|x rest IH]; [reflexivity|].
  cbn [inTableOrder fold_right filter]. fold (inTableOrder key rest).
  rewrite filter_insertDesc by apply inTableOrder_sorted.
  destruct (keep x); cbn [inTableOrder fold_right]; now rewrite <- IH.
Qed.

End FeedFacts.

Section FeedClaims.
Import Storage Feeds.

(** Whatever ordering the database performs: taken without an effective
    limit, the subject feed holds the same posts as the feed of recent
    posts narrowed to the subject, and both come newest first; with a
    limit, the subject feed shows only public posts of that subject, and
    no such post it leaves out is newer than one it shows. *)
Theorem subject_feed_narrows_recent_feed (orderByDesc : Engine) subject limit db :
  faithful orderByDesc ->
  let all := Some (List.length (posts db)) in
  let shown := getPostsBySubject orderByDesc subject limit db in
  Permutation (getPostsBySubject orderByDesc subject all db)
              (filter (hasSubject subject) (getRecentPosts orderByDesc all db))
  /\ StronglySorted (inDescOrder Post.createdAt)
                    (getPostsBySubject orderByDesc subject all db)
  /\ StronglySorted (inDescOrder Post.createdAt)
                    (filter (hasSubject subject) (getRecentPosts orderByDesc all db))
  /\ (forall p, In p shown ->
                In p (posts db)
                /\ Post.visibility p = "public" /\ Post.subject p = Some subject)
  /\ exists cut,
       Permutation (shown ++ cut)
                   (filter (fun p => isPublic p && hasSubject subject p) (posts db))
       /\ noneCutAhead Post.createdAt shown cut.
Proof.
  intros Hengine all shown. subst all shown.
  unfold getPostsBySubject, getRecentPosts. cbn [limitOr10].
  pose proof (Hengine _ Post.createdAt
                (filter (fun p => isPublic p && hasSubject subject p) (posts db)))
    as Hsubject.
  pose proof (Hengine _ Post.createdAt (filter isPublic (posts db))) as Hrecent.
  assert (Hall : forall rows ranked : list Post.t,
             rankedFrom Post.createdAt rows ranked ->
             (List.length rows <= List.length (posts db))%nat ->
             firstn (List.length (posts db)) ranked = ranked).
  { intros rows ranked (Hperm & _) Hle. apply firstn_all2.
    now rewrite (Permutation_length Hperm). }
  rewrite (Hall _ _ Hsubject) by apply filter_length_le.
  rewrite (Hall _ _ Hrecent) by apply filter_length_le.
  split.
  { destruct Hsubject as (Hperm & _). rewrite Hperm, filter_both.
    apply filter_permutation. symmetry. apply Hrecent. }
  split; [apply Hsubject|].
  split; [apply filter_sorted, Hrecent|].
  destruct (front_of_ranking Post.createdAt (limitOr10 limit) _ _ Hsubject)
    as (_ & Hin & Hcut & _).
  split; [|exact Hcut].
  intros p Hp. apply Hin, filter_In in Hp as (Hp & Hboth).
  apply andb_prop in Hboth as (Hpub & Hsub).
  unfold isPublic, hasSubject in *. split; [exact Hp|].
  split; [now apply String.eqb_eq|].
  destruct (Post.subject p); [|discriminate]. apply String.eqb_eq in Hsub. now subst.
Qed.

(** What the limit leaves out of a feed is never ahead of what the feed
    shows, whatever ordering the database performs: no public post left
    out of [getRecentPosts] is newer than a post shown, and none left out
    of [getTrendingPosts] scores higher. *)
Theorem feeds_show_the_front (orderByDesc : Engine) limit db :
  faithful orderByDesc ->
  (exists cut,
      Permutation (getRecentPosts orderByDesc limit db ++ cut)
                  (filter isPublic (posts db))
      /\ noneCutAhead Post.createdAt (getRecentPosts orderByDesc limit db) cut)
  /\ (exists cut,
         Permutation (getTrendingPosts orderByDesc limit db ++ cut)
                     (filter isPublic (posts db))
         /\ noneCutAhead trendingScore (getTrendingPosts orderByDesc limit db) cut).
Proof.
  intros Hengine. unfold getRecentPosts, getTrendingPosts. split.
  - apply (front_of_ranking Post.createdAt (limitOr10 limit) _ _ (Hengine _ _ _)).
  - apply (front_of_ranking trendingScore (limitOr10 limit) _ _ (Hengine _ _ _)).
Qed.

(** The posts a profile page lists are the user's public posts, newest
    first, whatever ordering the database performs: hiding the others
    after ranking loses no post and moves none. Where the database keeps
    rows of equal date in table order, the list is the ranking of the
    user's public posts in that order. *)
Theorem profile_lists_public_posts (orderByDesc : Engine) userId db :
  faithful orderByDesc ->
  let mine := fun p => Z.eqb (Post.userId p) userId && isPublic p in
  rankedFrom Post.createdAt (filter mine (posts db)) (profilePosts orderByDesc userId db)
  /\ (forall p, In p (profilePosts orderByDesc userId db) <->
                In p (posts db) /\ Post.userId p = userId /\ Post.visibility p = "public")
  /\ profilePosts tableOrder userId db
     = inTableOrder Post.createdAt (filter mine (posts db)).
Proof.
  intros Hengine mine.
  assert (Hranked : rankedFrom Post.createdAt (filter mine (posts db))
                      (profilePosts orderByDesc userId db)).
  { unfold profilePosts, getUserPosts. subst mine. cbv beta.
    rewrite (filter_both (fun p => Z.eqb (Post.userId p) userId) isPublic).
    apply filter_ranked, Hengine. }
  split; [exact Hranked|]. split.
  - intros p. destruct Hranked as (Hperm & _). split.
    + intros Hp. apply (Permutation_in _ Hperm) in Hp.
      apply filter_In in Hp as (Hin & Hp). apply andb_prop in Hp as (Hu & Hpub).
      unfold isPublic in Hpub. rewrite Z.eqb_eq in Hu. rewrite String.eqb_eq in Hpub. auto.
    + intros (Hin & Hu & Hpub).
      apply (Permutation_in _ (Permutation_sym Hperm)).
      apply filter_In. split; [exact Hin|]. unfold isPublic.
      apply andb_true_intro. split; [now apply Z.eqb_eq | now apply String.eqb_eq].
  - unfold profilePosts, getUserPosts, tableOrder. subst mine. cbv beta.
    now rewrite <- inTableOrder_filter, <- filter_both.
Qed.

End FeedClaims.

Section FeedExamples.
Import Storage Feeds Scenario.

Lemma subject_feed_narrows_recent_feed_witness :
  let db := tableOf [postC; diary; postA; postB] in
  let all := Some (List.length (posts db)) in
  let shown := getPostsBySubject reverseTableOrder "math" (Some 2%nat) db in
  Permutation (getPostsBySubject reverseTableOrder "math" all db)
              (filter (hasSubject "math") (getRecentPosts reverseTableOrder all db))
  /\ StronglySorted (inDescOrder Post.createdAt)
                    (getPostsBySubject reverseTableOrder "math" all db)
  /\ StronglySorted (inDescOrder Post.createdAt)
                    (filter (hasSubject "math") (getRecentPosts reverseTableOrder all db))
  /\ (forall p, In p shown ->
                In p (posts db)
                /\ Post.visibility p = "public" /\ Post.subject p = Some "math")
  /\ exists cut,
       Permutation (shown ++ cut)
                   (filter (fun p => isPublic p && hasSubject "math" p) (posts db))
       /\ noneCutAhead Post.createdAt shown cut.
Proof.
  exact (subject_feed_narrows_recent_feed reverseTableOrder "math" (Some 2%nat)
           (tableOf [postC; diary; postA; postB]) reverseTableOrder_faithful).
Defined.

Lemma feeds_show_the_front_witness :
  let db := tableOf [postC; diary; postA; postB] in
  (exists cut,
      Permutation (getRecentPosts tableOrder (Some 2%nat) db ++ cut)
                  (filter isPublic (posts db))
      /\ noneCutAhead Post.createdAt (getRecentPosts tableOrder (Some 2%nat) db) cut)
  /\ (exists cut,
         Permutation (getTrendingPosts tableOrder (Some 2%nat) db ++ cut)
                     (filter isPublic (posts db))
         /\ noneCutAhead trendingScore (getTrendingPosts tableOrder (Some 2%nat) db) cut).
Proof.
  exact (feeds_show_the_front tableOrder (Some 2%nat)
           (tableOf [postC; diary; postA; postB]) tableOrder_faithful).
Defined.

Lemma profile_lists_public_posts_witness :
  let db := tableOf [postC; diary; postA; postB] in
  let mine := fun p => Z.eqb (Post.userId p) 1 && isPublic p in
  rankedFrom Post.createdAt (filter mine (posts db)) (profilePosts reverseTableOrder 1 db)
  /\ (forall p, In p (profilePosts reverseTableOrder 1 db) <->
                In p (posts db) /\ Post.userId p = 1 /\ Post.visibility p = "public")
  /\ profilePosts tableOrder 1 db
     = inTableOrder Post.createdAt (filter mine (posts db)).
Proof.
  exact (profile_lists_public_posts reverseTableOrder 1
           (tableOf [postC; diary; postA; postB]) reverseTableOrder_faithful).
Defined.

End FeedExamples.

(* ------------------------------------------------------------------ *)
(** ** The chat routes (routes.ts) *)

Section ChatRouteFacts.
Import ServerClients ChatRoutes.

Implicit Types (st : Site) (userId : Z).

Lemma member_found userId (ids : list Z) :
  In userId ids -> existsb (Z.eqb userId) ids = true.
Proof.
  intros Hin. apply existsb_exists. exists userId. split; [exact Hin | apply Z.eqb_refl].
Qed.

Lemma createChatMessage_run userId message fromUser st :
  createChatMessage userId message fromUser st
  = if existsb (Z.eqb userId) (members st)
    then (Returned (mkChatRow (chatSeq st) userId message fromUser
                              (Some (clock st (chatSeq st)))),
          mkSite (server st) (members st)
                 (chatMessages st
                  ++ [mkChatRow (chatSeq st) userId message fromUser
                                (Some (clock st (chatSeq st)))])
                 (chatSeq st + 1) (clock st))
    else (Thrown "insert or update on table violates foreign key constraint",
          mkSite (server st) (members st) (chatMessages st) (chatSeq st + 1) (clock st)).
Proof.
  unfold createChatMessage. run. now destruct (existsb _ _).
Qed.

Lemma getAIChatResponse_returns message s :
  exists text, fst (getAIChatResponse message s) = Returned text.
Proof.
  unfold getAIChatResponse, sdkCall, call. run.
  destruct (backend s _) as [|[|] answer]; cbn; eexists; reflexivity.
Qed.

Lemma getHomeworkHelp_returns subject question s :
  exists text, fst (getHomeworkHelp subject question s) = Returned text.
Proof.
  unfold getHomeworkHelp, sdkCall, call. run.
  destruct (backend s _) as [|[|] answer]; cbn; eexists; reflexivity.
Qed.

Local Opaque createChatMessage getAIChatResponse getHomeworkHelp
  getPerplexityResponse getGeminiResponse.

(** What [POST /api/chat] stores for a signed-in user. *)
Lemma openai_routes_store session userId message st :
  signedIn session = Some userId -> In userId (members st) -> message <> "" ->
  exists answered,
    chatMessages (snd (chatRoute session (Text message) st))
    = chatMessages st ++ exchange userId message answered st.
Proof.
  intros Hin Hmember Hm. apply member_found in Hmember.
  destruct (getAIChatResponse_returns message (server st)) as (answered & Hanswer).
  exists answered. unfold chatRoute. rewrite Hin.
  destruct message as [|c m]; [congruence|]. run.
  rewrite createChatMessage_run, Hmember. unfold provider. cbn.
  rewrite Hanswer, createChatMessage_run. cbn. rewrite Hmember. cbn.
  now rewrite <- app_assoc.
Qed.



(** Run a route that asks first, from the provider's answer on. *)
Ltac answerFirst :=
  run; unfold provider, storedWhenAnswered; cbn;
  match goal with
  | |- context [fst (?m ?s)] => destruct (fst (m s)) as [answered|error]
  end; cbn;
  [ rewrite createChatMessage_run; cbn;
    destruct (existsb _ _) eqn:Hmember; cbn;
    [ rewrite createChatMessage_run; cbn; rewrite Hmember; cbn;
      rewrite <- app_assoc; split; reflexivity
    | split; [eexists; reflexivity | reflexivity] ]
  | split; reflexivity ].

Ltac sentAway :=
  eexists; split; [reflexivity|]; split; [discriminate | reflexivity].


(** A request of user 7 that the Gemini backend does not answer, and one
    it would answer for an account that is no user. *)
Lemma unanswered_or_unknown_stores_nothing :
  let down := geminiChatRoute (Some 7) (Text "hi") Missing Cases.classroom in
  fst down = Returned (mkHttp 500 (Message "Failed to get response from Gemini API"))
  /\ chatMessages (snd down) = []
  /\ returned (fst (getGeminiResponse "Be brief." None Scenario.primedOnly)) = true
  /\ chatMessages (snd (geminiChatRoute (Some 99) (Text "Be brief.") Missing
                          (mkSite Scenario.primedOnly [7; 8] [] 1 (fun n => n)))) = []
  /\ chatMessages (snd (geminiChatRoute (Some 7) (Text "Be brief.") Missing
                          (mkSite Scenario.primedOnly [7; 8] [] 1 (fun n => n))))
     = [mkChatRow 1 7 "Be brief." true (Some 1); mkChatRow 2 7 "OK" false (Some 2)].
Proof.
  vm_compute. repeat split.
Qed.

(** [POST /api/perplexity/homework] stores the question before it asks:
    when the provider answers, the answer is stored after it and sent
    back; when the provider rejects, the route answers 500 and the
    question stays in the table without an answer. *)
Theorem perplexity_homework_keeps_unanswered_question userId subject question st :
  In userId (members st) -> subject <> "" -> question <> "" ->
  let out := perplexityHomeworkRoute (Some userId) (Text subject) (Text question) st in
  match fst (getPerplexityHomeworkHelp subject question (server st)) with
  | Returned answered =>
      chatMessages (snd out)
      = chatMessages st ++ exchange userId (tagged subject question) answered st
      /\ fst out = Returned (mkHttp 200 (Answer answered (chatSeq st + 1)
                                                (Some (clock st (chatSeq st + 1)))))
  | Thrown error =>
      chatMessages (snd out)
      = chatMessages st ++ [questionRow userId (tagged subject question) st]
      /\ fst out = Returned (mkHttp 500 (Message error))
  end.
Proof.
  intros Hmember Hs Hq. apply member_found in Hmember.
  destruct subject as [|c s]; [congruence|].
  destruct question as [|d q]; [congruence|].
  unfold perplexityHomeworkRoute. run.
  rewrite createChatMessage_run, Hmember. unfold provider. cbn.
  destruct (fst (getPerplexityHomeworkHelp _ _ _)) as [answered|error]; cbn.
  - rewrite createChatMessage_run. cbn. rewrite Hmember. cbn.
    rewrite <- app_assoc. split; reflexivity.
  - split; reflexivity.
Qed.

Lemma ascBefore_asym (a b : option Z) : ascBefore a b = true -> ascBefore b a = false.
Proof.
  destruct a, b; cbn; try congruence. rewrite Z.ltb_lt, Z.ltb_ge. lia.
Qed.

Lemma insertAsc_In (x r : ChatRow) (l : list ChatRow) :
  In r (insertAsc x l) -> r = x \/ In r l.
Proof.
  induction l as [|y rest IH]; cbn; [intuition congruence|].
  destruct (ascBefore _ _); cbn; [|intuition congruence].
  intros [<- | Hr]; [auto|]. destruct (IH Hr); auto.
Qed.

Lemma orderByCreatedAt_In (r : ChatRow) (l : list ChatRow) :
  In r (orderByCreatedAt l) -> In r l.
Proof.
  induction l as [|x rest IH]; cbn; [tauto|].
  intros Hr. apply insertAsc_In in Hr as [-> | Hr]; [now left | right; now apply IH].
Qed.

Lemma insertAsc_length (x : ChatRow) (l : list ChatRow) :
  List.length (insertAsc x l) = S (List.length l).
Proof.
  induction l as [|y rest IH]; cbn; [reflexivity|].
  destruct (ascBefore _ _); cbn; now rewrite ?IH.
Qed.

Lemma orderByCreatedAt_length (l : list ChatRow) :
  List.length (orderByCreatedAt l) = List.length l.
Proof.
  unfold orderByCreatedAt. induction l as [|x rest IH]; cbn; [reflexivity|].
  now rewrite insertAsc_length, IH.
Qed.

(** A row older than every row of [late] is placed without looking at
    them. *)
Lemma insertAsc_app (x : ChatRow) (early late : list ChatRow) :
  (forall r, In r late -> ascBefore (chatCreatedAt x) (chatCreatedAt r) = true) ->
  insertAsc x (early ++ late) = insertAsc x early ++ late.
Proof.
  intros Hlate. induction early as [|y rest IH]; cbn.
  - destruct late as [|r late']; [reflexivity|]. cbn.
    now rewrite (ascBefore_asym _ _ (Hlate r (or_introl eq_refl))).
  - destruct (ascBefore _ _); cbn; now rewrite ?IH.
Qed.

Lemma orderByCreatedAt_app (early late : list ChatRow) :
  (forall x r, In x early -> In r late ->
               ascBefore (chatCreatedAt x) (chatCreatedAt r) = true) ->
  orderByCreatedAt (early ++ late) = orderByCreatedAt early ++ orderByCreatedAt late.
Proof.
  intros Hlate. induction early as [|x rest IH]; [reflexivity|].
  cbn [app orderByCreatedAt fold_right]. fold (orderByCreatedAt (rest ++ late)).
  fold (orderByCreatedAt rest).
  rewrite IH by (intros; apply Hlate; [now right | assumption]).
  apply insertAsc_app. intros r Hr. apply Hlate; [now left|].
  now apply orderByCreatedAt_In.
Qed.

Lemma filter_isOf_exchange userId asked answered st :
  filter (isOf userId) (chatMessages st ++ exchange userId asked answered st)
  = filter (isOf userId) (chatMessages st) ++ exchange userId asked answered st.
Proof.
  rewrite filter_app. cbn. unfold isOf. cbn. now rewrite Z.eqb_refl.
Qed.

Lemma stampedBefore_spec userId t rows x :
  stampedBefore userId t rows = true -> In x (filter (isOf userId) rows) ->
  ascBefore (chatCreatedAt x) (Some t) = true.
Proof.
  unfold stampedBefore. rewrite forallb_forall. intros Hall Hx.
  apply filter_In in Hx as (Hx & Hof). specialize (Hall x Hx).
  rewrite Hof in Hall. cbn in Hall. now destruct (chatCreatedAt x).
Qed.

Lemma historyRoute_run session userId st :
  signedIn session = Some userId ->
  historyRoute session st
  = (Returned (mkHttp 200 (Rows (firstn 50 (orderByCreatedAt
                                              (filter (isOf userId) (chatMessages st)))))),
     st).
Proof. intros Hin. unfold historyRoute. now rewrite Hin. Qed.


End ChatRouteFacts.

Section ChatRouteExamples.
Import ServerClients ChatRoutes Scenario Cases.


Lemma perplexity_homework_keeps_unanswered_question_witness :
  let out := perplexityHomeworkRoute (Some 7) (Text "Math") (Text "2+2?") keyless in
  chatMessages (snd out) = [questionRow 7 "[Math] 2+2?" keyless]
  /\ fst out = Returned (mkHttp 500 (Message "Perplexity API key not configured")).
Proof.
  exact (perplexity_homework_keeps_unanswered_question 7 "Math" "2+2?" keyless
           (or_introl eq_refl) ltac:(discriminate) ltac:(discriminate)).
Defined.


End ChatRouteExamples.
